(** * MinHashed Atom Pair fingerprint (MAP) and its batch orchestrator

    A shallow embedding of [src/skfp/fingerprints/map.py] (class
    [MAPFingerprint]) and of [src/base.py] (class [FingerprintTransformer]),
    together with the fragments of the Python runtime, [hashlib], [struct],
    [numpy], [datasketch] and RDKit that the two files call.

    Conventions.
    - A Python [str] is represented by the [string] of its UTF-8 bytes.
      Python compares [str] values by code point, and the byte order of UTF-8
      is the code point order, so [sorted] and [str.encode()] are both exact
      on this representation.
    - A Python [int] is a [Z]; a Python [float] is the rational [Q] it
      denotes (only [int(x)] is ever applied to one).
    - A raised exception is the [Raise] case of [result]. *)

From Stdlib Require Import ZArith QArith Qround String Ascii DecimalString List.
From Stdlib.Strings Require Import Byte.
From Stdlib Require DecimalZ DecimalPos.
From stdpp Require Import gmap strings list fin_maps.

(** ** Python runtime *)

Inductive exn : Type :=
| ValueError
| IndexError
| ZeroDivisionError
| StructError.

Inductive result (A : Type) : Type :=
| Ok (a : A)
| Raise (e : exn).
Arguments Ok {A} a.
Arguments Raise {A} e.

#[export] Instance result_ret : MRet result := fun _ a => Ok a.
#[export] Instance result_bind : MBind result := fun _ _ f m =>
  match m with
  | Ok a => f a
  | Raise e => Raise e
  end.

(** [for x in xs: st = body(st, x)], where the body may raise. *)
Fixpoint foldM {S A : Type} (body : S → A → result S) (st : S) (xs : list A)
  : result S :=
  match xs with
  | [] => Ok st
  | x :: xs' => st' ← body st x; foldM body st' xs'
  end.

(** [[f(x) for x in xs]], where [f] may raise. *)
Fixpoint forM {A B : Type} (f : A → result B) (xs : list A) : result (list B) :=
  match xs with
  | [] => Ok []
  | x :: xs' => y ← f x; ys ← forM f xs'; Ok (y :: ys)
  end.

(** ** [hashlib.sha1]: SHA-1 over byte strings (FIPS 180-4) *)

Module Hashlib.
Local Open Scope Z_scope.

Definition mask32 : Z := 0xFFFFFFFF.
Definition add32 (x y : Z) : Z := Z.land (x + y) mask32.
Definition not32 (x : Z) : Z := Z.lxor x mask32.
Definition rotl32 (n x : Z) : Z :=
  Z.land (Z.lor (Z.shiftl x n) (Z.shiftr x (32 - n))) mask32.

Definition byte_to_Z (b : byte) : Z := Z.of_N (Byte.to_N b).
Definition byte_of_Z (z : Z) : byte :=
  default x00 (Byte.of_N (Z.to_N (Z.land z 255))).

(** big-endian bytes of a word, most significant first *)
Definition be_bytes (n : nat) (w : Z) : list Z :=
  map (fun k => Z.land (Z.shiftr w (8 * Z.of_nat k)) 255) (rev (seq 0 n)).
Definition be_word (bs : list Z) : Z :=
  fold_left (fun acc b => acc * 256 + b) bs 0.

Definition pad (msg : list Z) : list Z :=
  let len := Z.of_nat (length msg) in
  msg ++ [128] ++ repeat 0 (Z.to_nat ((55 - len) mod 64)) ++ be_bytes 8 (8 * len).

Fixpoint group (fuel : nat) (k : nat) (l : list Z) : list (list Z) :=
  match fuel with
  | O => []
  | S fuel' =>
      match l with
      | [] => []
      | _ => take k l :: group fuel' k (drop k l)
      end
  end.

Definition f_t (t : nat) (b c d : Z) : Z :=
  if (t <? 20)%nat then Z.lor (Z.land b c) (Z.land (not32 b) d)
  else if (t <? 40)%nat then Z.lxor (Z.lxor b c) d
  else if (t <? 60)%nat then Z.lor (Z.lor (Z.land b c) (Z.land b d)) (Z.land c d)
  else Z.lxor (Z.lxor b c) d.

Definition k_t (t : nat) : Z :=
  if (t <? 20)%nat then 0x5A827999
  else if (t <? 40)%nat then 0x6ED9EBA1
  else if (t <? 60)%nat then 0x8F1BBCDC
  else 0xCA62C1D6.

Definition regs : Type := Z * Z * Z * Z * Z.

(** One of the 80 rounds. [w] is the sliding window W[t..t+15] of the message
    schedule: W[t+16] = rotl1 (W[t+13] xor W[t+8] xor W[t+2] xor W[t]). *)
Definition round (st : regs * list Z) (t : nat) : regs * list Z :=
  let '((a, b, c, d, e), w) := st in
  let temp :=
    add32 (add32 (add32 (add32 (rotl32 5 a) (f_t t b c d)) e) (k_t t)) (nth 0 w 0) in
  let next :=
    rotl32 1 (Z.lxor (Z.lxor (Z.lxor (nth 13 w 0) (nth 8 w 0)) (nth 2 w 0)) (nth 0 w 0)) in
  ((temp, a, rotl32 30 b, c, d), tl w ++ [next]).

Definition compress (h : regs) (block : list Z) : regs :=
  let '(h0, h1, h2, h3, h4) := h in
  let w := map be_word (group 16 4 block) in
  let '((a, b, c, d, e), _) := fold_left round (seq 0 80) (h, w) in
  (add32 h0 a, add32 h1 b, add32 h2 c, add32 h3 d, add32 h4 e).

Definition init : regs :=
  (0x67452301, 0xEFCDAB89, 0x98BADCFE, 0x10325476, 0xC3D2E1F0).

(** [hashlib.sha1(data, usedforsecurity=False).digest()] *)
Definition sha1 (data : list byte) : list byte :=
  let m := pad (map byte_to_Z data) in
  let '(h0, h1, h2, h3, h4) := fold_left compress (group (length m) 64 m) init in
  map byte_of_Z
    (be_bytes 4 h0 ++ be_bytes 4 h1 ++ be_bytes 4 h2 ++ be_bytes 4 h3 ++ be_bytes 4 h4).

End Hashlib.

(** ** Python built-ins used by the two source files *)

Module Py.

(** [a % b] on Python integers: the result has the sign of [b]. *)
Definition mod_ (a b : Z) : result Z :=
  if (b =? 0)%Z then Raise ZeroDivisionError else Ok (a mod b)%Z.

(** [a // b] on non-negative integers. *)
Definition floordiv (a b : nat) : result nat :=
  if (b =? 0)%nat then Raise ZeroDivisionError else Ok (a / b)%nat.

(** [int(x)] for a float [x]: truncation toward zero. *)
Definition int_of_float (x : Q) : Z := Z.quot (Qnum x) (Z.pos (Qden x)).

(** [str(n)] for an integer [n]. *)
Definition str (n : Z) : string := NilZero.string_of_int (Z.to_int n).

(** [bool(x)] for [x : Optional[str]]: [None] and [""] are falsy. *)
Definition truthy (x : option string) : bool :=
  match x with
  | Some s => negb (String.eqb s "")
  | None => false
  end.

(** [sorted(xs)] on strings: a stable insertion sort by [<=]. *)
Fixpoint insert_le (x : string) (xs : list string) : list string :=
  match xs with
  | [] => [x]
  | y :: ys => if String.leb x y then x :: y :: ys else y :: insert_le x ys
  end.
Definition sorted (xs : list string) : list string := foldr insert_le [] xs.

(** [xs[i]], raising [IndexError] out of range. *)
Definition index {A : Type} (xs : list A) (i : nat) : result A :=
  match xs !! i with
  | Some x => Ok x
  | None => Raise IndexError
  end.

(** [xs[i:j]] for [0 <= i <= j]. *)
Definition slice {A : Type} (xs : list A) (i j : nat) : list A :=
  take (j - i) (drop i xs).

(** [range(start, stop, step)] for a positive [step]; [ValueError] on 0. *)
Fixpoint range_from (fuel start stop step : nat) : list nat :=
  match fuel with
  | O => []
  | S fuel' =>
      if (start <? stop)%nat then start :: range_from fuel' (start + step) stop step
      else []
  end.
Definition range3 (start stop step : nat) : result (list nat) :=
  if (step =? 0)%nat then Raise ValueError
  else Ok (range_from stop start stop step).

(** [itertools.combinations(xs, 2)]: pairs in lexicographic position order. *)
Fixpoint combinations2 {A : Type} (xs : list A) : list (A * A) :=
  match xs with
  | [] => []
  | x :: xs' => map (pair x) xs' ++ combinations2 xs'
  end.

(** [s.encode()] *)
Definition encode (s : string) : list byte := list_byte_of_string s.

End Py.

(** ** [struct.unpack] *)

Module Struct.
Import Hashlib.

(** [struct.unpack("<I", b)[0]]: exactly four bytes, little-endian. *)
Definition unpack_lt_I (b : list byte) : result Z :=
  match b with
  | [b0; b1; b2; b3] =>
      Ok (Z.lor (Z.lor (Z.lor (byte_to_Z b0) (Z.shiftl (byte_to_Z b1) 8))
                       (Z.shiftl (byte_to_Z b2) 16))
                (Z.shiftl (byte_to_Z b3) 24))
  | _ => Raise StructError
  end.

End Struct.

(** ** NumPy: the three array operations the sources use.
    A one-dimensional integer array is a [list Z]; a two-dimensional one is
    the list of its rows. *)

Module Np.

Definition row : Type := list Z.
Definition matrix : Type := list row.

Definition count_of (k : Z) (x : list Z) : Z :=
  Z.of_nat (length (List.filter (fun v => Z.eqb v k) x)).

(** [np.bincount(x, minlength=minlength)]: negative entries and a negative
    [minlength] are errors; the result has [max(minlength, max(x) + 1)]
    bins (and [minlength] bins when [x] is empty). *)
Definition bincount (x : list Z) (minlength : Z) : result row :=
  if existsb (fun v => (v <? 0)%Z) x then Raise ValueError
  else if (minlength <? 0)%Z then Raise ValueError
  else
    let bins := Z.max minlength (1 + fold_right Z.max (-1) x)%Z in
    Ok (map (fun k => count_of (Z.of_nat k) x) (seq 0 (Z.to_nat bins))).

(** [np.stack(arrays)]: needs at least one array, all of one shape. *)
Definition stack (arrays : list row) : result matrix :=
  match arrays with
  | [] => Raise ValueError
  | a :: rest =>
      if forallb (fun r => (length r =? length a)%nat) rest then Ok arrays
      else Raise ValueError
  end.

Definition width (m : matrix) : nat :=
  match m with
  | [] => O
  | r :: _ => length r
  end.

(** What a fingerprint method returns: the dense array [np.array(X)], or
    the compressed-row array [csr_array(X)] of SciPy, represented by the
    matrix it stores. *)
Inductive arraylike : Type :=
| ndarray (M : matrix)
| csr_array (M : matrix).

(** The stored matrix ([A] itself, or [A.todense()]). *)
Definition contents (A : arraylike) : matrix :=
  match A with
  | ndarray M => M
  | csr_array M => M
  end.

(** The dense arrays of a sequence, when all of its members are dense. *)
Fixpoint ndarrays (arrays : list arraylike) : option (list matrix) :=
  match arrays with
  | [] => Some []
  | ndarray M :: rest =>
      match ndarrays rest with
      | Some Ms => Some (M :: Ms)
      | None => None
      end
  | csr_array _ :: _ => None
  end.

(** Two-dimensional dense arrays joined along axis 0: at least one array,
    all with the same number of columns. *)
Definition concatenate_rows (ms : list matrix) : result matrix :=
  match ms with
  | [] => Raise ValueError
  | m :: rest =>
      if forallb (fun m' => (width m' =? width m)%nat) rest then Ok (concat ms)
      else Raise ValueError
  end.

(** [np.concatenate(arrays)] along axis 0. A compressed-row array is no
    array to NumPy: it is taken as a zero-dimensional object, and
    zero-dimensional arrays cannot be concatenated ([ValueError]). *)
Definition concatenate (arrays : list arraylike) : result arraylike :=
  match ndarrays arrays with
  | Some ms => M ← concatenate_rows ms; Ok (ndarray M)
  | None => Raise ValueError
  end.

(** [(X > 0).astype(np.uint8)] and [X.astype(np.uint32)], entry by entry. *)
Definition gt0_uint8 (v : Z) : Z := if (v >? 0)%Z then 1%Z else 0%Z.
Definition as_uint32 (v : Z) : Z := (v mod 2 ^ 32)%Z.

End Np.

(** ** RDKit: the molecule as the sources observe it.

    The toolkit is external; a molecule is given by the answers of the
    toolkit functions the sources call on it. *)

Module RDKit.

(** The sub-molecule built by [PathToSubmol(mol, env, atomMap=atom_map)]:
    [atomMap] is the dictionary the call fills (atom index in [mol] to atom
    index in the sub-molecule), and [MolToSmiles root] is
    [MolToSmiles(submol, rootedAtAtom=root, canonical=True,
    isomericSmiles=False)]. *)
Record Submol : Type := {
  atomMap : gmap nat nat;
  MolToSmiles : nat → string
}.

(** [FindAtomEnvironmentOfRadiusN x y] is the toolkit call with [x] and [y]
    as its second and third positional arguments (the toolkit names them
    [radius] and [rootedAtAtom]); [None] stands for the [ValueError] the
    toolkit raises ("bad atom index"), [Some env] for the returned bond
    path. [GetDistanceMatrix i j] is entry [i][j] of the float matrix. *)
Record Mol : Type := {
  GetNumAtoms : nat;
  FindAtomEnvironmentOfRadiusN : nat → nat → option (list nat);
  PathToSubmol : list nat → Submol;
  GetDistanceMatrix : nat → nat → Q
}.

Record Atom : Type := { GetIdx : nat }.

(** [mol.GetAtoms()]: the atoms in index order, [0 .. GetNumAtoms() - 1]. *)
Definition GetAtoms (mol : Mol) : list Atom :=
  map Build_Atom (seq 0 (GetNumAtoms mol)).

(** [MolFromSmiles(s)]: the parsed molecule, or [None] when [s] does not
    parse (the toolkit does not raise). *)
Class Parser : Type := { MolFromSmiles : string → option Mol }.

End RDKit.

(** ** datasketch: [MinHash(num_perm, seed)], one [update_batch], [digest].

    [permutation seed k] is the [k]-th pair [(a, b)] that the library draws
    from its generator seeded with [seed]. Hash values start at [max_hash];
    each shingle [s] lowers slot [k] to
    [((a * h(s) + b) mod mersenne_prime) land max_hash] in 64-bit unsigned
    arithmetic, [h] being the first four SHA-1 bytes read little-endian. *)

Module Datasketch.
Local Open Scope Z_scope.

Class Permutations : Type := { permutation : Z → nat → Z * Z }.

Definition mersenne_prime : Z := 2 ^ 61 - 1.
Definition max_hash : Z := 2 ^ 32 - 1.
Definition u64 (x : Z) : Z := x mod 2 ^ 64.

Definition sha1_hash32 (data : list byte) : Z :=
  match Struct.unpack_lt_I (take 4 (Hashlib.sha1 data)) with
  | Ok v => v
  | Raise _ => 0
  end.

Definition permuted (ab : Z * Z) (hv : Z) : Z :=
  Z.land (u64 (u64 (fst ab * hv) + snd ab) mod mersenne_prime) max_hash.

Definition digest `{Permutations} (num_perm seed : Z) (b : list (list byte))
  : list Z :=
  map (fun k =>
         fold_left Z.min (map (fun s => permuted (permutation seed k) (sha1_hash32 s)) b)
                   max_hash)
      (seq 0 (Z.to_nat num_perm)).

End Datasketch.

(** ** Values that can appear in the sequence handed to [transform] *)

Inductive PyObj : Type :=
| PyMol (m : RDKit.Mol)      (* an instance of rdkit.Chem.rdchem.Mol *)
| PyStr (s : string)         (* an object whose type is exactly str *)
| PyNone                     (* None *)
| PyInt (z : Z).             (* some other object *)

Definition isinstance_Mol (o : PyObj) : bool :=
  match o with
  | PyMol _ => true
  | _ => false
  end.

Definition type_is_str (o : PyObj) : bool :=
  match o with
  | PyStr _ => true
  | _ => false
  end.

(** ** [src/base.py]: class [FingerprintTransformer] *)

Module Base.
Import RDKit.

Section FingerprintTransformer.
Context `{Parser}.

(** The abstract method, and the attribute [self.n_jobs]. *)
Variable _calculate_fingerprint : list PyObj → result Np.arraylike.
Variable n_jobs : nat.

(** The value [MolFromSmiles(molecule)] stored back into [X[i]]. *)
Definition parsed (s : string) : PyObj :=
  match MolFromSmiles s with
  | Some m => PyMol m
  | None => PyNone
  end.

(** The loop of [_validate_input] over [enumerate(X)]. [X] is the caller's
    list object: [X[i] = ...] writes into it, so the loop threads its
    contents, and returns them together with the outcome. *)
Fixpoint validate_loop (idxs : list nat) (X : list PyObj)
  : list PyObj * result unit :=
  match idxs with
  | [] => (X, Ok ())
  | i :: idxs' =>
      match X !! i with
      | None => (X, Ok ())
      | Some molecule =>
          if negb (isinstance_Mol molecule) && negb (type_is_str molecule)
          then (X, Raise ValueError)
          else
            match molecule with
            | PyStr s => validate_loop idxs' (<[i := parsed s]> X)
            | _ => validate_loop idxs' X
            end
      end
  end.

(** [_validate_input(X)]: the contents of the list after the call, and
    [Ok ()] when it returns (it returns the list [X] itself). *)
Definition _validate_input (X : list PyObj) : list PyObj * result unit :=
  validate_loop (seq 0 (length X)) X.

(** The [else] branch of [transform] for a given [batch_size]:
    sub-batches [X[i : i + batch_size]], one call of [_calculate_fingerprint]
    per sub-batch, results collected in submission order and concatenated. *)
Definition dispatch (batch_size : nat) (X : list PyObj)
  : result Np.arraylike :=
  idxs ← Py.range3 0 (length X) batch_size;
  results ← forM (fun i => _calculate_fingerprint (Py.slice X i (i + batch_size))) idxs;
  Np.concatenate results.

(** [transform(X)]: the contents of the caller's list afterwards, and the
    returned matrix or the exception raised. *)
Definition transform (X : list PyObj) : list PyObj * result Np.arraylike :=
  let '(X', ok) := _validate_input X in
  (X',
   _ ← ok;
   if (n_jobs =? 1)%nat then _calculate_fingerprint X'
   else
     q ← Py.floordiv (length X') n_jobs;
     dispatch (Nat.max q 1) X').

End FingerprintTransformer.
End Base.

(** ** [src/skfp/fingerprints/map.py]: class [MAPFingerprint] *)

Module MAP.
Import RDKit.

Inductive Variant : Type := raw_hashes | bit | count.

Definition is_count (v : Variant) : bool :=
  match v with
  | count => true
  | _ => false
  end.

(** The attributes the computation reads. [sparse] only selects the storage
    of the result matrix, whose entries are the same either way. *)
Record MAPFingerprint : Type := {
  fp_size : Z;
  radius : nat;
  variant : Variant;
  sparse : bool;
  random_state : Z
}.

(** [_find_neighborhood(mol, atom_idx, n_radius)]. The source passes
    [atom_idx] and [n_radius] to the toolkit in this order. *)
Definition _find_neighborhood (mol : Mol) (atom_idx n_radius : nat)
  : option string :=
  match FindAtomEnvironmentOfRadiusN mol atom_idx n_radius with
  | None => None
  | Some env =>
      let submol := PathToSubmol mol env in
      let atom_map := atomMap submol in
      match atom_map !! atom_idx with
      | Some root => Some (MolToSmiles submol root)
      | None => None
      end
  end.

(** [_get_atom_envs(mol)]: [atoms_env] is a [defaultdict(list)]. *)
Definition _get_atom_envs (self : MAPFingerprint) (mol : Mol)
  : gmap nat (list (option string)) :=
  fold_left
    (fun atoms_env atom =>
       let idx := GetIdx atom in
       let atom_envs :=
         map (fun r => _find_neighborhood mol idx r) (seq 1 (radius self)) in
       <[idx := default [] (atoms_env !! idx) ++ atom_envs]> atoms_env)
    (GetAtoms mol) ∅.

(** [shingle_dict]: a [defaultdict(int)], kept in insertion order. *)
Fixpoint dict_incr (d : list (string * Z)) (k : string) : list (string * Z) :=
  match d with
  | [] => [(k, 1%Z)]
  | (k', c) :: d' =>
      if String.eqb k' k then (k', (c + 1)%Z) :: d'
      else (k', c) :: dict_incr d' k
  end.

(** [ordered = sorted([env_a_radius, env_b_radius])] and the f-string. *)
Definition shingle_of (env_a_radius env_b_radius dist : string) : string :=
  let ordered := Py.sorted [env_a_radius; env_b_radius] in
  nth 0 ordered "" +:+ "|" +:+ dist +:+ "|" +:+ nth 1 ordered "".

(** Loop state: the list [shingles] and the dictionary [shingle_dict]. *)
Definition acc : Type := list string * list (string * Z).

(** Body of [for i in range(self.radius)]. *)
Definition radius_step (self : MAPFingerprint) (dist : string)
    (env_a env_b : list (option string)) (st : acc) (i : nat) : result acc :=
  env_a_radius ← Py.index env_a i;
  env_b_radius ← Py.index env_b i;
  if negb (Py.truthy env_a_radius) || negb (Py.truthy env_b_radius) then Ok st
  else
    match env_a_radius, env_b_radius with
    | Some a, Some b =>
        let shingle := shingle_of a b dist in
        if is_count (variant self) then Ok (fst st, dict_incr (snd st) shingle)
        else Ok (fst st ++ [shingle], snd st)
    | _, _ => Ok st
    end.

(** Body of [for idx_1, idx_2 in itertools.combinations(range(num_atoms), 2)]. *)
Definition pair_step (self : MAPFingerprint) (mol : Mol)
    (atoms_envs : gmap nat (list (option string))) (st : acc) (p : nat * nat)
  : result acc :=
  let '(idx_1, idx_2) := p in
  let dist := Py.str (Py.int_of_float (GetDistanceMatrix mol idx_1 idx_2)) in
  let env_a := default [] (atoms_envs !! idx_1) in
  let env_b := default [] (atoms_envs !! idx_2) in
  foldM (radius_step self dist env_a env_b) st (seq 0 (radius self)).

(** The shingle strings before [encode()]. *)
Definition shingle_strings (self : MAPFingerprint) (mol : Mol)
    (atoms_envs : gmap nat (list (option string))) : result (list string) :=
  let num_atoms := GetNumAtoms mol in
  st ← foldM (pair_step self mol atoms_envs) ([], [])
             (Py.combinations2 (seq 0 num_atoms));
  let '(shingles, shingle_dict) := st in
  if is_count (variant self) then
    let shingle_count :=
      map (fun kv => fst kv +:+ "|" +:+ Py.str (snd kv)) shingle_dict in
    Ok (shingles ++ shingle_count)
  else Ok shingles.

(** [_get_atom_pair_shingles(mol, atoms_envs)] *)
Definition _get_atom_pair_shingles (self : MAPFingerprint) (mol : Mol)
    (atoms_envs : gmap nat (list (option string))) : result (list (list byte)) :=
  shingles ← shingle_strings self mol atoms_envs;
  Ok (map Py.encode shingles).

(** [_get_hash(shingle)] *)
Definition _get_hash (shingle : list byte) : result Z :=
  let hash_bytes := Hashlib.sha1 shingle in
  Struct.unpack_lt_I (take 4 hash_bytes).

(** The two comprehensions [hashes] and [bits] of the folded variants. *)
Definition fold_bits (self : MAPFingerprint) (shingles : list (list byte))
  : result (list Z) :=
  hashes ← forM _get_hash shingles;
  forM (fun hash_val => Py.mod_ hash_val (fp_size self)) hashes.

Section Fingerprint.
Context `{Datasketch.Permutations} `{Parser}.

(** [_calculate_single_mol_fingerprint(mol)] *)
Definition _calculate_single_mol_fingerprint (self : MAPFingerprint) (mol : Mol)
  : result Np.row :=
  let atoms_envs := _get_atom_envs self mol in
  shingles ← _get_atom_pair_shingles self mol atoms_envs;
  match variant self with
  | raw_hashes =>
      Ok (Datasketch.digest (fp_size self) (random_state self) shingles)
  | _ =>
      bits ← fold_bits self shingles;
      Np.bincount bits (fp_size self)
  end.

(** Modelled from the spec: [skfp.utils.ensure_mols], which is not among the
    sources. Each element must be an already parsed molecule or a textual
    notation that the toolkit parses; anything else is an input-validation
    error. *)
Definition ensure_mols (X : list PyObj) : result (list Mol) :=
  forM (fun o =>
          match o with
          | PyMol m => Ok m
          | PyStr s =>
              match MolFromSmiles s with
              | Some m => Ok m
              | None => Raise ValueError
              end
          | _ => Raise ValueError
          end) X.

(** The cast applied to every entry after [np.stack]. *)
Definition cast (v : Variant) (x : Z) : Z :=
  match v with
  | bit => Np.gt0_uint8 x
  | count => Np.as_uint32 x
  | raw_hashes => x
  end.

(** [_calculate_fingerprint(X)]: the stacked and cast rows, returned as
    [csr_array(X) if self.sparse else np.array(X)]. *)
Definition _calculate_fingerprint (self : MAPFingerprint) (X : list PyObj)
  : result Np.arraylike :=
  X ← ensure_mols X;
  rows ← forM (_calculate_single_mol_fingerprint self) X;
  X ← Np.stack rows;
  let X := map (map (cast (variant self))) X in
  Ok (if sparse self then Np.csr_array X else Np.ndarray X).

(** [transform] of [src/base.py] with [MAPFingerprint._calculate_fingerprint]
    in the place of the abstract method. *)
Definition transform (self : MAPFingerprint) (n_jobs : nat) (X : list PyObj)
  : list PyObj * result Np.arraylike :=
  Base.transform (_calculate_fingerprint self) n_jobs X.

End Fingerprint.
End MAP.

(** ** Two concrete molecules

    The toolkit answers are tabulated for the calls that [MAPFingerprint]
    makes with [radius <= 2]. In [FindAtomEnvironmentOfRadiusN x y] the
    toolkit treats [x] as the radius and [y] as the atom the environment is
    rooted at: it raises "bad atom index" when [y] is no atom, returns the
    bonds within [x] bonds of atom [y], and returns the empty path when no
    bond lies at distance [x]. Sub-molecule atoms keep the index they have
    in the molecule; only membership in [atomMap] and the SMILES written for
    the mapped root are observed by the sources. *)

Module Examples.
Import RDKit.

Definition no_atoms : Submol :=
  {| atomMap := ∅; MolToSmiles := fun _ => EmptyString |}.

(** Lithium fluoride, [[Li]F]: atoms 0 (Li) and 1 (F), bond 0 between them. *)
Definition LiF : Mol :=
  {| GetNumAtoms := 2;
     FindAtomEnvironmentOfRadiusN := fun x y =>
       if (2 <=? y)%nat then None               (* "bad atom index" *)
       else if (x =? 1)%nat then Some [0%nat]   (* the bond *)
       else Some [];                            (* no bond at that radius *)
     PathToSubmol := fun env =>
       match env with
       | [_] => {| atomMap := {[ 0%nat := 0%nat; 1%nat := 1%nat ]};
                   MolToSmiles := fun root =>
                     if (root =? 0)%nat then "[Li]F" else "F[Li]" |}
       | _ => no_atoms
       end;
     GetDistanceMatrix := fun i j => if (i =? j)%nat then 0%Q else 1%Q |}.

(** 2-methylpentane written [C(C)(C)CCC]: atom 0 carries the methyl atoms
    1 and 2 and the chain 3-4-5. Bonds: 0 = (0,1), 1 = (0,2), 2 = (0,3),
    3 = (3,4), 4 = (4,5). *)
Definition methylpentane_path (x y : nat) : option (list nat) :=
  if (6 <=? y)%nat then None
  else
    match y, x with
    | 1%nat, 1%nat => Some [0%nat]
    | 1%nat, 2%nat => Some [0; 1; 2]%nat
    | 1%nat, 3%nat => Some [0; 1; 2; 3]%nat
    | 1%nat, 4%nat => Some [0; 1; 2; 3; 4]%nat
    | 2%nat, 1%nat => Some [1%nat]
    | 2%nat, 2%nat => Some [1; 0; 2]%nat
    | 2%nat, 3%nat => Some [1; 0; 2; 3]%nat
    | 2%nat, 4%nat => Some [1; 0; 2; 3; 4]%nat
    | _, _ => Some []
    end.

Definition methylpentane_submol (env : list nat) : Submol :=
  match env with
  | [0%nat] =>
      {| atomMap := {[ 0%nat := 0%nat; 1%nat := 1%nat ]};
         MolToSmiles := fun _ => "CC" |}
  | [1%nat] =>
      {| atomMap := {[ 0%nat := 0%nat; 2%nat := 2%nat ]};
         MolToSmiles := fun _ => "CC" |}
  | [_; _; _] =>
      {| atomMap := list_to_map (map (fun a => (a, a)) (seq 0 4));
         MolToSmiles := fun root =>
           if (root =? 0)%nat then "C(C)(C)C" else "CC(C)C" |}
  | [_; _; _; _] =>
      {| atomMap := list_to_map (map (fun a => (a, a)) (seq 0 5));
         MolToSmiles := fun root =>
           match root with
           | 0%nat => "C(C)(C)CC"
           | 3%nat => "C(C)C(C)C"
           | 4%nat => "CCC(C)C"
           | _ => "CC(C)CC"
           end |}
  | [_; _; _; _; _] =>
      {| atomMap := list_to_map (map (fun a => (a, a)) (seq 0 6));
         MolToSmiles := fun root =>
           match root with
           | 0%nat => "C(C)(C)CCC"
           | 3%nat => "C(CC)C(C)C"
           | 4%nat => "C(C)CC(C)C"
           | 5%nat => "CCCC(C)C"
           | _ => "CC(C)CCC"
           end |}
  | _ => no_atoms
  end.

(** Bond counts of the shortest paths in the tree above. *)
Definition methylpentane_depth (i : nat) : Z :=
  match i with
  | 0%nat => 0
  | 4%nat => 2
  | 5%nat => 3
  | _ => 1
  end.
Definition methylpentane_on_chain (i : nat) : bool :=
  negb ((i =? 1)%nat || (i =? 2)%nat).
Definition methylpentane_distance (i j : nat) : Q :=
  inject_Z
    (if (i =? j)%nat then 0
     else if methylpentane_on_chain i && methylpentane_on_chain j
          then Z.abs (methylpentane_depth i - methylpentane_depth j)
          else methylpentane_depth i + methylpentane_depth j)%Z.

Definition methylpentane : Mol :=
  {| GetNumAtoms := 6;
     FindAtomEnvironmentOfRadiusN := methylpentane_path;
     PathToSubmol := methylpentane_submol;
     GetDistanceMatrix := methylpentane_distance |}.

#[export] Instance parser : Parser :=
  {| MolFromSmiles := fun s =>
       if String.eqb s "[Li]F" then Some LiF
       else if String.eqb s "C(C)(C)CCC" then Some methylpentane
       else None |}.

(** A stand-in for the pairs the sketch library draws from its generator. *)
#[export] Instance permutations : Datasketch.Permutations :=
  {| Datasketch.permutation := fun seed k =>
       ((1 + 2 * Z.of_nat k + seed) mod Datasketch.mersenne_prime,
        (7 + Z.of_nat k) mod Datasketch.mersenne_prime)%Z |}.

Definition default_map : MAP.MAPFingerprint :=
  {| MAP.fp_size := 1024; MAP.radius := 2; MAP.variant := MAP.bit;
     MAP.sparse := false; MAP.random_state := 0 |}.

Definition with_variant (v : MAP.Variant) (size : Z) (r : nat)
  : MAP.MAPFingerprint :=
  {| MAP.fp_size := size; MAP.radius := r; MAP.variant := v;
     MAP.sparse := false; MAP.random_state := 0 |}.

End Examples.

(** ** The specification's vocabulary, for stating its claims *)

Module Spec.
Import RDKit MAP.

(** A byte string read as an unsigned little-endian integer. *)
Definition le_value (bs : list byte) : Z :=
  foldr (fun b v => (Hashlib.byte_to_Z b + 256 * v)%Z) 0%Z bs.

(** The bucket of a shingle: first four digest bytes, little-endian, reduced
    modulo the output size. *)
Definition bucket (output_size : Z) (shingle : list byte) : Z :=
  (le_value (take 4 (Hashlib.sha1 shingle)) mod output_size)%Z.

(** A neighborhood "exists" when the table holds a (non-empty) string. *)
Definition exists_ (env : option string) : bool := Py.truthy env.

Definition lex_min (a b : string) : string := if String.leb a b then a else b.
Definition lex_max (a b : string) : string := if String.leb a b then b else a.

(** The truncated integer shortest-path distance between two atoms. *)
Definition distance (mol : Mol) (i j : nat) : Z :=
  Py.int_of_float (GetDistanceMatrix mol i j).

(** smaller neighborhood, distance, larger neighborhood, joined by "|" *)
Definition shingle (a : string) (d : Z) (b : string) : string :=
  lex_min a b +:+ "|" +:+ Py.str d +:+ "|" +:+ lex_max a b.

(** What one (atom pair, radius) combination contributes: one shingle when
    both neighborhoods exist, nothing otherwise. *)
Definition emitted (env_i env_j : option string) (d : Z) : list string :=
  match env_i, env_j with
  | Some a, Some b => if exists_ env_i && exists_ env_j then [shingle a d b] else []
  | _, _ => []
  end.

(** The row of the neighborhood table for one atom: radius 1 to the maximum. *)
Definition neighborhoods (self : MAPFingerprint) (mol : Mol) (idx : nat)
  : list (option string) :=
  map (fun r => _find_neighborhood mol idx r) (seq 1 (radius self)).

(** Recording a run of shingles in the loop state: counted in the dictionary
    in count mode, appended to the list otherwise. *)
Definition record (self : MAPFingerprint) (st : acc) (ss : list string) : acc :=
  if is_count (variant self) then (fst st, fold_left dict_incr ss (snd st))
  else (fst st ++ ss, snd st).

(** The shingles of one atom pair over all radii. *)
Definition pair_occurrences (self : MAPFingerprint) (mol : Mol) (p : nat * nat)
  : list string :=
  flat_map
    (fun r =>
       emitted (_find_neighborhood mol (fst p) r)
               (_find_neighborhood mol (snd p) r)
               (distance mol (fst p) (snd p)))
    (seq 1 (radius self)).

(** All shingle occurrences of a molecule, pair by pair in increasing
    [(i, j)], radius by radius from 1 to the maximum, duplicates kept. *)
Definition occurrences (self : MAPFingerprint) (mol : Mol) : list string :=
  flat_map (pair_occurrences self mol)
           (Py.combinations2 (seq 0 (GetNumAtoms mol))).

(** Count mode: the dictionary after all pairs and radii, and the strings
    that are hashed in each mode. *)
Definition counted (self : MAPFingerprint) (mol : Mol) : list (string * Z) :=
  fold_left dict_incr (occurrences self mol) [].

Definition hashed_strings (self : MAPFingerprint) (mol : Mol) : list string :=
  if is_count (variant self)
  then map (fun kv => fst kv +:+ "|" +:+ Py.str (snd kv)) (counted self mol)
  else occurrences self mol.

(** The distinct shingle strings of a molecule. *)
Definition distinct_shingles (self : MAPFingerprint) (mol : Mol) : list string :=
  remove_dups (occurrences self mol).

(** The number of (atom pair, radius) combinations for which both
    neighborhoods exist. *)
Definition valid_combinations (self : MAPFingerprint) (mol : Mol) : nat :=
  length
    (List.filter
       (fun pr =>
          exists_ (_find_neighborhood mol (fst (fst pr)) (snd pr))
          && exists_ (_find_neighborhood mol (snd (fst pr)) (snd pr)))
       (list_prod (Py.combinations2 (seq 0 (GetNumAtoms mol)))
                  (seq 1 (radius self)))).

Definition sum_Z (v : list Z) : Z := foldr Z.add 0%Z v.

Definition zeros (n : Z) : list Z := repeat 0%Z (Z.to_nat n).

Definition with_radius (self : MAPFingerprint) (r : nat) : MAPFingerprint :=
  {| fp_size := fp_size self; radius := r; variant := variant self;
     sparse := sparse self; random_state := random_state self |}.

(** An element that is neither a structural-graph object nor a parseable
    textual notation. *)
Definition unrecognised `{Parser} (o : PyObj) : bool :=
  match o with
  | PyMol _ => false
  | PyStr s => negb (bool_decide (is_Some (MolFromSmiles s)))
  | _ => true
  end.

(** An element that is neither a [Mol] instance nor of type [str]. *)
Definition wrong_type (o : PyObj) : bool :=
  negb (isinstance_Mol o) && negb (type_is_str o).

(** The neighborhood of [idx] at radius [r] is unavailable: the extraction
    raised, or the sub-molecule does not contain the atom. *)
Definition unavailable (mol : Mol) (idx r : nat) : Prop :=
  FindAtomEnvironmentOfRadiusN mol idx r = None
  ∨ ∃ env, FindAtomEnvironmentOfRadiusN mol idx r = Some env
           ∧ atomMap (PathToSubmol mol env) !! idx = None.

(** What validation leaves in the caller's list for one element. *)
Definition converted `{Parser} (o : PyObj) : PyObj :=
  match o with
  | PyStr s => Base.parsed s
  | _ => o
  end.

(** Validation read from left to right: elements are converted up to the
    first one of a wrong type, where the error is raised. *)
Fixpoint validated `{Parser} (X : list PyObj) : list PyObj * result unit :=
  match X with
  | [] => ([], Ok ())
  | o :: X' =>
      if wrong_type o then (o :: X', Raise ValueError)
      else (converted o :: fst (validated X'), snd (validated X'))
  end.

(** The molecule an element stands for, the molecules of a sequence, and
    the row of the output matrix for a molecule. *)
Definition mol_of `{Parser} (o : PyObj) : option Mol :=
  match o with
  | PyMol m => Some m
  | PyStr s => MolFromSmiles s
  | _ => None
  end.

Fixpoint mols_of `{Parser} (X : list PyObj) : option (list Mol) :=
  match X with
  | [] => Some []
  | o :: X' =>
      match mol_of o, mols_of X' with
      | Some m, Some ms => Some (m :: ms)
      | _, _ => None
      end
  end.

Definition fingerprint `{Datasketch.Permutations} `{Parser}
    (self : MAPFingerprint) (mol : Mol) : Np.row :=
  match _calculate_single_mol_fingerprint self mol with
  | Ok fp => fp
  | Raise _ => []
  end.

Definition row `{Datasketch.Permutations} `{Parser}
    (self : MAPFingerprint) (mol : Mol) : Np.row :=
  map (cast (variant self)) (fingerprint self mol).

(** The sub-batches [X[i : i + batch_size]] in submission order. *)
Definition sub_batches (batch_size : nat) (X : list PyObj) : list (list PyObj) :=
  map (fun i => Py.slice X i (i + batch_size))
      (Py.range_from (length X) 0 (length X) batch_size).

(** Three sentences of the specification, as written. *)

Definition count_sum_is_combinations `{Datasketch.Permutations} `{Parser}
    (self : MAPFingerprint) (mol : Mol) : Prop :=
  variant self = count →
  ∀ fp, _calculate_single_mol_fingerprint self mol = Ok fp →
        sum_Z fp = Z.of_nat (valid_combinations self mol).

Definition input_left_unchanged `{Parser}
    (calc : list PyObj → result Np.arraylike) (n_jobs : nat) (X : list PyObj)
  : Prop :=
  fst (Base.transform calc n_jobs X) = X.


(** A matrix in the representation the configuration asks for. *)
Definition returned (self : MAPFingerprint) (M : Np.matrix) : Np.arraylike :=
  if sparse self then Np.csr_array M else Np.ndarray M.

(** Every unordered pair of distinct atom indices below [n], once, written
    [(i, j)] with [i < j]. *)
Definition atom_pairs (n : nat) : list (nat * nat) :=
  flat_map (fun i => map (pair i) (seq (S i) (n - S i))) (seq 0 n).

(** A rational truncated toward zero. *)
Definition truncated (x : Q) : Z :=
  if Qle_bool 0 x then Qfloor x else Qceiling x.

(** What one (atom pair, radius) combination generates when a neighborhood
    string "exists" as soon as the table holds a string. *)
Definition generated (env_i env_j : option string) (d : Z) : list string :=
  match env_i, env_j with
  | Some a, Some b => [lex_min a b +:+ "|" +:+ Py.str d +:+ "|" +:+ lex_max a b]
  | _, _ => []
  end.

(** The shingles of a molecule: for every unordered pair of distinct atoms
    and every radius from 1 to the maximum, what the combination generates. *)
Definition shingles (self : MAPFingerprint) (mol : Mol) : list string :=
  flat_map
    (fun p =>
       flat_map
         (fun r =>
            generated (_find_neighborhood mol (fst p) r)
                      (_find_neighborhood mol (snd p) r)
                      (truncated (GetDistanceMatrix mol (fst p) (snd p))))
         (seq 1 (radius self)))
    (atom_pairs (GetNumAtoms mol)).

(** The toolkit writes a non-empty SMILES for a sub-molecule rooted at one
    of its atoms. *)
Definition rooted_smiles_nonempty (mol : Mol) : Prop :=
  ∀ env idx root,
    atomMap (PathToSubmol mol env) !! idx = Some root →
    MolToSmiles (PathToSubmol mol env) root ≠ EmptyString.

(** The toolkit contract behind the [ValueError] that [_find_neighborhood]
    catches: the third positional argument of
    [FindAtomEnvironmentOfRadiusN] names an atom, and the call raises
    ("bad atom index") when the molecule has no atom of that index. *)
Definition bad_atom_index_raises (mol : Mol) : Prop :=
  ∀ x y, GetNumAtoms mol ≤ y → FindAtomEnvironmentOfRadiusN mol x y = None.

End Spec.

(** ** Further vocabulary: closed forms of the folded fingerprints *)

Module More.
Import RDKit MAP.

(** The number of times a string occurs in a list. *)
Definition occurrences_of (s : string) (l : list string) : Z :=
  Z.of_nat (length (List.filter (String.eqb s) l)).

(** The bucket of a shingle string for a configuration. *)
Definition bucket_of (self : MAPFingerprint) (s : string) : Z :=
  Spec.bucket (fp_size self) (Py.encode s).

(** Binary presence per bucket: entry [k] is 1 when some shingle occurrence
    of the molecule falls in bucket [k]. *)
Definition bit_row (self : MAPFingerprint) (mol : Mol) : Np.row :=
  map (fun k =>
         if existsb (fun s => (bucket_of self s =? Z.of_nat k)%Z)
                    (Spec.occurrences self mol)
         then 1%Z else 0%Z)
      (seq 0 (Z.to_nat (fp_size self))).

(** The distinct buckets hit by the shingle occurrences of a molecule. *)
Definition distinct_buckets (self : MAPFingerprint) (mol : Mol) : list Z :=
  remove_dups (map (bucket_of self) (Spec.occurrences self mol)).

(** A fingerprint method that computes one row per element, whatever the
    batch it is in. *)
Definition row_wise (calc : list PyObj → result Np.arraylike)
    (f : PyObj → Np.row) (w : nat) : Prop :=
  (∀ o, length (f o) = w) ∧ (∀ X, X ≠ [] → calc X = Ok (Np.ndarray (map f X))).

(** Water, [O]: a single heavy atom and no bond. *)
Definition water : Mol :=
  {| GetNumAtoms := 1;
     FindAtomEnvironmentOfRadiusN := fun x y =>
       if (1 <=? y)%nat then None else Some [];
     PathToSubmol := fun _ => Examples.no_atoms;
     GetDistanceMatrix := fun _ _ => 0%Q |}.

(** Propane, [CCC]: atoms 0-1-2, bond 0 = (0,1), bond 1 = (1,2). The
    answers of [FindAtomEnvironmentOfRadiusN x y] are complete: [x] is taken
    as the radius and [y] as the rooting atom. *)
Definition propane : Mol :=
  {| GetNumAtoms := 3;
     FindAtomEnvironmentOfRadiusN := fun x y =>
       if (3 <=? y)%nat then None               (* "bad atom index" *)
       else
         match y, x with
         | 0%nat, 1%nat => Some [0%nat]
         | 0%nat, 2%nat => Some [0; 1]%nat
         | 1%nat, 1%nat => Some [0; 1]%nat
         | 2%nat, 1%nat => Some [1%nat]
         | 2%nat, 2%nat => Some [1; 0]%nat
         | _, _ => Some []                      (* no bond at that radius *)
         end;
     PathToSubmol := fun env =>
       match env with
       | [0%nat] => {| atomMap := {[ 0%nat := 0%nat; 1%nat := 1%nat ]};
                       MolToSmiles := fun _ => "CC" |}
       | [1%nat] => {| atomMap := {[ 1%nat := 1%nat; 2%nat := 2%nat ]};
                       MolToSmiles := fun _ => "CC" |}
       | [_; _] => {| atomMap := list_to_map (map (fun a => (a, a)) (seq 0 3));
                      MolToSmiles := fun root =>
                        if (root =? 1)%nat then "C(C)C" else "CCC" |}
       | _ => Examples.no_atoms
       end;
     GetDistanceMatrix := fun i j =>
       inject_Z (Z.abs (Z.of_nat i - Z.of_nat j)) |}.


End More.

(** * Properties *)

(** ** The result monad *)

Lemma forM_ok_map {A B : Type} (f : A → result B) (g : A → B) (xs : list A) :
  (∀ x, x ∈ xs → f x = Ok (g x)) → forM f xs = Ok (map g xs).
Proof.
  induction xs as [|x xs IH]; intros Hf; [reflexivity|].
  cbn [forM map]. rewrite (Hf x) by apply list_elem_of_here.
  cbn. rewrite IH; [reflexivity|].
  intros y Hy. apply Hf. by apply list_elem_of_further.
Qed.

Lemma forM_length {A B : Type} (f : A → result B) (xs : list A) (ys : list B) :
  forM f xs = Ok ys → length ys = length xs.
Proof.
  revert ys. induction xs as [|x xs IH]; intros ys; cbn [forM].
  - intros [= <-]. reflexivity.
  - destruct (f x) as [y|e]; cbn; [|discriminate].
    destruct (forM f xs) as [ys'|e]; cbn; [|discriminate].
    intros [= <-]. cbn. f_equal. by apply IH.
Qed.

(** ** Hashing: digest length and the little-endian reading *)

Section Hashing.
Import Hashlib.
Local Open Scope Z_scope.

Lemma sha1_length (data : list byte) : length (sha1 data) = 20%nat.
Proof.
  unfold sha1.
  destruct (fold_left compress _ init) as [[[[h0 h1] h2] h3] h4].
  reflexivity.
Qed.

Lemma byte_to_Z_range (b : byte) : 0 ≤ byte_to_Z b < 256.
Proof.
  unfold byte_to_Z. pose proof (Byte.to_N_bounded b) as Hb.
  split; [apply N2Z.is_nonneg|].
  apply N.lt_succ_r in Hb. change (N.succ 255) with 256%N in Hb.
  change 256 with (Z.of_N 256). by apply N2Z.inj_lt.
Qed.

Lemma lor_shiftl_add (a b n : Z) :
  0 ≤ n → 0 ≤ a < 2 ^ n → Z.lor a (Z.shiftl b n) = a + b * 2 ^ n.
Proof.
  intros Hn Ha. rewrite <- Z.shiftl_mul_pow2 by assumption.
  symmetry. apply Z.add_nocarry_lor.
  apply Z.bits_inj'. intros k Hk.
  rewrite Z.land_spec, Z.bits_0.
  destruct (Z.ltb_spec k n) as [Hlt|Hge].
  - rewrite (Z.shiftl_spec_low b n k) by assumption. apply andb_false_r.
  - destruct (Z.eq_dec a 0) as [->|Hne]; [by rewrite Z.bits_0|].
    rewrite (Z.bits_above_log2 a k); [reflexivity|lia|].
    apply Z.log2_lt_pow2; [lia|].
    apply Z.lt_le_trans with (2 ^ n); [lia|].
    apply Z.pow_le_mono_r; lia.
Qed.

Lemma unpack_le_value (b0 b1 b2 b3 : byte) :
  Struct.unpack_lt_I [b0; b1; b2; b3] = Ok (Spec.le_value [b0; b1; b2; b3])
  ∧ 0 ≤ Spec.le_value [b0; b1; b2; b3] < 2 ^ 32.
Proof.
  pose proof (byte_to_Z_range b0). pose proof (byte_to_Z_range b1).
  pose proof (byte_to_Z_range b2). pose proof (byte_to_Z_range b3).
  unfold Struct.unpack_lt_I, Spec.le_value. cbn [foldr].
  rewrite (lor_shiftl_add (byte_to_Z b0) (byte_to_Z b1) 8) by lia.
  rewrite (lor_shiftl_add _ (byte_to_Z b2) 16) by lia.
  rewrite (lor_shiftl_add _ (byte_to_Z b3) 24) by lia.
  split; [f_equal; lia|lia].
Qed.

Lemma _get_hash_spec (shingle : list byte) :
  MAP._get_hash shingle = Ok (Spec.le_value (take 4 (sha1 shingle)))
  ∧ 0 ≤ Spec.le_value (take 4 (sha1 shingle)) < 2 ^ 32.
Proof.
  unfold MAP._get_hash. pose proof (sha1_length shingle) as Hlen.
  destruct (sha1 shingle) as [|b0 [|b1 [|b2 [|b3 rest]]]]; try discriminate.
  cbn [take]. apply unpack_le_value.
Qed.

Lemma fold_bits_spec (self : MAP.MAPFingerprint) (shingles : list (list byte)) :
  1 ≤ MAP.fp_size self →
  MAP.fold_bits self shingles = Ok (map (Spec.bucket (MAP.fp_size self)) shingles).
Proof.
  intros Hsize. unfold MAP.fold_bits.
  rewrite (forM_ok_map _ (fun s => Spec.le_value (take 4 (sha1 s)))).
  2:{ intros s _. apply _get_hash_spec. }
  cbn. rewrite (forM_ok_map _ (fun h => h mod MAP.fp_size self)).
  2:{ intros h _. unfold Py.mod_.
      destruct (Z.eqb_spec (MAP.fp_size self) 0); [lia|reflexivity]. }
  by rewrite map_map.
Qed.

Lemma bucket_range (output_size : Z) (shingle : list byte) :
  1 ≤ output_size → 0 ≤ Spec.bucket output_size shingle < output_size.
Proof. intros. unfold Spec.bucket. apply Z.mod_pos_bound. lia. Qed.

End Hashing.

(** ** [np.bincount]: length and sum of the histogram *)

Section Bincount.
Local Open Scope Z_scope.

Lemma sum_Z_app (u v : list Z) : Spec.sum_Z (u ++ v) = Spec.sum_Z u + Spec.sum_Z v.
Proof.
  unfold Spec.sum_Z. induction u as [|a u IH]; cbn [foldr app]; lia.
Qed.

Lemma sum_Z_pointwise (f g : nat → Z) (ks : list nat) :
  Spec.sum_Z (map (fun k => f k + g k) ks)
  = Spec.sum_Z (map f ks) + Spec.sum_Z (map g ks).
Proof.
  unfold Spec.sum_Z. induction ks as [|k ks IH]; cbn [foldr map]; lia.
Qed.

Lemma sum_indicator (a : Z) (m : nat) :
  0 ≤ a →
  Spec.sum_Z (map (fun k => if a =? Z.of_nat k then 1 else 0) (seq 0 m))
  = if a <? Z.of_nat m then 1 else 0.
Proof.
  intros Ha. induction m as [|m IH].
  - cbn [seq map]. destruct (Z.ltb_spec a (Z.of_nat 0)); [lia|reflexivity].
  - rewrite seq_S, map_app, sum_Z_app, IH. cbn [map Spec.sum_Z foldr plus].
    destruct (Z.ltb_spec a (Z.of_nat m)), (Z.eqb_spec a (Z.of_nat m)),
             (Z.ltb_spec a (Z.of_nat (S m))); lia.
Qed.

Lemma count_of_cons (k a : Z) (x : list Z) :
  Np.count_of k (a :: x) = (if a =? k then 1 else 0) + Np.count_of k x.
Proof.
  unfold Np.count_of. cbn [List.filter].
  destruct (a =? k); cbn [length]; lia.
Qed.

Lemma histogram_sum (x : list Z) (m : nat) :
  Forall (fun v => 0 ≤ v < Z.of_nat m) x →
  Spec.sum_Z (map (fun k => Np.count_of (Z.of_nat k) x) (seq 0 m))
  = Z.of_nat (length x).
Proof.
  induction 1 as [|a x Ha _ IH].
  - generalize (seq 0 m). intros ks.
    induction ks as [|k ks IHks]; [reflexivity|].
    unfold Spec.sum_Z in *. cbn [map foldr]. rewrite IHks. reflexivity.
  - rewrite (map_ext _ (fun k => (if a =? Z.of_nat k then 1 else 0)
                                 + Np.count_of (Z.of_nat k) x)).
    2:{ intros k. apply count_of_cons. }
    rewrite sum_Z_pointwise, IH, sum_indicator by lia.
    destruct (Z.ltb_spec a (Z.of_nat m)); cbn [length]; lia.
Qed.

Lemma max_below (x : list Z) (n : Z) :
  0 ≤ n → Forall (fun v => 0 ≤ v < n) x → fold_right Z.max (-1) x < n.
Proof.
  intros Hn. induction 1 as [|a x Ha _ IH]; cbn [fold_right]; lia.
Qed.

Lemma no_negative (x : list Z) (n : Z) :
  Forall (fun v => 0 ≤ v < n) x → existsb (fun v => v <? 0) x = false.
Proof.
  induction 1 as [|a x Ha _ IH]; [reflexivity|].
  cbn [existsb]. rewrite IH. destruct (Z.ltb_spec a 0); [lia|reflexivity].
Qed.

Lemma bincount_in_range (x : list Z) (n : Z) :
  0 ≤ n → Forall (fun v => 0 ≤ v < n) x →
  Np.bincount x n
  = Ok (map (fun k => Np.count_of (Z.of_nat k) x) (seq 0 (Z.to_nat n))).
Proof.
  intros Hn Hx. unfold Np.bincount.
  rewrite (no_negative x n Hx).
  destruct (Z.ltb_spec n 0); [lia|].
  pose proof (max_below x n Hn Hx).
  by rewrite Z.max_l by lia.
Qed.

Lemma bincount_empty (n : Z) : 0 ≤ n → Np.bincount [] n = Ok (Spec.zeros n).
Proof.
  intros Hn. rewrite (bincount_in_range [] n Hn) by constructor.
  f_equal. unfold Spec.zeros, Np.count_of. cbn.
  generalize 0%nat at 2. induction (Z.to_nat n) as [|m IH]; intros s; [done|].
  cbn [seq map repeat]. by rewrite IH.
Qed.

Lemma buckets_in_range (n : Z) (shingles : list (list byte)) :
  1 ≤ n → Forall (fun v => 0 ≤ v < n) (map (Spec.bucket n) shingles).
Proof.
  intros Hn. apply Forall_forall. intros v Hv.
  apply list_elem_of_In in Hv. apply in_map_iff in Hv as (s & <- & _).
  by apply bucket_range.
Qed.

End Bincount.

(** ** The neighborhood table *)

Section Neighborhoods.
Import RDKit MAP.

Lemma atom_envs_upto (self : MAPFingerprint) (mol : Mol) (n i : nat) :
  fold_left
    (fun atoms_env atom =>
       let idx := GetIdx atom in
       let atom_envs :=
         map (fun r => _find_neighborhood mol idx r) (seq 1 (radius self)) in
       <[idx := default [] (atoms_env !! idx) ++ atom_envs]> atoms_env)
    (map Build_Atom (seq 0 n)) (∅ : gmap nat (list (option string))) !! i
  = if decide (i < n) then Some (Spec.neighborhoods self mol i) else None.
Proof.
  induction n as [|n IH] in i |- *.
  - cbn. rewrite lookup_empty. by case_decide; [lia|].
  - rewrite seq_S, map_app, fold_left_app. cbn [map fold_left plus GetIdx].
    set (m := fold_left _ _ _) in *.
    destruct (decide (i = n)) as [->|Hne].
    + rewrite lookup_insert_eq, (IH n).
      case_decide; [lia|]. case_decide; [|lia]. reflexivity.
    + rewrite lookup_insert_ne by done. rewrite (IH i).
      repeat case_decide; try lia; reflexivity.
Qed.

Lemma atom_envs_lookup (self : MAPFingerprint) (mol : Mol) (i : nat) :
  _get_atom_envs self mol !! i
  = if decide (i < GetNumAtoms mol) then Some (Spec.neighborhoods self mol i)
    else None.
Proof. apply atom_envs_upto. Qed.

Lemma neighborhoods_lookup (self : MAPFingerprint) (mol : Mol) (idx k : nat) :
  k < radius self →
  Spec.neighborhoods self mol idx !! k = Some (_find_neighborhood mol idx (S k)).
Proof.
  intros Hk. unfold Spec.neighborhoods.
  change (map ?f ?l) with (f <$> l).
  rewrite list_lookup_fmap, lookup_seq_lt by assumption. reflexivity.
Qed.

Lemma neighborhoods_length (self : MAPFingerprint) (mol : Mol) (idx : nat) :
  length (Spec.neighborhoods self mol idx) = radius self.
Proof. unfold Spec.neighborhoods. by rewrite length_map, length_seq. Qed.

End Neighborhoods.

(** ** The shingle loops *)

Section ShingleLoops.
Import RDKit MAP.

Lemma sorted_pair (a b : string) :
  Py.sorted [a; b] = [Spec.lex_min a b; Spec.lex_max a b].
Proof.
  unfold Py.sorted, Spec.lex_min, Spec.lex_max. cbn [foldr Py.insert_le].
  by destruct (String.leb a b).
Qed.

Lemma shingle_of_spec (a b : string) (d : Z) :
  shingle_of a b (Py.str d) = Spec.shingle a d b.
Proof. unfold shingle_of, Spec.shingle. by rewrite sorted_pair. Qed.

Lemma record_nil (self : MAPFingerprint) (st : acc) : Spec.record self st [] = st.
Proof.
  unfold Spec.record. destruct st as [l d], (is_count _); cbn; [done|].
  by rewrite app_nil_r.
Qed.

Lemma record_app (self : MAPFingerprint) (st : acc) (u v : list string) :
  Spec.record self (Spec.record self st u) v = Spec.record self st (u ++ v).
Proof.
  unfold Spec.record. destruct (is_count _); cbn [fst snd].
  - by rewrite fold_left_app.
  - by rewrite app_assoc.
Qed.

Lemma radius_step_spec (self : MAPFingerprint) (d : Z)
    (env_a env_b : list (option string)) (st : acc) (i : nat)
    (a b : option string) :
  env_a !! i = Some a → env_b !! i = Some b →
  radius_step self (Py.str d) env_a env_b st i
  = Ok (Spec.record self st (Spec.emitted a b d)).
Proof.
  intros Ha Hb. unfold radius_step, Py.index. rewrite Ha, Hb. cbn.
  unfold Spec.emitted, Spec.exists_.
  destruct a as [a|], b as [b|]; cbn [Py.truthy negb orb andb];
    rewrite ?orb_true_r, ?record_nil; try reflexivity.
  destruct (negb (String.eqb a "")), (negb (String.eqb b ""));
    cbn [negb orb andb]; rewrite ?record_nil; try reflexivity.
  rewrite shingle_of_spec. unfold Spec.record.
  by destruct (is_count _).
Qed.

Lemma radius_loop_spec (self : MAPFingerprint) (mol : Mol) (i j : nat) (d : Z)
    (ks : list nat) (st : acc) :
  Forall (fun k => k < radius self) ks →
  foldM (radius_step self (Py.str d) (Spec.neighborhoods self mol i)
                     (Spec.neighborhoods self mol j)) st ks
  = Ok (Spec.record self st
          (flat_map (fun k => Spec.emitted (_find_neighborhood mol i (S k))
                                           (_find_neighborhood mol j (S k)) d)
                    ks)).
Proof.
  intros Hks. induction Hks as [|k ks Hk _ IH] in st |- *.
  - cbn. by rewrite record_nil.
  - cbn [foldM flat_map].
    rewrite (radius_step_spec self d _ _ st k _ _
               (neighborhoods_lookup self mol i k Hk)
               (neighborhoods_lookup self mol j k Hk)).
    cbn. by rewrite IH, record_app.
Qed.

Lemma flat_map_shift {A : Type} (f : nat → list A) (n : nat) :
  flat_map (fun k => f (S k)) (seq 0 n) = flat_map f (seq 1 n).
Proof.
  rewrite <- seq_shift. generalize (seq 0 n). intros ks.
  induction ks as [|k ks IH]; [reflexivity|]. cbn. by rewrite IH.
Qed.

Lemma pair_step_spec (self : MAPFingerprint) (mol : Mol) (st : acc) (p : nat * nat) :
  fst p < GetNumAtoms mol → snd p < GetNumAtoms mol →
  pair_step self mol (_get_atom_envs self mol) st p
  = Ok (Spec.record self st (Spec.pair_occurrences self mol p)).
Proof.
  destruct p as [i j]. cbn [fst snd]. intros Hi Hj.
  unfold pair_step. rewrite !atom_envs_lookup.
  case_decide; [|lia]. case_decide; [|lia]. cbn [default from_option]. unfold id.
  change (Py.int_of_float (GetDistanceMatrix mol i j)) with (Spec.distance mol i j).
  rewrite radius_loop_spec.
  - unfold Spec.pair_occurrences. cbn [fst snd].
    by rewrite (flat_map_shift
                  (fun r => Spec.emitted (_find_neighborhood mol i r)
                                         (_find_neighborhood mol j r)
                                         (Spec.distance mol i j))).
  - apply Forall_forall. intros k Hk. apply list_elem_of_In, in_seq in Hk. lia.
Qed.

Lemma combinations2_in {A : Type} (xs : list A) (p : A * A) :
  In p (Py.combinations2 xs) → In (fst p) xs ∧ In (snd p) xs.
Proof.
  induction xs as [|x xs IH]; cbn [Py.combinations2]; [done|].
  intros Hp. apply in_app_or in Hp as [Hp|Hp].
  - apply in_map_iff in Hp as (y & <- & Hy). cbn. auto.
  - destruct (IH Hp). cbn. auto.
Qed.

Lemma pair_loop_spec (self : MAPFingerprint) (mol : Mol) (ps : list (nat * nat))
    (st : acc) :
  Forall (fun p => fst p < GetNumAtoms mol ∧ snd p < GetNumAtoms mol) ps →
  foldM (pair_step self mol (_get_atom_envs self mol)) st ps
  = Ok (Spec.record self st (flat_map (Spec.pair_occurrences self mol) ps)).
Proof.
  intros Hps. induction Hps as [|p ps [Hi Hj] _ IH] in st |- *.
  - cbn. by rewrite record_nil.
  - cbn [foldM flat_map]. rewrite pair_step_spec by assumption.
    cbn. by rewrite IH, record_app.
Qed.

Lemma atom_pairs_in_range (n : nat) :
  Forall (fun p => fst p < n ∧ snd p < n) (Py.combinations2 (seq 0 n)).
Proof.
  apply Forall_forall. intros p Hp.
  apply list_elem_of_In, combinations2_in in Hp as [Hi Hj].
  apply in_seq in Hi, Hj. lia.
Qed.

(** The loops never raise on the table built by [_get_atom_envs], and they
    record exactly the occurrences. *)
Lemma shingle_strings_spec (self : MAPFingerprint) (mol : Mol) :
  shingle_strings self mol (_get_atom_envs self mol)
  = Ok (if is_count (variant self)
        then map (fun kv => fst kv +:+ "|" +:+ Py.str (snd kv))
                 (fold_left dict_incr (Spec.occurrences self mol) [])
        else Spec.occurrences self mol).
Proof.
  unfold shingle_strings.
  rewrite pair_loop_spec by apply atom_pairs_in_range.
  cbn. unfold Spec.record. fold (Spec.occurrences self mol).
  by destruct (is_count _).
Qed.

End ShingleLoops.

(** ** One molecule: shingles, buckets, histogram *)

Section SingleMolecule.
Import RDKit MAP.
Context `{Datasketch.Permutations} `{Parser}.
Local Open Scope Z_scope.

Lemma atom_pair_shingles_spec (self : MAPFingerprint) (mol : Mol) :
  _get_atom_pair_shingles self mol (_get_atom_envs self mol)
  = Ok (map Py.encode (Spec.hashed_strings self mol)).
Proof.
  unfold _get_atom_pair_shingles. by rewrite shingle_strings_spec.
Qed.

Lemma folded_spec (self : MAPFingerprint) (mol : Mol) :
  1 ≤ fp_size self → variant self ≠ raw_hashes →
  _calculate_single_mol_fingerprint self mol
  = Ok (map (fun k =>
               Np.count_of (Z.of_nat k)
                 (map (Spec.bucket (fp_size self))
                      (map Py.encode (Spec.hashed_strings self mol))))
            (seq 0 (Z.to_nat (fp_size self)))).
Proof.
  intros Hsize Hv. unfold _calculate_single_mol_fingerprint.
  rewrite atom_pair_shingles_spec. cbn.
  destruct (variant self) eqn:Ev; [done| |];
    rewrite fold_bits_spec by assumption; cbn;
    apply bincount_in_range; (lia || by apply buckets_in_range).
Qed.

Lemma raw_hashes_spec (self : MAPFingerprint) (mol : Mol) :
  variant self = raw_hashes →
  _calculate_single_mol_fingerprint self mol
  = Ok (Datasketch.digest (fp_size self) (random_state self)
          (map Py.encode (Spec.hashed_strings self mol))).
Proof.
  intros Hv. unfold _calculate_single_mol_fingerprint.
  rewrite atom_pair_shingles_spec. cbn. by rewrite Hv.
Qed.

Lemma single_mol_total (self : MAPFingerprint) (mol : Mol) :
  1 ≤ fp_size self →
  ∃ fp, _calculate_single_mol_fingerprint self mol = Ok fp
        ∧ length fp = Z.to_nat (fp_size self).
Proof.
  intros Hsize. destruct (variant self) eqn:Ev.
  - eexists. split; [by apply raw_hashes_spec|].
    unfold Datasketch.digest. by rewrite length_map, length_seq.
  - eexists. split; [apply folded_spec; [done|congruence]|].
    by rewrite length_map, length_seq.
  - eexists. split; [apply folded_spec; [done|congruence]|].
    by rewrite length_map, length_seq.
Qed.

End SingleMolecule.

(** ** Count mode: one dictionary entry per distinct shingle *)

Section Counting.
Import RDKit MAP.

Lemma dict_incr_keys (d : list (string * Z)) (k : string) :
  (dict_incr d k).*1 = if decide (k ∈ d.*1) then d.*1 else d.*1 ++ [k].
Proof.
  induction d as [|[k' c] d IH].
  - cbn. destruct (decide (k ∈ [])) as [Hin|_]; [|reflexivity].
    by apply not_elem_of_nil in Hin.
  - cbn [dict_incr]. rewrite !fmap_cons. cbn [fst].
    destruct (String.eqb_spec k' k) as [->|Hne]; rewrite ?fmap_cons; cbn [fst].
    + destruct (decide (k ∈ k :: d.*1)) as [_|Hnin]; [reflexivity|].
      exfalso. apply Hnin. constructor.
    + rewrite IH.
      destruct (decide (k ∈ d.*1)) as [Hin|Hnin],
               (decide (k ∈ k' :: d.*1)) as [Hin'|Hnin']; try reflexivity.
      * exfalso. apply Hnin'. by constructor.
      * apply elem_of_cons in Hin' as [->|?]; done.
Qed.

Lemma counted_keys (ss : list string) (d : list (string * Z)) :
  NoDup d.*1 →
  NoDup (fold_left dict_incr ss d).*1
  ∧ ∀ x, x ∈ (fold_left dict_incr ss d).*1 ↔ x ∈ d.*1 ∨ x ∈ ss.
Proof.
  induction ss as [|s ss IH] in d |- *; intros Hd; cbn [fold_left].
  - split; [done|]. intros x. rewrite elem_of_nil. tauto.
  - assert (NoDup (dict_incr d s).*1) as Hd'.
    { rewrite dict_incr_keys. case_decide as Hin; [done|].
      apply NoDup_app. split_and!; [done| |apply NoDup_singleton].
      intros x Hx Hx'. apply list_elem_of_singleton in Hx' as ->. done. }
    destruct (IH _ Hd') as [Hnd Hmem]. split; [done|].
    intros x. rewrite Hmem, dict_incr_keys, elem_of_cons.
    case_decide as Hin.
    + split; [tauto|]. intros [?|[->|?]]; tauto.
    + rewrite elem_of_app, list_elem_of_singleton. tauto.
Qed.

Lemma counted_length (self : MAPFingerprint) (mol : Mol) :
  length (Spec.counted self mol) = length (Spec.distinct_shingles self mol).
Proof.
  unfold Spec.counted, Spec.distinct_shingles.
  destruct (counted_keys (Spec.occurrences self mol) []) as [Hnd Hmem];
    [constructor|].
  rewrite <- (length_fmap fst). apply Permutation_length.
  apply NoDup_Permutation; [done|apply NoDup_remove_dups|].
  intros x. rewrite Hmem, elem_of_remove_dups, elem_of_nil. tauto.
Qed.

Lemma emitted_length (a b : option string) (d : Z) :
  length (Spec.emitted a b d)
  = if Spec.exists_ a && Spec.exists_ b then 1%nat else 0%nat.
Proof.
  unfold Spec.emitted.
  destruct a as [a|], b as [b|]; cbn [Spec.exists_ Py.truthy andb];
    rewrite ?andb_false_r; try reflexivity.
  by destruct (_ && _).
Qed.

Lemma pair_occurrences_length (mol : Mol) (p : nat * nat) (rs : list nat) :
  length
    (flat_map (fun r => Spec.emitted (_find_neighborhood mol (fst p) r)
                                     (_find_neighborhood mol (snd p) r)
                                     (Spec.distance mol (fst p) (snd p))) rs)
  = length
      (List.filter
         (fun pr =>
            Spec.exists_ (_find_neighborhood mol (fst (fst pr)) (snd pr))
            && Spec.exists_ (_find_neighborhood mol (snd (fst pr)) (snd pr)))
         (map (pair p) rs)).
Proof.
  induction rs as [|r rs IH]; [reflexivity|].
  cbn [flat_map map List.filter fst snd].
  rewrite length_app, emitted_length, IH.
  by destruct (_ && _).
Qed.

Lemma occurrences_length (self : MAPFingerprint) (mol : Mol) :
  length (Spec.occurrences self mol) = Spec.valid_combinations self mol.
Proof.
  unfold Spec.occurrences, Spec.valid_combinations.
  generalize (Py.combinations2 (seq 0 (GetNumAtoms mol))). intros ps.
  induction ps as [|p ps IH]; [reflexivity|].
  cbn [flat_map list_prod].
  rewrite length_app, List.filter_app, length_app, IH. f_equal.
  apply pair_occurrences_length.
Qed.

Lemma distinct_le_occurrences (self : MAPFingerprint) (mol : Mol) :
  length (Spec.distinct_shingles self mol) ≤ length (Spec.occurrences self mol).
Proof.
  unfold Spec.distinct_shingles. generalize (Spec.occurrences self mol).
  intros l. induction l as [|x l IH]; [reflexivity|].
  cbn [remove_dups]. case_decide; cbn [length]; lia.
Qed.

End Counting.

(** ** Validation: what it raises and what it writes *)

Section Validation.
Import RDKit.
Context `{Parser}.

Lemma validate_loop_spec (pre rest : list PyObj) :
  Base.validate_loop (seq (length pre) (length rest)) (pre ++ rest)
  = (pre ++ fst (Spec.validated rest), snd (Spec.validated rest)).
Proof.
  induction rest as [|o rest IH] in pre |- *.
  - cbn. reflexivity.
  - cbn [length seq Base.validate_loop Spec.validated].
    rewrite list_lookup_middle by reflexivity.
    fold (Spec.wrong_type o). destruct (Spec.wrong_type o) eqn:Hw.
    + reflexivity.
    + assert (<[length pre := Spec.converted o]> (pre ++ o :: rest)
              = (pre ++ [Spec.converted o]) ++ rest) as Hins.
      { rewrite insert_app_r_alt by lia. rewrite Nat.sub_diag. cbn.
        by rewrite <- app_assoc. }
      assert (pre ++ o :: rest = (pre ++ [o]) ++ rest) as Hid
        by (by rewrite <- app_assoc).
      assert (∀ p : PyObj, S (length pre) = length (pre ++ [p])) as Hlen.
      { intros p. rewrite length_app. cbn. lia. }
      cbn [fst snd].
      destruct o as [m|s| |z]; cbn [Spec.converted] in *.
      * rewrite Hid, (Hlen (PyMol m)), IH. by rewrite <- app_assoc.
      * rewrite Hins, (Hlen (Base.parsed s)), IH. by rewrite <- app_assoc.
      * discriminate.
      * discriminate.
Qed.

Lemma validate_input_spec (X : list PyObj) :
  Base._validate_input X = Spec.validated X.
Proof.
  unfold Base._validate_input.
  pose proof (validate_loop_spec [] X) as Hloop. cbn [length app] in Hloop.
  rewrite Hloop. by destruct (Spec.validated X).
Qed.

Lemma validated_length (X : list PyObj) :
  length (fst (Spec.validated X)) = length X.
Proof.
  induction X as [|o X IH]; [reflexivity|].
  cbn [Spec.validated]. destruct (Spec.wrong_type o); cbn; [done|by rewrite IH].
Qed.

Lemma validated_lookup (X : list PyObj) (i : nat) (o : PyObj) :
  X !! i = Some o →
  fst (Spec.validated X) !! i = Some o
  ∨ ∃ s, o = PyStr s ∧ fst (Spec.validated X) !! i = Some (Base.parsed s).
Proof.
  induction X as [|o' X IH] in i |- *; [done|].
  cbn [Spec.validated]. destruct (Spec.wrong_type o') eqn:Hw; cbn [fst].
  - by left.
  - destruct i as [|i]; cbn.
    + intros [= ->]. destruct o as [m|s| |z]; cbn; eauto.
    + apply IH.
Qed.

Lemma validated_no_str (X : list PyObj) :
  Forall (fun o => type_is_str o = false) X → fst (Spec.validated X) = X.
Proof.
  induction 1 as [|o X Ho _ IH]; [reflexivity|].
  cbn [Spec.validated]. destruct (Spec.wrong_type o); cbn [fst]; [done|].
  rewrite IH. by destruct o.
Qed.

Lemma validated_rejects (X : list PyObj) :
  (∃ o, o ∈ X ∧ Spec.wrong_type o = true) →
  snd (Spec.validated X) = Raise ValueError.
Proof.
  intros (o & Hin & Hw). induction X as [|o' X IH]; [by apply elem_of_nil in Hin|].
  cbn [Spec.validated]. destruct (Spec.wrong_type o') eqn:Hw'; [reflexivity|].
  cbn [snd]. apply IH. apply elem_of_cons in Hin as [->|?]; [congruence|done].
Qed.

Lemma validated_accepts (X : list PyObj) :
  Forall (fun o => Spec.wrong_type o = false) X →
  Spec.validated X = (map Spec.converted X, Ok ()).
Proof.
  induction 1 as [|o X Ho _ IH]; [reflexivity|].
  cbn [Spec.validated map]. by rewrite Ho, IH.
Qed.

Lemma validated_cases (X : list PyObj) :
  (Forall (fun o => Spec.wrong_type o = false) X
   ∧ Spec.validated X = (map Spec.converted X, Ok ()))
  ∨ ((∃ o, o ∈ X ∧ Spec.wrong_type o = true)
     ∧ snd (Spec.validated X) = Raise ValueError).
Proof.
  induction X as [|o X IH].
  - left. split; [constructor|reflexivity].
  - destruct (Spec.wrong_type o) eqn:Hw.
    + right. split; [exists o; split; [constructor|done]|].
      cbn [Spec.validated]. by rewrite Hw.
    + destruct IH as [[Hall Hval]|[(o' & Hin & Hw') Hval]].
      * left. split; [by constructor|]. cbn [Spec.validated map].
        by rewrite Hw, Hval.
      * right. split; [exists o'; split; [by constructor|done]|].
        cbn [Spec.validated]. by rewrite Hw.
Qed.

Lemma validated_stops (A B : list PyObj) (o : PyObj) :
  Forall (fun o' => Spec.wrong_type o' = false) A → Spec.wrong_type o = true →
  Spec.validated (A ++ o :: B)
  = (map Spec.converted A ++ o :: B, Raise ValueError).
Proof.
  intros HA Ho. induction HA as [|a A Ha _ IH].
  - cbn [app map Spec.validated]. by rewrite Ho.
  - cbn [app map Spec.validated]. by rewrite Ha, IH.
Qed.

Lemma parsed_not_str (s s' : string) : Base.parsed s ≠ PyStr s'.
Proof. unfold Base.parsed. by destruct (MolFromSmiles s). Qed.

(** A string is still in the list afterwards exactly when an element
    before it has a wrong type. *)
Lemma validated_str_kept (X : list PyObj) (i : nat) (s : string) :
  X !! i = Some (PyStr s) →
  fst (Spec.validated X) !! i = Some (PyStr s)
  ↔ ∃ k o, k < i ∧ X !! k = Some o ∧ Spec.wrong_type o = true.
Proof.
  induction X as [|o' X IH] in i |- *; [done|].
  intros Hi. cbn [Spec.validated]. destruct (Spec.wrong_type o') eqn:Hw; cbn [fst].
  - split; [intros _|by intros _].
    destruct i as [|i]; [cbn in Hi; injection Hi as ->; discriminate|].
    exists 0, o'. split; [lia|]. by split.
  - destruct i as [|i]; cbn in Hi |- *.
    + injection Hi as ->. cbn [Spec.converted]. split.
      * intros [= Hp]. by apply parsed_not_str in Hp.
      * intros (k & _ & Hk & _). lia.
    + rewrite (IH i Hi). split.
      * intros (k & o & Hk & Ho & Hbad). exists (S k), o. split; [lia|]. by split.
      * intros (k & o & Hk & Ho & Hbad). destruct k as [|k].
        -- cbn in Ho. injection Ho as ->. congruence.
        -- exists k, o. split; [lia|]. by split.
Qed.

Lemma first_wrong_type (X : list PyObj) :
  Forall (fun o => Spec.wrong_type o = false) X
  ∨ ∃ k o, X !! k = Some o ∧ Spec.wrong_type o = true
           ∧ Forall (fun o' => Spec.wrong_type o' = false) (take k X).
Proof.
  induction X as [|o X IH]; [left; constructor|].
  destruct (Spec.wrong_type o) eqn:Hw.
  - right. exists 0, o. split; [done|]. split; [done|constructor].
  - destruct IH as [Hall|(k & o' & Hk & Hbad & Hpre)].
    + left. by constructor.
    + right. exists (S k), o'. split; [done|]. split; [done|].
      cbn [take]. by constructor.
Qed.

Lemma validated_stops_at (X : list PyObj) (k : nat) (o : PyObj) :
  X !! k = Some o → Spec.wrong_type o = true →
  Forall (fun o' => Spec.wrong_type o' = false) (take k X) →
  Spec.validated X
  = (map Spec.converted (take k X) ++ drop k X, Raise ValueError).
Proof.
  intros Hk Hbad Hpre.
  rewrite <- (take_drop_middle X k o Hk) at 1.
  rewrite (validated_stops _ _ _ Hpre Hbad).
  by rewrite (drop_S X o k Hk).
Qed.

Lemma unrecognised_converted (o : PyObj) :
  Spec.unrecognised o = true → Spec.wrong_type o = false →
  Spec.converted o = PyNone.
Proof.
  destruct o as [m|s| |z]; cbn; try done.
  unfold Base.parsed. destruct (MolFromSmiles s); [|done].
  intros Hu. exfalso. apply negb_true_iff, bool_decide_eq_false in Hu.
  apply Hu. by eexists.
Qed.

Lemma mols_of_none (X : list PyObj) : PyNone ∈ X → Spec.mols_of X = None.
Proof.
  induction X as [|o X IH]; [by intros ?%elem_of_nil|].
  intros [<-|Hin]%elem_of_cons; cbn [Spec.mols_of]; [reflexivity|].
  rewrite (IH Hin). by destruct (Spec.mol_of o).
Qed.

End Validation.

(** ** Sub-batches *)

Section SubBatches.

Lemma forM_compose {A B C : Type} (f : B → result C) (g : A → B) (xs : list A) :
  forM (fun x => f (g x)) xs = forM f (map g xs).
Proof.
  induction xs as [|x xs IH]; [reflexivity|]. cbn [forM map]. by rewrite IH.
Qed.

Lemma slice_take {A : Type} (X : list A) (i b : nat) :
  Py.slice X i (i + b) = take b (drop i X).
Proof. unfold Py.slice. f_equal. lia. Qed.

Lemma slices_from (X : list PyObj) (b fuel start : nat) :
  1 ≤ b → length X - start ≤ fuel →
  let cs := map (fun i => Py.slice X i (i + b))
                (Py.range_from fuel start (length X) b) in
  concat cs = drop start X ∧ Forall (fun c => c ≠ []) cs.
Proof.
  intros Hb. induction fuel as [|fuel IH] in start |- *; intros Hfuel; cbn zeta.
  - cbn. split; [|constructor]. symmetry. apply drop_ge. lia.
  - cbn [Py.range_from]. destruct (Nat.ltb_spec start (length X)) as [Hlt|Hge].
    + cbn [map concat]. destruct (IH (start + b)) as [Hcat Hne]; [lia|].
      rewrite (slice_take X start b).
      split.
      * rewrite Hcat, <- drop_drop. apply take_drop.
      * constructor; [|done]. intros Hnil.
        apply (f_equal length) in Hnil.
        rewrite length_take, length_drop in Hnil. cbn in Hnil. lia.
    + cbn. split; [|constructor]. symmetry. apply drop_ge. lia.
Qed.

Lemma sub_batches_concat (b : nat) (X : list PyObj) :
  1 ≤ b → concat (Spec.sub_batches b X) = X ∧ Forall (fun c => c ≠ []) (Spec.sub_batches b X).
Proof.
  intros Hb. destruct (slices_from X b (length X) 0 Hb) as [Hcat Hne]; [lia|].
  by rewrite drop_0 in Hcat.
Qed.

End SubBatches.

(** ** The batch: [_calculate_fingerprint] and its dispatch over sub-batches *)

Section Batch.
Import RDKit MAP.
Context `{Datasketch.Permutations} `{Parser}.
Local Open Scope Z_scope.

Lemma fingerprint_ok (self : MAPFingerprint) (mol : Mol) :
  1 ≤ fp_size self →
  _calculate_single_mol_fingerprint self mol = Ok (Spec.fingerprint self mol)
  ∧ length (Spec.fingerprint self mol) = Z.to_nat (fp_size self).
Proof.
  intros Hsize. destruct (single_mol_total self mol Hsize) as (fp & Hfp & Hlen).
  unfold Spec.fingerprint. by rewrite Hfp.
Qed.

Lemma row_length (self : MAPFingerprint) (mol : Mol) :
  1 ≤ fp_size self → length (Spec.row self mol) = Z.to_nat (fp_size self).
Proof.
  intros Hsize. unfold Spec.row. rewrite length_map.
  by apply fingerprint_ok.
Qed.

Lemma ensure_mols_spec (X : list PyObj) :
  ensure_mols X = match Spec.mols_of X with
                  | Some ms => Ok ms
                  | None => Raise ValueError
                  end.
Proof.
  unfold ensure_mols. induction X as [|o X IH]; [reflexivity|].
  cbn [forM Spec.mols_of]. rewrite IH.
  destruct o as [m|s| |z]; cbn [Spec.mol_of]; try reflexivity.
  - by destruct (Spec.mols_of X).
  - destruct (MolFromSmiles s); [|reflexivity]. by destruct (Spec.mols_of X).
Qed.

Lemma mols_of_length (X : list PyObj) (ms : list Mol) :
  Spec.mols_of X = Some ms → length ms = length X.
Proof.
  induction X as [|o X IH] in ms |- *; cbn [Spec.mols_of].
  - by intros [= <-].
  - destruct (Spec.mol_of o); [|done]. destruct (Spec.mols_of X); [|done].
    intros [= <-]. cbn. f_equal. by apply IH.
Qed.

Lemma mols_of_app (X Y : list PyObj) :
  Spec.mols_of (X ++ Y)
  = match Spec.mols_of X, Spec.mols_of Y with
    | Some a, Some b => Some (a ++ b)
    | _, _ => None
    end.
Proof.
  induction X as [|o X IH]; cbn [app Spec.mols_of].
  - by destruct (Spec.mols_of Y).
  - rewrite IH. destruct (Spec.mol_of o); [|done].
    by destruct (Spec.mols_of X), (Spec.mols_of Y).
Qed.

Lemma stack_rows (self : MAPFingerprint) (ms : list Mol) :
  1 ≤ fp_size self → ms ≠ [] →
  Np.stack (map (Spec.fingerprint self) ms) = Ok (map (Spec.fingerprint self) ms).
Proof.
  intros Hsize Hne. destruct ms as [|m ms]; [done|]. cbn [map Np.stack].
  rewrite (proj2 (forallb_forall _ _)); [reflexivity|].
  intros r Hr. apply in_map_iff in Hr as (m' & <- & _).
  apply Nat.eqb_eq.
  by rewrite (proj2 (fingerprint_ok self m Hsize)),
             (proj2 (fingerprint_ok self m' Hsize)).
Qed.

(** [_calculate_fingerprint] is one row per molecule, in order; it fails with
    [ValueError] on an empty batch or on an element that is no molecule. *)
Lemma calculate_fingerprint_spec (self : MAPFingerprint) (X : list PyObj) :
  1 ≤ fp_size self →
  _calculate_fingerprint self X
  = match Spec.mols_of X with
    | Some (m :: ms) => Ok (Spec.returned self (map (Spec.row self) (m :: ms)))
    | _ => Raise ValueError
    end.
Proof.
  intros Hsize. unfold _calculate_fingerprint. rewrite ensure_mols_spec.
  destruct (Spec.mols_of X) as [ms|]; [|reflexivity]. cbn.
  rewrite (forM_ok_map _ (Spec.fingerprint self)).
  2:{ intros m _. by apply fingerprint_ok. }
  cbn. destruct ms as [|m ms]; [reflexivity|].
  rewrite stack_rows by done. cbn. unfold Spec.row, Spec.returned.
  by rewrite map_map.
Qed.

Lemma forM_sub_batches (self : MAPFingerprint) (cs : list (list PyObj)) :
  1 ≤ fp_size self → Forall (fun c => c ≠ []) cs →
  match Spec.mols_of (concat cs) with
  | Some ms =>
      ∃ Ms, forM (_calculate_fingerprint self) cs = Ok (map (Spec.returned self) Ms)
            ∧ concat Ms = map (Spec.row self) ms
            ∧ Forall (fun M => Np.width M = Z.to_nat (fp_size self)) Ms
  | None => forM (_calculate_fingerprint self) cs = Raise ValueError
  end.
Proof.
  intros Hsize. induction 1 as [|c cs Hc _ IH].
  - cbn. exists []. by repeat split.
  - cbn [concat forM]. rewrite mols_of_app, calculate_fingerprint_spec by done.
    destruct (Spec.mols_of c) as [mc|] eqn:Emc; [|reflexivity].
    assert (mc ≠ []) as Hmc.
    { intros ->. apply mols_of_length in Emc. by destruct c. }
    destruct mc as [|m mc]; [done|].
    destruct (Spec.mols_of (concat cs)) as [ms|].
    + destruct IH as (Ms & -> & Hcat & Hw). cbn.
      exists (map (Spec.row self) (m :: mc) :: Ms).
      split; [reflexivity|]. split.
      * cbn [concat]. by rewrite Hcat, <- map_app.
      * constructor; [|done]. cbn. by apply row_length.
    + cbn. by rewrite IH.
Qed.

Lemma contents_returned (self : MAPFingerprint) (M : Np.matrix) :
  Np.contents (Spec.returned self M) = M.
Proof. unfold Spec.returned. by destruct (sparse self). Qed.

Lemma ndarrays_dense (Ms : list Np.matrix) :
  Np.ndarrays (map Np.ndarray Ms) = Some Ms.
Proof. induction Ms as [|M Ms IH]; [reflexivity|]. cbn. by rewrite IH. Qed.

Lemma concatenate_rows_uniform (Ms : list Np.matrix) (w : nat) :
  Ms ≠ [] → Forall (fun M => Np.width M = w) Ms →
  Np.concatenate_rows Ms = Ok (concat Ms).
Proof.
  intros Hne HMs. destruct Ms as [|M Ms]; [done|].
  unfold Np.concatenate_rows. apply Forall_cons in HMs as [HM HMs].
  rewrite (proj2 (forallb_forall _ _)); [reflexivity|].
  intros M' HM'. apply Nat.eqb_eq. rewrite HM.
  rewrite Forall_forall in HMs. apply HMs. by apply list_elem_of_In.
Qed.

Lemma concatenate_uniform (Ms : list Np.matrix) (w : nat) :
  Ms ≠ [] → Forall (fun M => Np.width M = w) Ms →
  Np.concatenate (map Np.ndarray Ms) = Ok (Np.ndarray (concat Ms)).
Proof.
  intros Hne HMs. unfold Np.concatenate.
  by rewrite ndarrays_dense, (concatenate_rows_uniform Ms w).
Qed.

(** NumPy cannot concatenate compressed-row arrays, however many. *)
Lemma concatenate_sparse (Ms : list Np.matrix) :
  Np.concatenate (map Np.csr_array Ms) = Raise ValueError.
Proof. by destruct Ms. Qed.

(** What the sub-batch loop of [dispatch] runs over. *)
Lemma dispatch_sub_batches (calc : list PyObj → result Np.arraylike)
    (b : nat) (X : list PyObj) :
  (1 ≤ b)%nat →
  Base.dispatch calc b X
  = (results ← forM calc (Spec.sub_batches b X); Np.concatenate results).
Proof.
  intros Hb. unfold Base.dispatch, Py.range3.
  destruct (Nat.eqb_spec b 0) as [->|_]; [lia|]. cbn.
  by rewrite (forM_compose calc (fun i => Py.slice X i (i + b))).
Qed.


(** With sparse results the concatenation fails, whatever the sub-batches
    returned. *)
Lemma dispatch_sparse (self : MAPFingerprint) (b : nat) (X : list PyObj) :
  sparse self = true → 1 ≤ fp_size self → (1 ≤ b)%nat →
  Base.dispatch (_calculate_fingerprint self) b X = Raise ValueError.
Proof.
  intros Hsparse Hsize Hb. rewrite dispatch_sub_batches by done.
  destruct (sub_batches_concat b X Hb) as [Hcat Hne].
  pose proof (forM_sub_batches self _ Hsize Hne) as Hrun.
  assert (Spec.returned self = Np.csr_array) as Hret
    by (unfold Spec.returned; by rewrite Hsparse).
  rewrite Hret in *.
  destruct (Spec.mols_of (concat (Spec.sub_batches b X))).
  - destruct Hrun as (Ms & -> & _). cbn. apply concatenate_sparse.
  - by rewrite Hrun.
Qed.

(** A batch with an element that is no molecule is rejected, dispatched or
    not. *)
Lemma dispatch_rejects (self : MAPFingerprint) (b : nat) (X : list PyObj) :
  1 ≤ fp_size self → (1 ≤ b)%nat → Spec.mols_of X = None →
  Base.dispatch (_calculate_fingerprint self) b X = Raise ValueError.
Proof.
  intros Hsize Hb Hnone. rewrite dispatch_sub_batches by done.
  destruct (sub_batches_concat b X Hb) as [Hcat Hne].
  pose proof (forM_sub_batches self _ Hsize Hne) as Hrun.
  rewrite Hcat, Hnone in Hrun. by rewrite Hrun.
Qed.

End Batch.

(** ** Symmetry of the loop body in the two atoms *)

Section PairOrder.
Import RDKit MAP.

Lemma foldM_ext {S A : Type} (f g : S → A → result S) (st : S) (xs : list A) :
  (∀ s x, f s x = g s x) → foldM f st xs = foldM g st xs.
Proof.
  intros Hfg. induction xs as [|x xs IH] in st |- *; [reflexivity|].
  cbn [foldM]. rewrite Hfg. destruct (g st x); cbn; [apply IH|reflexivity].
Qed.

Lemma lex_min_comm (a b : string) : Spec.lex_min a b = Spec.lex_min b a.
Proof.
  unfold Spec.lex_min.
  destruct (String.leb a b) eqn:Hab, (String.leb b a) eqn:Hba; try reflexivity.
  - by apply String.leb_antisym.
  - destruct (String.leb_total a b); congruence.
Qed.

Lemma lex_max_comm (a b : string) : Spec.lex_max a b = Spec.lex_max b a.
Proof.
  unfold Spec.lex_max.
  destruct (String.leb a b) eqn:Hab, (String.leb b a) eqn:Hba; try reflexivity.
  - symmetry. by apply String.leb_antisym.
  - destruct (String.leb_total a b); congruence.
Qed.

Lemma shingle_of_comm (a b dist : string) : shingle_of a b dist = shingle_of b a dist.
Proof.
  unfold shingle_of. rewrite !sorted_pair. cbn [nth].
  by rewrite (lex_min_comm a b), (lex_max_comm a b).
Qed.

Lemma radius_step_comm (self : MAPFingerprint) (dist : string)
    (env_a env_b : list (option string)) (st : acc) (k : nat) :
  radius_step self dist env_a env_b st k = radius_step self dist env_b env_a st k.
Proof.
  unfold radius_step, Py.index.
  destruct (env_a !! k) as [a|], (env_b !! k) as [b|]; cbn; try reflexivity.
  rewrite (orb_comm (negb (Py.truthy a))).
  destruct (negb (Py.truthy b) || negb (Py.truthy a)); [reflexivity|].
  destruct a as [a|], b as [b|]; try reflexivity.
  by rewrite (shingle_of_comm a b).
Qed.

End PairOrder.

Section Lookup.
Import RDKit.
Context `{Parser}.


End Lookup.

(** ** Atom pairs, truncation, and neighborhoods that exist *)

Section Generation.
Import RDKit MAP.

Lemma combinations2_seq (start n : nat) :
  Py.combinations2 (seq start n)
  = flat_map (fun i => map (pair i) (seq (S i) (start + n - S i))) (seq start n).
Proof.
  induction n as [|n IH] in start |- *; [reflexivity|].
  cbn [seq Py.combinations2 flat_map]. rewrite IH. f_equal.
  - do 2 f_equal. lia.
  - apply flat_map_ext. intros i. do 2 f_equal. lia.
Qed.

Lemma combinations2_atom_pairs (n : nat) :
  Py.combinations2 (seq 0 n) = Spec.atom_pairs n.
Proof. apply combinations2_seq. Qed.

Lemma atom_pairs_elem (n i j : nat) :
  (i, j) ∈ Spec.atom_pairs n ↔ i < j < n.
Proof.
  unfold Spec.atom_pairs. rewrite list_elem_of_In, in_flat_map. split.
  - intros (i' & Hi' & Hin). apply in_map_iff in Hin as (j' & [= -> ->] & Hj').
    apply in_seq in Hi', Hj'. lia.
  - intros Hij. exists i. split; [apply in_seq; lia|].
    apply in_map_iff. exists j. split; [reflexivity|]. apply in_seq. lia.
Qed.

Lemma atom_pairs_from_NoDup (start n m : nat) :
  NoDup (flat_map (fun i => map (pair i) (seq (S i) (m - S i))) (seq start n)).
Proof.
  induction n as [|n IH] in start |- *; [constructor|].
  cbn [seq flat_map]. apply NoDup_app. split; [|split].
  - apply NoDup_fmap_2; [by intros ?? [= ->]|apply NoDup_seq].
  - intros p Hp Hq. apply list_elem_of_In in Hp, Hq.
    apply in_map_iff in Hp as (j & <- & _).
    apply in_flat_map in Hq as (i & Hi & Hin).
    apply in_map_iff in Hin as (j' & [= -> _] & _).
    apply in_seq in Hi. lia.
  - apply IH.
Qed.

Lemma atom_pairs_NoDup (n : nat) : NoDup (Spec.atom_pairs n).
Proof. apply atom_pairs_from_NoDup. Qed.

Lemma int_of_float_truncated (x : Q) : Py.int_of_float x = Spec.truncated x.
Proof.
  unfold Py.int_of_float, Spec.truncated, Qle_bool, Qceiling, Qfloor.
  destruct x as [n d]. cbn [Qnum Qden Qopp].
  rewrite Z.mul_1_r. change (0 * Z.pos d)%Z with 0%Z.
  destruct (Z.leb_spec 0 n) as [Hn|Hn].
  - apply Z.quot_div_nonneg; lia.
  - rewrite <- (Z.opp_involutive n) at 1.
    rewrite Z.quot_opp_l by lia. f_equal. apply Z.quot_div_nonneg; lia.
Qed.

(** Truncation keeps the sign and drops less than one unit. *)
Lemma truncated_bounds (x : Q) :
  (0 <= x → inject_Z (Spec.truncated x) <= x
            ∧ x < inject_Z (Spec.truncated x + 1))%Q
  ∧ (x <= 0 → inject_Z (Spec.truncated x - 1) < x
              ∧ x <= inject_Z (Spec.truncated x))%Q.
Proof.
  unfold Spec.truncated. destruct (Qle_bool 0 x) eqn:Hx; split; intros Hsign.
  - split; [apply Qfloor_le|apply Qlt_floor].
  - apply Qle_bool_iff in Hx.
    assert (x == 0)%Q as Hzero by (by apply Qle_antisym).
    rewrite (Qfloor_comp _ _ Hzero). change (Qfloor 0) with 0%Z.
    rewrite Hzero. split; [reflexivity|apply Qle_refl].
  - apply Qle_bool_iff in Hsign. congruence.
  - split; [apply Qceiling_lt|apply Qle_ceiling].
Qed.

Lemma str_round_trip (d : Z) :
  option_map Z.of_int (NilZero.int_of_string (Py.str d)) = Some d.
Proof.
  unfold Py.str. rewrite NilZero.isi.
  - cbn. by rewrite DecimalZ.of_to.
  - destruct d as [|p|p]; cbn; try discriminate.
    intros [= Hp]. by apply DecimalPos.Unsigned.to_uint_nonnil in Hp.
  - destruct d as [|p|p]; cbn; try discriminate.
    intros [= Hp]. by apply DecimalPos.Unsigned.to_uint_nonnil in Hp.
Qed.

Lemma find_neighborhood_exists (mol : Mol) (i r : nat) :
  Spec.rooted_smiles_nonempty mol →
  Spec.exists_ (_find_neighborhood mol i r) = true
  ↔ _find_neighborhood mol i r ≠ None.
Proof.
  intros Hsmiles. unfold _find_neighborhood, Spec.exists_.
  destruct (FindAtomEnvironmentOfRadiusN mol i r) as [env|]; [|done].
  destruct (atomMap (PathToSubmol mol env) !! i) as [root|] eqn:Hroot; [|done].
  cbn [Py.truthy].
  destruct (String.eqb_spec (MolToSmiles (PathToSubmol mol env) root) "")
    as [Hempty|_]; [by apply (Hsmiles _ _ _ Hroot) in Hempty|done].
Qed.

Lemma emitted_generated (mol : Mol) (i j r : nat) (d : Z) :
  Spec.rooted_smiles_nonempty mol →
  Spec.emitted (_find_neighborhood mol i r) (_find_neighborhood mol j r) d
  = Spec.generated (_find_neighborhood mol i r) (_find_neighborhood mol j r) d.
Proof.
  intros Hsmiles.
  pose proof (find_neighborhood_exists mol i r Hsmiles) as Hi.
  pose proof (find_neighborhood_exists mol j r Hsmiles) as Hj.
  unfold Spec.emitted, Spec.generated, Spec.shingle.
  destruct (_find_neighborhood mol i r) as [a|]; [|reflexivity].
  destruct (_find_neighborhood mol j r) as [b|]; [|reflexivity].
  rewrite (proj2 Hi), (proj2 Hj) by done. reflexivity.
Qed.

Lemma occurrences_shingles (self : MAPFingerprint) (mol : Mol) :
  Spec.rooted_smiles_nonempty mol →
  Spec.occurrences self mol = Spec.shingles self mol.
Proof.
  intros Hsmiles. unfold Spec.occurrences, Spec.shingles, Spec.pair_occurrences.
  rewrite combinations2_atom_pairs. apply flat_map_ext. intros p.
  apply flat_map_ext. intros r. unfold Spec.distance.
  rewrite int_of_float_truncated. by apply emitted_generated.
Qed.

Lemma find_neighborhood_beyond (mol : Mol) (idx r : nat) :
  Spec.bad_atom_index_raises mol → GetNumAtoms mol ≤ r →
  _find_neighborhood mol idx r = None.
Proof.
  intros Hbad Hr. unfold _find_neighborhood. by rewrite (Hbad idx r Hr).
Qed.

Lemma flat_map_nil {A B : Type} (f : A → list B) (xs : list A) :
  (∀ x, In x xs → f x = []) → flat_map f xs = [].
Proof.
  induction xs as [|x xs IH]; [reflexivity|]. intros Hf. cbn [flat_map].
  rewrite (Hf x) by (by left). apply IH. intros y Hy. apply Hf. by right.
Qed.

(** Radii from the number of atoms on contribute no shingle. *)
Lemma occurrences_capped (self : MAPFingerprint) (mol : Mol) :
  Spec.bad_atom_index_raises mol →
  Spec.occurrences self mol
  = Spec.occurrences
      (Spec.with_radius self (Nat.min (radius self) (GetNumAtoms mol - 1))) mol.
Proof.
  intros Hbad. unfold Spec.occurrences, Spec.pair_occurrences.
  cbn [Spec.with_radius radius]. apply flat_map_ext. intros p.
  set (c := Nat.min (radius self) (GetNumAtoms mol - 1)).
  replace (radius self) with (c + (radius self - c)) at 1 by lia.
  rewrite seq_app, flat_map_app.
  rewrite (flat_map_nil _ (seq (1 + c) (radius self - c))); [apply app_nil_r|].
  intros r Hr. apply in_seq in Hr.
  rewrite (find_neighborhood_beyond mol (fst p) r Hbad) by lia. reflexivity.
Qed.

End Generation.

(** * The claims *)

Section Claims.
Import RDKit MAP.
Context `{Datasketch.Permutations} `{Parser}.
Local Open Scope Z_scope.

(** C1 (as amended). In count mode the fingerprint of every molecule is
    produced, and the sum of its entries is the number of distinct shingle
    strings generated over the (atom pair, radius) combinations for which
    both neighborhoods exist: each distinct string is hashed once, with its
    occurrence count appended. The number of occurrences, duplicates
    included, is the number of those combinations, so the sum never exceeds
    it. *)
Theorem C1_count_sum_distinct (self : MAPFingerprint) (mol : Mol) :
  variant self = count → 1 ≤ fp_size self →
  ∃ fp, _calculate_single_mol_fingerprint self mol = Ok fp
        ∧ Spec.sum_Z fp = Z.of_nat (length (Spec.distinct_shingles self mol))
        ∧ length (Spec.occurrences self mol) = Spec.valid_combinations self mol
        ∧ Spec.sum_Z fp ≤ Z.of_nat (Spec.valid_combinations self mol).
Proof.
  intros Hv Hsize. eexists. split; [apply folded_spec; [done|congruence]|].
  assert (Spec.sum_Z
            (map (fun k => Np.count_of (Z.of_nat k)
                     (map (Spec.bucket (fp_size self))
                          (map Py.encode (Spec.hashed_strings self mol))))
                 (seq 0 (Z.to_nat (fp_size self))))
          = Z.of_nat (length (Spec.distinct_shingles self mol))) as Hsum.
  { rewrite histogram_sum.
    - rewrite !length_map. unfold Spec.hashed_strings. rewrite Hv. cbn [is_count].
      by rewrite length_map, counted_length.
    - rewrite Z2Nat.id by lia. apply buckets_in_range. lia. }
  split; [exact Hsum|]. split; [apply occurrences_length|].
  rewrite Hsum, <- occurrences_length.
  apply inj_le, distinct_le_occurrences.
Qed.


(** C3. With [MAPFingerprint._calculate_fingerprint] as the fingerprint
    method, a positive output size and at least one worker: when the input
    sequence contains an element that is neither a molecule object nor a
    string the toolkit parses, [transform] raises [ValueError] and returns
    no matrix. An element that is neither a [Mol] nor a [str] is rejected by
    [_validate_input], whatever the method, before any fingerprint; an
    unparseable string passes [_validate_input], which stores [None] in its
    place, and every batch holding a [None] is rejected by [ensure_mols] at
    the start of [_calculate_fingerprint]. *)
Theorem C3_unrecognised_input_rejected (self : MAPFingerprint) (n_jobs : nat)
    (X : list PyObj) :
  1 ≤ fp_size self → (1 ≤ n_jobs)%nat →
  (∃ o, o ∈ X ∧ Spec.unrecognised o = true) →
  snd (transform self n_jobs X) = Raise ValueError
  ∧ ((∃ o, o ∈ X ∧ Spec.wrong_type o = true) →
     ∀ calc n, snd (Base.transform calc n X) = Raise ValueError)
  ∧ (Forall (fun o => Spec.wrong_type o = false) X →
     Base._validate_input X = (map Spec.converted X, Ok ())
     ∧ PyNone ∈ map Spec.converted X
     ∧ ∀ Y, PyNone ∈ Y →
         ensure_mols Y = Raise ValueError
         ∧ _calculate_fingerprint self Y = Raise ValueError).
Proof.
  intros Hsize Hjobs (o & Hin & Hbad).
  assert ((∃ o, o ∈ X ∧ Spec.wrong_type o = true) →
          ∀ calc n, snd (Base.transform calc n X) = Raise ValueError) as Htype.
  { intros Hwrong calc n. apply validated_rejects in Hwrong.
    unfold Base.transform. rewrite validate_input_spec.
    destruct (Spec.validated X) as [Y ok]. cbn [snd] in *. by subst ok. }
  assert (∀ Y, PyNone ∈ Y →
               ensure_mols Y = Raise ValueError
               ∧ _calculate_fingerprint self Y = Raise ValueError) as Hnone.
  { intros Y HY. split.
    - by rewrite ensure_mols_spec, (mols_of_none Y HY).
    - rewrite calculate_fingerprint_spec by done. by rewrite (mols_of_none Y HY). }
  assert (Forall (fun o => Spec.wrong_type o = false) X →
          PyNone ∈ map Spec.converted X) as Hstored.
  { intros Hall. rewrite Forall_forall in Hall.
    rewrite <- (unrecognised_converted o Hbad (Hall o Hin)).
    change (map Spec.converted X) with (Spec.converted <$> X).
    by apply list_elem_of_fmap_2. }
  split; [|split; [exact Htype|]].
  - destruct (first_wrong_type X) as [Hall|(k & o' & Hk & Hwrong & _)].
    + unfold transform, Base.transform.
      rewrite validate_input_spec, (validated_accepts X Hall). cbn.
      specialize (Hstored Hall).
      destruct (Nat.eqb_spec n_jobs 1) as [_|_]; [by apply (Hnone _ Hstored)|].
      unfold Py.floordiv. destruct (Nat.eqb_spec n_jobs 0) as [->|_]; [lia|].
      cbn. apply dispatch_rejects; [done|lia|by apply mols_of_none].
    + apply Htype. exists o'. split; [|done]. by eapply list_elem_of_lookup_2.
  - intros Hall. split; [|split; [by apply Hstored|exact Hnone]].
    by rewrite validate_input_spec, (validated_accepts X Hall).
Qed.

(** C4 (as amended). [transform] keeps the length of the caller's sequence
    and every element that is not a string. Validation runs from the left
    and stops at the first element that is neither a [Mol] nor a [str]:
    every string before that element is overwritten in place by what the
    toolkit parsed from it (a molecule, or [None]), and everything from
    that element on is left as it was; when there is no such element every
    string is overwritten. So a string is still in place afterwards exactly
    when an element before it has a wrong type, and a sequence without
    strings is left unchanged. *)
Theorem C4_input_after_transform (calc : list PyObj → result Np.arraylike)
    (n_jobs : nat) (X : list PyObj) :
  length (fst (Base.transform calc n_jobs X)) = length X
  ∧ (∀ i o, X !! i = Some o →
       fst (Base.transform calc n_jobs X) !! i = Some o
       ∨ ∃ s, o = PyStr s
              ∧ fst (Base.transform calc n_jobs X) !! i = Some (Base.parsed s))
  ∧ (Forall (fun o => type_is_str o = false) X →
       fst (Base.transform calc n_jobs X) = X)
  ∧ (Forall (fun o => Spec.wrong_type o = false) X →
       fst (Base.transform calc n_jobs X) = map Spec.converted X)
  ∧ (∀ k o, X !! k = Some o → Spec.wrong_type o = true →
       Forall (fun o' => Spec.wrong_type o' = false) (take k X) →
       fst (Base.transform calc n_jobs X)
       = map Spec.converted (take k X) ++ drop k X)
  ∧ (Forall (fun o => Spec.wrong_type o = false) X
     ∨ ∃ k o, X !! k = Some o ∧ Spec.wrong_type o = true
              ∧ Forall (fun o' => Spec.wrong_type o' = false) (take k X))
  ∧ (∀ i s, X !! i = Some (PyStr s) →
       fst (Base.transform calc n_jobs X) !! i = Some (PyStr s)
       ↔ ∃ k o, (k < i)%nat ∧ X !! k = Some o ∧ Spec.wrong_type o = true).
Proof.
  assert (fst (Base.transform calc n_jobs X) = fst (Spec.validated X)) as ->.
  { unfold Base.transform. rewrite validate_input_spec.
    by destruct (Spec.validated X). }
  split; [apply validated_length|]. split; [|split; [|split; [|split; [|split]]]].
  - intros i o. apply validated_lookup.
  - apply validated_no_str.
  - intros Hok. by rewrite validated_accepts.
  - intros k o Hk Hbad Hpre. by rewrite (validated_stops_at X k o Hk Hbad Hpre).
  - apply first_wrong_type.
  - intros i s. apply validated_str_kept.
Qed.

(** C5. In the bit and count variants the fingerprint is the histogram of
    bucket indices, one per shingle byte string; the index of a shingle is
    the first four bytes of its 20-byte SHA-1 digest, read as an unsigned
    little-endian 32-bit integer, modulo the output size, and lies in
    [0, output size). *)
Theorem C5_bucket_index (self : MAPFingerprint) (shingles : list (list byte)) :
  1 ≤ fp_size self →
  fold_bits self shingles = Ok (map (Spec.bucket (fp_size self)) shingles)
  ∧ (∀ shingle,
       length (Hashlib.sha1 shingle) = 20%nat
       ∧ _get_hash shingle = Ok (Spec.le_value (take 4 (Hashlib.sha1 shingle)))
       ∧ 0 ≤ Spec.le_value (take 4 (Hashlib.sha1 shingle)) < 2 ^ 32
       ∧ 0 ≤ Spec.bucket (fp_size self) shingle < fp_size self)
  ∧ (∀ mol, variant self ≠ raw_hashes →
       _calculate_single_mol_fingerprint self mol
       = Np.bincount
           (map (Spec.bucket (fp_size self))
                (map Py.encode (Spec.hashed_strings self mol)))
           (fp_size self)).
Proof.
  intros Hsize. split; [by apply fold_bits_spec|]. split.
  - intros shingle. split; [apply sha1_length|].
    destruct (_get_hash_spec shingle) as [Hhash Hrange].
    split; [exact Hhash|]. split; [exact Hrange|]. by apply bucket_range.
  - intros mol Hv. unfold _calculate_single_mol_fingerprint.
    rewrite atom_pair_shingles_spec. cbn.
    destruct (variant self); [done| |]; by rewrite fold_bits_spec.
Qed.

(** C6. Outside count mode, and for a toolkit that writes a non-empty
    SMILES for a sub-molecule rooted at one of its atoms, the shingles of a
    molecule are exactly these, in order and with duplicates kept: for every
    unordered pair of distinct atoms (each pair once, as [i < j]) and every
    radius from 1 to the maximum, one shingle when the neighborhood table
    holds a string for both atoms at that radius, none otherwise; the
    shingle is the lexicographically smaller string, the distance truncated
    toward zero and written in decimal, and the larger string, joined by
    "|". The table row of an atom holds [_find_neighborhood] for the radii 1
    to the maximum, and the source's test [not env] fails exactly when the
    entry is not [None]. *)
Theorem C6_shingle_generation (self : MAPFingerprint) (mol : Mol) :
  is_count (variant self) = false →
  Spec.rooted_smiles_nonempty mol →
  _get_atom_pair_shingles self mol (_get_atom_envs self mol)
  = Ok (map Py.encode (Spec.shingles self mol))
  ∧ (∀ i, (i < GetNumAtoms mol)%nat →
       _get_atom_envs self mol !! i
       = Some (map (_find_neighborhood mol i) (seq 1 (radius self))))
  ∧ (∀ env_i env_j d,
       (Spec.generated env_i env_j d ≠ [] ↔ env_i ≠ None ∧ env_j ≠ None)
       ∧ ∀ a b, env_i = Some a → env_j = Some b →
           Spec.generated env_i env_j d
           = [Spec.lex_min a b +:+ "|" +:+ Py.str d +:+ "|" +:+ Spec.lex_max a b])
  ∧ (∀ i j, (i, j) ∈ Spec.atom_pairs (GetNumAtoms mol)
            ↔ (i < j < GetNumAtoms mol)%nat)
  ∧ NoDup (Spec.atom_pairs (GetNumAtoms mol))
  ∧ (∀ x : Q,
       (0 <= x → inject_Z (Spec.truncated x) <= x
                 ∧ x < inject_Z (Spec.truncated x + 1))%Q
       ∧ (x <= 0 → inject_Z (Spec.truncated x - 1) < x
                   ∧ x <= inject_Z (Spec.truncated x))%Q)
  ∧ (∀ d, option_map Z.of_int (NilZero.int_of_string (Py.str d)) = Some d)
  ∧ (∀ i r, Spec.exists_ (_find_neighborhood mol i r) = true
            ↔ _find_neighborhood mol i r ≠ None)
  ∧ Spec.occurrences self mol = Spec.shingles self mol.
Proof.
  intros Hv Hsmiles. split.
  { rewrite atom_pair_shingles_spec. unfold Spec.hashed_strings.
    by rewrite Hv, occurrences_shingles. }
  split.
  { intros i Hi. rewrite atom_envs_lookup. by case_decide; [|lia]. }
  split.
  { intros env_i env_j d. split.
    - destruct env_i as [a|], env_j as [b|]; cbn [Spec.generated];
        split; try done; intros [? ?]; done.
    - by intros a b -> ->. }
  split; [intros i j; apply atom_pairs_elem|].
  split; [apply atom_pairs_NoDup|].
  split; [apply truncated_bounds|].
  split; [apply str_round_trip|].
  split; [intros i r; by apply find_neighborhood_exists|].
  by apply occurrences_shingles.
Qed.

(** C7. For every molecule and every configuration with a positive output
    size, whichever the variant, the fingerprint of the molecule is produced
    and has exactly [fp_size] entries; so has every row of a matrix returned
    by [_calculate_fingerprint]. *)
Theorem C7_vector_length (self : MAPFingerprint) (mol : Mol) :
  1 ≤ fp_size self →
  (∃ fp, _calculate_single_mol_fingerprint self mol = Ok fp
         ∧ length fp = Z.to_nat (fp_size self))
  ∧ ∀ X A, _calculate_fingerprint self X = Ok A →
      Forall (fun r => length r = Z.to_nat (fp_size self)) (Np.contents A).
Proof.
  intros Hsize. split; [by apply single_mol_total|].
  intros X A. rewrite calculate_fingerprint_spec by done.
  destruct (Spec.mols_of X) as [[|m ms]|]; try discriminate.
  intros [= <-].
  rewrite contents_returned.
  change (Spec.row self m :: map (Spec.row self) ms)
    with (map (Spec.row self) (m :: ms)).
  apply Forall_forall. intros r Hr.
  apply list_elem_of_In in Hr. apply in_map_iff in Hr as (m' & <- & _).
  by apply row_length.
Qed.

(** C8. When the distance matrix is symmetric in two atoms whose
    neighborhood strings at a radius both exist, exchanging the two atoms
    gives the same shingle string; and the loop body gives the same result
    for the pair in either order. *)
Theorem C8_pair_order_independent (self : MAPFingerprint) (mol : Mol)
    (i j r : nat) (a b : string) :
  GetDistanceMatrix mol i j = GetDistanceMatrix mol j i →
  _find_neighborhood mol i r = Some a →
  _find_neighborhood mol j r = Some b →
  shingle_of a b (Py.str (Py.int_of_float (GetDistanceMatrix mol i j)))
  = shingle_of b a (Py.str (Py.int_of_float (GetDistanceMatrix mol j i)))
  ∧ Spec.emitted (_find_neighborhood mol i r) (_find_neighborhood mol j r)
                 (Spec.distance mol i j)
    = Spec.emitted (_find_neighborhood mol j r) (_find_neighborhood mol i r)
                   (Spec.distance mol j i)
  ∧ ∀ atoms_envs st,
      pair_step self mol atoms_envs st (i, j)
      = pair_step self mol atoms_envs st (j, i).
Proof.
  intros Hsym Ha Hb. split; [rewrite Hsym; apply shingle_of_comm|]. split.
  - unfold Spec.distance. rewrite Ha, Hb, Hsym.
    unfold Spec.emitted, Spec.shingle.
    rewrite (andb_comm (Spec.exists_ (Some a))).
    by rewrite (lex_min_comm a b), (lex_max_comm a b).
  - intros atoms_envs st. unfold pair_step. rewrite Hsym.
    apply foldM_ext. intros s k. apply radius_step_comm.
Qed.

(** C9. [_find_neighborhood] gives [None] exactly when the extraction
    raises its [ValueError] or the atom is missing from the atom map of the
    sub-molecule, and the rooted SMILES otherwise; and the fingerprint of
    every molecule is produced. The source hands [n_radius] to the toolkit
    as the atom the environment is rooted at, and the toolkit raises when
    the molecule has no such atom: so every neighborhood at a radius from
    the number of atoms on is [None], and those radii contribute no
    shingle. In particular, for a molecule of two atoms and a maximal radius
    of 2 the table holds [None] at radius 2 for both atoms, and the shingles
    are those of radius 1 alone. *)
Theorem C9_absent_neighborhood (self : MAPFingerprint) (mol : Mol) :
  (∀ idx r, Spec.unavailable mol idx r ↔ _find_neighborhood mol idx r = None)
  ∧ (∀ idx r env root,
       FindAtomEnvironmentOfRadiusN mol idx r = Some env →
       atomMap (PathToSubmol mol env) !! idx = Some root →
       _find_neighborhood mol idx r = Some (MolToSmiles (PathToSubmol mol env) root))
  ∧ (1 ≤ fp_size self →
     ∃ fp, _calculate_single_mol_fingerprint self mol = Ok fp
           ∧ length fp = Z.to_nat (fp_size self))
  ∧ (Spec.bad_atom_index_raises mol →
     (∀ idx r, (GetNumAtoms mol ≤ r)%nat → _find_neighborhood mol idx r = None)
     ∧ Spec.occurrences self mol
       = Spec.occurrences
           (Spec.with_radius self (Nat.min (radius self) (GetNumAtoms mol - 1)))
           mol
     ∧ (∀ capped,
          capped = Spec.with_radius self
                     (Nat.min (radius self) (GetNumAtoms mol - 1)) →
          _get_atom_pair_shingles self mol (_get_atom_envs self mol)
          = _get_atom_pair_shingles capped mol (_get_atom_envs capped mol)
          ∧ _calculate_single_mol_fingerprint self mol
            = _calculate_single_mol_fingerprint capped mol)
     ∧ (GetNumAtoms mol = 2%nat → radius self = 2%nat →
        _find_neighborhood mol 0 2 = None
        ∧ _find_neighborhood mol 1 2 = None
        ∧ _get_atom_envs self mol !! 0%nat = Some [_find_neighborhood mol 0 1; None]
        ∧ _get_atom_envs self mol !! 1%nat = Some [_find_neighborhood mol 1 1; None]
        ∧ Spec.occurrences self mol = Spec.occurrences (Spec.with_radius self 1) mol
        ∧ _get_atom_pair_shingles self mol (_get_atom_envs self mol)
          = _get_atom_pair_shingles (Spec.with_radius self 1) mol
              (_get_atom_envs (Spec.with_radius self 1) mol))).
Proof.
  split.
  { intros idx r. unfold Spec.unavailable, _find_neighborhood. split.
    - intros [Hraise|(env & Henv & Hmap)]; [by rewrite Hraise|by rewrite Henv, Hmap].
    - destruct (FindAtomEnvironmentOfRadiusN mol idx r) as [env|]; [|by left].
      destruct (atomMap (PathToSubmol mol env) !! idx) eqn:Hmap; [done|].
      intros _. right. by exists env. }
  split.
  { intros idx r env root Henv Hroot. unfold _find_neighborhood.
    by rewrite Henv, Hroot. }
  split; [by apply single_mol_total|].
  intros Hbad.
  split; [intros idx r Hr; by apply find_neighborhood_beyond|].
  split; [by apply occurrences_capped|].
  split.
  { intros capped ->.
    assert (_get_atom_pair_shingles self mol (_get_atom_envs self mol)
            = _get_atom_pair_shingles
                (Spec.with_radius self (Nat.min (radius self) (GetNumAtoms mol - 1)))
                mol
                (_get_atom_envs
                   (Spec.with_radius self
                      (Nat.min (radius self) (GetNumAtoms mol - 1))) mol))
      as Hsame.
    { rewrite !atom_pair_shingles_spec. unfold Spec.hashed_strings, Spec.counted.
      by rewrite <- (occurrences_capped self mol Hbad). }
    split; [exact Hsame|].
    unfold _calculate_single_mol_fingerprint. by rewrite Hsame. }
  intros Hn Hr.
  assert (_find_neighborhood mol 0 2 = None) as Hzero
    by (apply find_neighborhood_beyond; [done|lia]).
  assert (_find_neighborhood mol 1 2 = None) as Hone
    by (apply find_neighborhood_beyond; [done|lia]).
  assert (Spec.occurrences self mol = Spec.occurrences (Spec.with_radius self 1) mol)
    as Hocc.
  { rewrite (occurrences_capped self mol Hbad). by rewrite Hn, Hr. }
  split; [exact Hzero|]. split; [exact Hone|].
  rewrite !atom_envs_lookup, Hn. repeat case_decide; try lia.
  unfold Spec.neighborhoods. rewrite Hr. cbn [seq map]. rewrite Hzero, Hone.
  split; [reflexivity|]. split; [reflexivity|]. split; [exact Hocc|].
  rewrite !atom_pair_shingles_spec. unfold Spec.hashed_strings, Spec.counted.
  by rewrite Hocc.
Qed.

(** C10. With a maximal radius of 0 no shingle is generated for any
    molecule, and in the bit and count variants the fingerprint of every
    molecule, and its row of the output matrix, is the all-zero vector of
    [fp_size] entries. *)
Theorem C10_zero_radius (self : MAPFingerprint) (mol : Mol) :
  radius self = 0%nat → variant self ≠ raw_hashes → 1 ≤ fp_size self →
  _get_atom_pair_shingles self mol (_get_atom_envs self mol) = Ok []
  ∧ _calculate_single_mol_fingerprint self mol = Ok (Spec.zeros (fp_size self))
  ∧ _calculate_fingerprint self [PyMol mol]
    = Ok (Spec.returned self [Spec.zeros (fp_size self)])
  ∧ length (Spec.zeros (fp_size self)) = Z.to_nat (fp_size self).
Proof.
  intros Hr Hv Hsize.
  assert (Spec.hashed_strings self mol = []) as Hnone.
  { assert (Spec.occurrences self mol = []) as Hocc.
    { unfold Spec.occurrences, Spec.pair_occurrences. rewrite Hr. cbn [seq flat_map].
      induction (Py.combinations2 _) as [|p ps IH]; [reflexivity|exact IH]. }
    unfold Spec.hashed_strings, Spec.counted. rewrite Hocc.
    by destruct (is_count _). }
  assert (_calculate_single_mol_fingerprint self mol = Ok (Spec.zeros (fp_size self)))
    as Hfp.
  { unfold _calculate_single_mol_fingerprint.
    rewrite atom_pair_shingles_spec, Hnone. cbn.
    destruct (variant self); [done| |]; apply bincount_empty; lia. }
  split; [by rewrite atom_pair_shingles_spec, Hnone|].
  split; [exact Hfp|]. split.
  - rewrite calculate_fingerprint_spec by done. cbn [Spec.mols_of Spec.mol_of map].
    unfold Spec.row, Spec.fingerprint. rewrite Hfp. do 3 f_equal.
    unfold Spec.zeros. induction (Z.to_nat (fp_size self)) as [|n IH]; [reflexivity|].
    cbn [repeat map]. rewrite IH. f_equal.
    by destruct (variant self).
  - unfold Spec.zeros. apply repeat_length.
Qed.

End Claims.

(** * The claims on the two concrete molecules *)

Section Instances.
Import RDKit MAP Examples.
Local Open Scope Z_scope.

(** SHA-1 test vectors of FIPS 180: the empty message and "abc". *)
Example sha1_empty :
  map Hashlib.byte_to_Z (Hashlib.sha1 [])
  = [0xda; 0x39; 0xa3; 0xee; 0x5e; 0x6b; 0x4b; 0x0d; 0x32; 0x55;
     0xbf; 0xef; 0x95; 0x60; 0x18; 0x90; 0xaf; 0xd8; 0x07; 0x09].
Proof. vm_compute. reflexivity. Qed.

Example sha1_abc :
  map Hashlib.byte_to_Z (Hashlib.sha1 (Py.encode "abc"))
  = [0xa9; 0x99; 0x3e; 0x36; 0x47; 0x06; 0x81; 0x6a; 0xba; 0x3e;
     0x25; 0x71; 0x78; 0x50; 0xc2; 0x6c; 0x9c; 0xd0; 0xd8; 0x9d].
Proof. vm_compute. reflexivity. Qed.

(** The neighborhood table of 2-methylpentane at maximal radius 2. *)
Example methylpentane_envs :
  map (fun i => _get_atom_envs default_map methylpentane !! i) (seq 0 6)
  = [Some [None; None];
     Some [Some "CC"; None];
     Some [Some "CC(C)C"; Some "CC(C)C"];
     Some [Some "C(C)C(C)C"; Some "C(C)C(C)C"];
     Some [Some "C(C)CC(C)C"; Some "C(C)CC(C)C"];
     Some [None; None]]%string.
Proof. vm_compute. reflexivity. Qed.

(** Nine shingle occurrences, six distinct strings. *)
Example methylpentane_occurrences :
  shingle_strings (with_variant bit 16 2) methylpentane
    (_get_atom_envs (with_variant bit 16 2) methylpentane)
  = Ok ["CC|2|CC(C)C"; "C(C)C(C)C|2|CC"; "C(C)CC(C)C|3|CC";
        "C(C)C(C)C|2|CC(C)C"; "C(C)C(C)C|2|CC(C)C";
        "C(C)CC(C)C|3|CC(C)C"; "C(C)CC(C)C|3|CC(C)C";
        "C(C)C(C)C|1|C(C)CC(C)C"; "C(C)C(C)C|1|C(C)CC(C)C"]%string.
Proof. vm_compute. reflexivity. Qed.

Example methylpentane_counted :
  shingle_strings (with_variant count 16 2) methylpentane
    (_get_atom_envs (with_variant count 16 2) methylpentane)
  = Ok ["CC|2|CC(C)C|1"; "C(C)C(C)C|2|CC|1"; "C(C)CC(C)C|3|CC|1";
        "C(C)C(C)C|2|CC(C)C|2"; "C(C)CC(C)C|3|CC(C)C|2";
        "C(C)C(C)C|1|C(C)CC(C)C|2"]%string.
Proof. vm_compute. reflexivity. Qed.

(** C1 as written fails on 2-methylpentane: the count vector sums to 6, the
    number of distinct shingles, while 9 (atom pair, radius) combinations
    have both neighborhoods. *)
Lemma C1_counterexample :
  ¬ Spec.count_sum_is_combinations (with_variant count 16 2) methylpentane.
Proof.
  intros Hclaim.
  assert (_calculate_single_mol_fingerprint (with_variant count 16 2) methylpentane
          = Ok [0; 0; 1; 0; 0; 1; 0; 2; 0; 0; 2; 0; 0; 0; 0; 0]) as Hfp
    by (vm_compute; reflexivity).
  assert (Spec.valid_combinations (with_variant count 16 2) methylpentane = 9%nat)
    as Hvalid by (vm_compute; reflexivity).
  specialize (Hclaim eq_refl _ Hfp). rewrite Hvalid in Hclaim.
  discriminate Hclaim.
Qed.

Lemma C1_count_sum_distinct_witness :
  variant (with_variant count 16 2) = count
  ∧ 1 ≤ fp_size (with_variant count 16 2)
  ∧ ∃ fp, _calculate_single_mol_fingerprint (with_variant count 16 2) methylpentane
          = Ok fp
          ∧ Spec.sum_Z fp
            = Z.of_nat (length (Spec.distinct_shingles (with_variant count 16 2)
                                                       methylpentane))
          ∧ length (Spec.occurrences (with_variant count 16 2) methylpentane)
            = Spec.valid_combinations (with_variant count 16 2) methylpentane
          ∧ Spec.sum_Z fp
            ≤ Z.of_nat (Spec.valid_combinations (with_variant count 16 2)
                                                methylpentane).
Proof.
  assert (variant (with_variant count 16 2) = count) as Hv by reflexivity.
  assert (1 ≤ fp_size (with_variant count 16 2)) as Hsize by (cbn; lia).
  split; [exact Hv|]. split; [exact Hsize|].
  exact (C1_count_sum_distinct (with_variant count 16 2) methylpentane Hv Hsize).
Defined.



Example unparseable_string_passes_validation :
  Base._validate_input [PyStr "not a molecule"] = ([PyNone], Ok ()).
Proof. vm_compute. reflexivity. Qed.

Lemma C3_unrecognised_input_rejected_witness :
  1 ≤ fp_size default_map ∧ (1 ≤ 2)%nat
  ∧ (∃ o, o ∈ [PyStr "[Li]F"; PyStr "not a molecule"]
          ∧ Spec.unrecognised o = true)
  ∧ snd (transform default_map 2 [PyStr "[Li]F"; PyStr "not a molecule"])
    = Raise ValueError.
Proof.
  assert (1 ≤ fp_size default_map) as Hsize by (cbn; lia).
  assert (1 ≤ 2)%nat as Hjobs by lia.
  assert (∃ o, o ∈ [PyStr "[Li]F"; PyStr "not a molecule"]
               ∧ Spec.unrecognised o = true) as Hbad.
  { exists (PyStr "not a molecule"). split; [|reflexivity].
    apply list_elem_of_further, list_elem_of_here. }
  split; [exact Hsize|]. split; [exact Hjobs|]. split; [exact Hbad|].
  exact (proj1 (C3_unrecognised_input_rejected default_map 2
                  [PyStr "[Li]F"; PyStr "not a molecule"] Hsize Hjobs Hbad)).
Defined.

(** C4 as written fails: a textual element of the caller's list is
    overwritten with the parsed molecule. *)
Lemma C4_counterexample :
  ¬ Spec.input_left_unchanged (_calculate_fingerprint default_map) 1
      [PyStr "[Li]F"].
Proof.
  unfold Spec.input_left_unchanged. intros Hclaim.
  assert (fst (Base.transform (_calculate_fingerprint default_map) 1 [PyStr "[Li]F"])
          = [PyMol LiF]) as Hafter by (vm_compute; reflexivity).
  rewrite Hafter in Hclaim. discriminate.
Qed.

(** Two strings before the integer are overwritten, the string after it is
    left in place. *)
Lemma C4_input_after_transform_witness :
  [PyStr "not a molecule"; PyStr "[Li]F"; PyInt 7; PyStr "C(C)(C)CCC"] !! 2%nat
  = Some (PyInt 7)
  ∧ Spec.wrong_type (PyInt 7) = true
  ∧ Forall (fun o => Spec.wrong_type o = false)
           (take 2 [PyStr "not a molecule"; PyStr "[Li]F"; PyInt 7;
                    PyStr "C(C)(C)CCC"])
  ∧ fst (Base.transform (_calculate_fingerprint default_map) 2
           [PyStr "not a molecule"; PyStr "[Li]F"; PyInt 7; PyStr "C(C)(C)CCC"])
    = [PyNone; PyMol LiF; PyInt 7; PyStr "C(C)(C)CCC"].
Proof.
  assert ([PyStr "not a molecule"; PyStr "[Li]F"; PyInt 7; PyStr "C(C)(C)CCC"]
            !! 2%nat = Some (PyInt 7)) as Hk by reflexivity.
  assert (Spec.wrong_type (PyInt 7) = true) as Hbad by reflexivity.
  assert (Forall (fun o => Spec.wrong_type o = false)
                 (take 2 [PyStr "not a molecule"; PyStr "[Li]F"; PyInt 7;
                          PyStr "C(C)(C)CCC"])) as Hpre.
  { repeat constructor. }
  split; [exact Hk|]. split; [exact Hbad|]. split; [exact Hpre|].
  exact (proj1 (proj2 (proj2 (proj2 (proj2
           (C4_input_after_transform (_calculate_fingerprint default_map) 2
              [PyStr "not a molecule"; PyStr "[Li]F"; PyInt 7;
               PyStr "C(C)(C)CCC"])))))
           2%nat (PyInt 7) Hk Hbad Hpre).
Defined.

Lemma C5_bucket_index_witness :
  1 ≤ fp_size default_map
  ∧ fold_bits default_map [Py.encode "CC|2|CC(C)C"]
    = Ok [Spec.bucket (fp_size default_map) (Py.encode "CC|2|CC(C)C")].
Proof.
  assert (1 ≤ fp_size default_map) as Hsize by (cbn; lia).
  split; [exact Hsize|].
  exact (proj1 (C5_bucket_index default_map [Py.encode "CC|2|CC(C)C"] Hsize)).
Defined.

Lemma methylpentane_rooted_smiles : Spec.rooted_smiles_nonempty methylpentane.
Proof.
  intros env idx root. cbn [PathToSubmol methylpentane].
  destruct env as [|a [|b [|c [|d [|e [|f rest]]]]]];
    try destruct a as [|[|a]]; cbn [methylpentane_submol atomMap MolToSmiles no_atoms];
    try (rewrite lookup_empty; discriminate); intros _;
    repeat (destruct root as [|root]; try discriminate).
Qed.

(** Nine shingles on 2-methylpentane at maximal radius 2, at distances 1, 2
    and 3. *)
Example methylpentane_shingles :
  Spec.shingles (with_variant bit 16 2) methylpentane
  = ["CC|2|CC(C)C"; "C(C)C(C)C|2|CC"; "C(C)CC(C)C|3|CC";
     "C(C)C(C)C|2|CC(C)C"; "C(C)C(C)C|2|CC(C)C";
     "C(C)CC(C)C|3|CC(C)C"; "C(C)CC(C)C|3|CC(C)C";
     "C(C)C(C)C|1|C(C)CC(C)C"; "C(C)C(C)C|1|C(C)CC(C)C"]%string.
Proof. vm_compute. reflexivity. Qed.

Example truncated_examples :
  map Spec.truncated [5 # 2; -5 # 2; 3 # 1; 0; -1 # 3]%Q = [2; -2; 3; 0; 0].
Proof. reflexivity. Qed.

Lemma C6_shingle_generation_witness :
  is_count (variant (with_variant bit 16 2)) = false
  ∧ Spec.rooted_smiles_nonempty methylpentane
  ∧ _get_atom_pair_shingles (with_variant bit 16 2) methylpentane
      (_get_atom_envs (with_variant bit 16 2) methylpentane)
    = Ok (map Py.encode
            ["CC|2|CC(C)C"; "C(C)C(C)C|2|CC"; "C(C)CC(C)C|3|CC";
             "C(C)C(C)C|2|CC(C)C"; "C(C)C(C)C|2|CC(C)C";
             "C(C)CC(C)C|3|CC(C)C"; "C(C)CC(C)C|3|CC(C)C";
             "C(C)C(C)C|1|C(C)CC(C)C"; "C(C)C(C)C|1|C(C)CC(C)C"]%string).
Proof.
  assert (is_count (variant (with_variant bit 16 2)) = false) as Hv by reflexivity.
  pose proof methylpentane_rooted_smiles as Hsmiles.
  split; [exact Hv|]. split; [exact Hsmiles|].
  rewrite <- methylpentane_shingles.
  exact (proj1 (C6_shingle_generation (with_variant bit 16 2) methylpentane
                  Hv Hsmiles)).
Defined.

Lemma C7_vector_length_witness :
  1 ≤ fp_size (with_variant raw_hashes 4 2)
  ∧ ∃ fp, _calculate_single_mol_fingerprint (with_variant raw_hashes 4 2)
            methylpentane = Ok fp
          ∧ length fp = Z.to_nat (fp_size (with_variant raw_hashes 4 2)).
Proof.
  assert (1 ≤ fp_size (with_variant raw_hashes 4 2)) as Hsize by (cbn; lia).
  split; [exact Hsize|].
  exact (proj1 (C7_vector_length (with_variant raw_hashes 4 2) methylpentane Hsize)).
Defined.

Lemma C8_pair_order_independent_witness :
  GetDistanceMatrix methylpentane 3 4 = GetDistanceMatrix methylpentane 4 3
  ∧ _find_neighborhood methylpentane 3 1 = Some "C(C)C(C)C"%string
  ∧ _find_neighborhood methylpentane 4 1 = Some "C(C)CC(C)C"%string
  ∧ shingle_of "C(C)C(C)C" "C(C)CC(C)C"
      (Py.str (Py.int_of_float (GetDistanceMatrix methylpentane 3 4)))
    = shingle_of "C(C)CC(C)C" "C(C)C(C)C"
        (Py.str (Py.int_of_float (GetDistanceMatrix methylpentane 4 3))).
Proof.
  assert (GetDistanceMatrix methylpentane 3 4 = GetDistanceMatrix methylpentane 4 3)
    as Hsym by reflexivity.
  assert (_find_neighborhood methylpentane 3 1 = Some "C(C)C(C)C"%string) as Ha
    by (vm_compute; reflexivity).
  assert (_find_neighborhood methylpentane 4 1 = Some "C(C)CC(C)C"%string) as Hb
    by (vm_compute; reflexivity).
  split; [exact Hsym|]. split; [exact Ha|]. split; [exact Hb|].
  exact (proj1 (C8_pair_order_independent default_map methylpentane 3 4 1
                  "C(C)C(C)C" "C(C)CC(C)C" Hsym Ha Hb)).
Defined.

Lemma LiF_bad_atom_index : Spec.bad_atom_index_raises LiF.
Proof.
  intros x y Hy. cbn [GetNumAtoms LiF] in Hy.
  destruct y as [|[|y]]; [lia|lia|reflexivity].
Qed.

Lemma propane_bad_atom_index : Spec.bad_atom_index_raises More.propane.
Proof.
  intros x y Hy. cbn [GetNumAtoms More.propane] in Hy.
  destruct y as [|[|[|y]]]; [lia|lia|lia|reflexivity].
Qed.

(** Propane at maximal radius 3: one shingle, at radius 2. *)
Example propane_occurrences :
  Spec.occurrences (with_variant bit 16 3) More.propane = ["CC|1|CCC"%string]
  ∧ Spec.occurrences (with_variant bit 16 1) More.propane = [].
Proof. split; vm_compute; reflexivity. Qed.

Lemma C9_absent_neighborhood_witness :
  (Spec.bad_atom_index_raises LiF
   ∧ GetNumAtoms LiF = 2%nat ∧ radius default_map = 2%nat
   ∧ _find_neighborhood LiF 0 2 = None
   ∧ _find_neighborhood LiF 1 2 = None
   ∧ _get_atom_envs default_map LiF !! 0%nat = Some [_find_neighborhood LiF 0 1; None]
   ∧ _get_atom_envs default_map LiF !! 1%nat = Some [_find_neighborhood LiF 1 1; None]
   ∧ Spec.occurrences default_map LiF
     = Spec.occurrences (Spec.with_radius default_map 1) LiF
   ∧ _get_atom_pair_shingles default_map LiF (_get_atom_envs default_map LiF)
     = _get_atom_pair_shingles (Spec.with_radius default_map 1) LiF
         (_get_atom_envs (Spec.with_radius default_map 1) LiF))
  ∧ (Spec.bad_atom_index_raises More.propane
     ∧ Spec.occurrences (with_variant bit 16 3) More.propane
       = Spec.occurrences (Spec.with_radius (with_variant bit 16 3) 2) More.propane).
Proof.
  assert (GetNumAtoms LiF = 2%nat) as Hn by reflexivity.
  assert (radius default_map = 2%nat) as Hr by reflexivity.
  pose proof LiF_bad_atom_index as HLiF.
  pose proof propane_bad_atom_index as Hpropane.
  split.
  - split; [exact HLiF|]. split; [exact Hn|]. split; [exact Hr|].
    exact (proj2 (proj2 (proj2 (proj2 (proj2 (proj2
             (C9_absent_neighborhood default_map LiF))) HLiF))) Hn Hr).
  - split; [exact Hpropane|].
    exact (proj1 (proj2 (proj2 (proj2 (proj2
             (C9_absent_neighborhood (with_variant bit 16 3) More.propane)))
             Hpropane))).
Defined.

Lemma C10_zero_radius_witness :
  radius (with_variant count 32 0) = 0%nat
  ∧ variant (with_variant count 32 0) ≠ raw_hashes
  ∧ 1 ≤ fp_size (with_variant count 32 0)
  ∧ _calculate_single_mol_fingerprint (with_variant count 32 0) methylpentane
    = Ok (Spec.zeros (fp_size (with_variant count 32 0))).
Proof.
  assert (radius (with_variant count 32 0) = 0%nat) as Hr by reflexivity.
  assert (variant (with_variant count 32 0) ≠ raw_hashes) as Hv by discriminate.
  assert (1 ≤ fp_size (with_variant count 32 0)) as Hsize by (cbn; lia).
  split; [exact Hr|]. split; [exact Hv|]. split; [exact Hsize|].
  exact (proj1 (proj2 (C10_zero_radius (with_variant count 32 0) methylpentane
                         Hr Hv Hsize))).
Defined.

End Instances.

(** * Further properties of the two source files *)

(** ** [_validate_input]: when it raises and what it leaves behind *)

Section ValidationMore.
Import RDKit.
Context `{Parser}.

(** X1. Validation raises exactly when some element is neither a [Mol]
    instance nor of type [str], always with [ValueError]; in particular
    unparseable strings and the empty sequence pass. *)
Theorem validation_raises_iff_wrong_type (X : list PyObj) :
  (snd (Base._validate_input X) = Raise ValueError
   ↔ ∃ o, o ∈ X ∧ Spec.wrong_type o = true)
  ∧ (snd (Base._validate_input X) = Ok ()
     ↔ Forall (fun o => Spec.wrong_type o = false) X)
  ∧ (∀ e, snd (Base._validate_input X) = Raise e → e = ValueError).
Proof.
  rewrite validate_input_spec.
  destruct (validated_cases X) as [[Hall Hval]|[Hbad Hval]].
  - rewrite Hval. cbn [snd]. split; [|split].
    + split; [done|]. intros (o & Hin & Hw).
      rewrite Forall_forall in Hall. rewrite (Hall o Hin) in Hw. done.
    + done.
    + done.
  - rewrite Hval. split; [|split].
    + done.
    + split; [done|]. intros Hall. destruct Hbad as (o & Hin & Hw).
      rewrite Forall_forall in Hall. rewrite (Hall o Hin) in Hw. done.
    + by intros e [= <-].
Qed.

(** X2. When validation fails at index [k] (the first element of a wrong
    type), [transform] raises [ValueError] and leaves the caller's list
    partly overwritten: the strings before index [k] have been replaced by
    what the toolkit parsed, the elements from index [k] on are untouched. *)
Theorem failed_validation_overwrites_prefix
    (calc : list PyObj → result Np.arraylike) (n_jobs : nat) (X : list PyObj)
    (k : nat) (o : PyObj) :
  X !! k = Some o → Spec.wrong_type o = true →
  Forall (fun o' => Spec.wrong_type o' = false) (take k X) →
  Base.transform calc n_jobs X
  = (map Spec.converted (take k X) ++ drop k X, Raise ValueError).
Proof.
  intros Hk Ho Hpre. unfold Base.transform. rewrite validate_input_spec.
  rewrite <- (take_drop k X) at 1.
  rewrite (drop_S X o k Hk), (validated_stops _ _ o Hpre Ho).
  by rewrite <- (drop_S X o k Hk).
Qed.

(** X3. When every element is a molecule or a string that the toolkit
    parses, validation succeeds, leaves only [Mol] instances in the list,
    and validating the list again changes nothing. *)
Theorem validation_idempotent_on_parsed (X : list PyObj) :
  Forall (fun o => Spec.unrecognised o = false) X →
  Base._validate_input X = (map Spec.converted X, Ok ())
  ∧ Forall (fun o => isinstance_Mol o = true) (map Spec.converted X)
  ∧ Base._validate_input (map Spec.converted X) = (map Spec.converted X, Ok ()).
Proof.
  intros Hrec.
  assert (Forall (fun o => isinstance_Mol o = true) (map Spec.converted X)) as Hmol.
  { induction Hrec as [|o X Ho _ IH]; [constructor|].
    cbn [map]. constructor; [|exact IH].
    destruct o as [m|s| |z]; cbn in *; try done.
    unfold Base.parsed. destruct (MolFromSmiles s); [done|].
    rewrite bool_decide_eq_false_2 in Ho; [done|by intros [? ?]]. }
  assert (∀ Y, Forall (fun o => isinstance_Mol o = true) Y →
               Spec.validated Y = (Y, Ok ())) as Hfix.
  { intros Y HY. induction HY as [|o Y Ho _ IH]; [reflexivity|].
    cbn [Spec.validated]. rewrite IH. by destruct o. }
  split; [|split; [exact Hmol|]].
  - rewrite validate_input_spec. apply validated_accepts.
    induction Hrec as [|o X Ho _ IH]; [constructor|].
    constructor; [by destruct o|]. apply IH.
    by apply Forall_cons in Hmol as [_ ?].
  - rewrite validate_input_spec. by apply Hfix.
Qed.

(** X4. A string that the toolkit cannot parse makes validation succeed
    once and fail the next time: the first call stores [None] in its place,
    and a second validation of the same list raises [ValueError]. *)
Theorem revalidation_fails_after_unparseable (X : list PyObj) (s : string) :
  Forall (fun o => Spec.wrong_type o = false) X →
  PyStr s ∈ X → MolFromSmiles s = None →
  snd (Base._validate_input X) = Ok ()
  ∧ PyNone ∈ fst (Base._validate_input X)
  ∧ snd (Base._validate_input (fst (Base._validate_input X))) = Raise ValueError.
Proof.
  intros Hok Hin Hparse. rewrite !validate_input_spec.
  rewrite (validated_accepts X Hok). cbn [fst snd].
  assert (PyNone ∈ map Spec.converted X) as Hnone.
  { apply list_elem_of_In, in_map_iff. exists (PyStr s).
    split; [|by apply list_elem_of_In].
    cbn. unfold Base.parsed. by rewrite Hparse. }
  split; [reflexivity|]. split; [exact Hnone|].
  apply validated_rejects. by exists PyNone.
Qed.

End ValidationMore.

(** ** [transform]: the sub-batches and what is dispatched on them *)

Section DispatchMore.
Import RDKit.
Context `{Parser}.

Lemma range_from_lookup (fuel start stop step k : nat) :
  1 ≤ step → stop - start ≤ fuel →
  Py.range_from fuel start stop step !! k
  = if decide (start + k * step < stop) then Some (start + k * step) else None.
Proof.
  intros Hstep. induction fuel as [|fuel IH] in start, k |- *; intros Hfuel.
  - cbn. case_decide; [lia|done].
  - cbn [Py.range_from]. destruct (Nat.ltb_spec start stop) as [Hlt|Hge].
    + destruct k as [|k]; cbn [lookup list_lookup].
      * case_decide; [f_equal; lia|lia].
      * rewrite IH by lia.
        repeat case_decide; try lia; [f_equal; lia|reflexivity].
    + rewrite lookup_nil. case_decide; [lia|done].
Qed.

Lemma sub_batches_lookup (b : nat) (X : list PyObj) (k : nat) :
  1 ≤ b →
  Spec.sub_batches b X !! k
  = if decide (k * b < length X) then Some (take b (drop (k * b) X)) else None.
Proof.
  intros Hb. unfold Spec.sub_batches.
  change (map ?f ?l) with (f <$> l).
  rewrite list_lookup_fmap, range_from_lookup by lia. cbn [plus].
  case_decide; [|done]. cbn. by rewrite slice_take.
Qed.

(** X5. For a positive batch size, the parallel branch calls the fingerprint
    method once per sub-batch, in order; sub-batch [k] is
    [X[k * b : (k + 1) * b]], so every sub-batch is non-empty and has at most
    [b] elements, their concatenation is the input, and there are
    [ceil(len(X) / b)] of them. *)
Theorem sub_batches_partition (calc : list PyObj → result Np.arraylike)
    (b : nat) (X : list PyObj) :
  1 ≤ b →
  Base.dispatch calc b X
  = (results ← forM calc (Spec.sub_batches b X); Np.concatenate results)
  ∧ concat (Spec.sub_batches b X) = X
  ∧ (∀ k, Spec.sub_batches b X !! k
          = if decide (k * b < length X) then Some (take b (drop (k * b) X))
            else None)
  ∧ Forall (fun c => 1 ≤ length c ≤ b) (Spec.sub_batches b X)
  ∧ length X ≤ length (Spec.sub_batches b X) * b
  ∧ length (Spec.sub_batches b X) * b < length X + b.
Proof.
  intros Hb.
  assert (∀ k, Spec.sub_batches b X !! k
               = if decide (k * b < length X) then Some (take b (drop (k * b) X))
                 else None) as Hlookup
    by (intros k; by apply sub_batches_lookup).
  split; [|split; [by apply sub_batches_concat|split; [exact Hlookup|split; [|split]]]].
  - unfold Base.dispatch, Py.range3.
    destruct (Nat.eqb_spec b 0) as [->|_]; [lia|]. cbn.
    by rewrite (forM_compose calc (fun i => Py.slice X i (i + b))).
  - apply Forall_lookup. intros k c Hc. rewrite Hlookup in Hc.
    case_decide; [|done]. injection Hc as <-.
    rewrite length_take, length_drop. lia.
  - pose proof (Hlookup (length (Spec.sub_batches b X))) as Hend.
    rewrite lookup_ge_None_2 in Hend by lia.
    case_decide; [done|lia].
  - destruct (length (Spec.sub_batches b X)) as [|n] eqn:Hn; [lia|].
    pose proof (Hlookup n) as Hlast.
    destruct (lookup_lt_is_Some_2 (Spec.sub_batches b X) n) as [c Hc]; [lia|].
    rewrite Hc in Hlast. case_decide; [|done]. lia.
Qed.

Lemma forM_rows (calc : list PyObj → result Np.arraylike) (f : PyObj → Np.row)
    (w : nat) (cs : list (list PyObj)) :
  More.row_wise calc f w → Forall (fun c => c ≠ []) cs →
  forM calc cs = Ok (map Np.ndarray (map (map f) cs))
  ∧ Forall (fun M => Np.width M = w) (map (map f) cs).
Proof.
  intros [Hw Hcalc]. induction 1 as [|c cs Hc _ [IHrun IHw]].
  - split; [reflexivity|constructor].
  - cbn [forM map]. rewrite (Hcalc c Hc). cbn. rewrite IHrun. cbn.
    split; [reflexivity|]. constructor; [|exact IHw].
    destruct c as [|o c]; [done|]. cbn. apply Hw.
Qed.

(** X6. For every fingerprint method that computes one row of a fixed width
    per element, [transform] on a non-empty sequence gives with several
    workers exactly what it gives with one. *)
Theorem row_wise_parallel_equals_sequential
    (calc : list PyObj → result Np.arraylike) (f : PyObj → Np.row) (w : nat)
    (n_jobs : nat) (X : list PyObj) :
  More.row_wise calc f w → 1 < n_jobs → X ≠ [] →
  Base.transform calc n_jobs X = Base.transform calc 1 X.
Proof.
  intros Hrow Hjobs HX. unfold Base.transform. rewrite validate_input_spec.
  pose proof (validated_length X) as Hlen.
  destruct (Spec.validated X) as [Y ok]. cbn [fst] in Hlen. f_equal.
  destruct ok as [[]|e]; cbn; [|reflexivity].
  destruct (Nat.eqb_spec n_jobs 1) as [->|_]; [lia|].
  unfold Py.floordiv. destruct (Nat.eqb_spec n_jobs 0) as [->|_]; [lia|]. cbn.
  assert (Y ≠ []) as HY by (intros ->; destruct X; done).
  set (b := Nat.max (length Y / n_jobs) 1).
  assert (1 ≤ b) as Hb by lia.
  unfold Base.dispatch, Py.range3.
  destruct (Nat.eqb_spec b 0) as [Hz|_]; [lia|]. cbn.
  rewrite (forM_compose calc (fun i => Py.slice Y i (i + b))).
  fold (Spec.sub_batches b Y).
  destruct (sub_batches_concat b Y Hb) as [Hcat Hne].
  destruct (forM_rows calc f w _ Hrow Hne) as [Hrun Hwidth].
  rewrite Hrun. cbn.
  rewrite (concatenate_uniform _ w); [| |exact Hwidth].
  - destruct Hrow as [_ Hcalc]. rewrite (Hcalc Y HY). do 2 f_equal.
    rewrite <- Hcat at 2. generalize (Spec.sub_batches b Y). intros cs.
    induction cs as [|c cs IH]; [reflexivity|].
    cbn [map concat]. by rewrite IH, map_app.
  - intros Hnil. apply map_eq_nil in Hnil. rewrite Hnil in Hcat. by cbn in Hcat.
Qed.

(** X7. The empty sequence: with more than one worker [transform] raises
    [ValueError] without calling the fingerprint method (there is nothing to
    concatenate); with one worker it returns what the method returns on the
    empty batch. *)
Theorem transform_empty_input (calc : list PyObj → result Np.arraylike) (n_jobs : nat) :
  (1 < n_jobs → Base.transform calc n_jobs [] = ([], Raise ValueError))
  ∧ Base.transform calc 1 [] = ([], calc []).
Proof.
  split; [|reflexivity].
  intros Hjobs. unfold Base.transform. cbn.
  destruct (Nat.eqb_spec n_jobs 1) as [->|_]; [lia|].
  unfold Py.floordiv. destruct (Nat.eqb_spec n_jobs 0) as [->|_]; [lia|].
  cbn. rewrite Nat.Div0.div_0_l. reflexivity.
Qed.

End DispatchMore.

(** ** The folded fingerprints in closed form *)

Section FoldedMore.
Import RDKit MAP.
Context `{Datasketch.Permutations} `{Parser}.
Local Open Scope Z_scope.

Lemma count_of_range (k : Z) (x : list Z) :
  0 ≤ Np.count_of k x ≤ Z.of_nat (length x).
Proof.
  unfold Np.count_of. pose proof (List.filter_length_le (fun v => v =? k) x). lia.
Qed.

Lemma count_of_positive (k : Z) (x : list Z) :
  (Np.count_of k x >? 0) = existsb (fun v => v =? k) x.
Proof.
  induction x as [|a x IH]; [reflexivity|].
  rewrite count_of_cons. cbn [existsb]. rewrite <- IH.
  pose proof (count_of_range k x). rewrite !Z.gtb_ltb.
  destruct (a =? k); cbn [orb].
  - apply Z.ltb_lt. lia.
  - by rewrite Z.add_0_l.
Qed.

Lemma existsb_bucket (g : string → Z) (k : Z) (l : list string) :
  existsb (fun v => v =? k) (map g l) = existsb (fun s => g s =? k) l.
Proof. induction l as [|s l IH]; [reflexivity|]. cbn. by rewrite IH. Qed.

Lemma folded_occurrences (self : MAPFingerprint) (mol : Mol) :
  1 ≤ fp_size self → variant self = bit →
  Spec.fingerprint self mol
  = map (fun k => Np.count_of (Z.of_nat k)
                    (map (More.bucket_of self) (Spec.occurrences self mol)))
        (seq 0 (Z.to_nat (fp_size self))).
Proof.
  intros Hsize Hv.
  pose proof (proj1 (fingerprint_ok self mol Hsize)) as Hfp.
  rewrite folded_spec in Hfp by (done || congruence).
  injection Hfp as <-. unfold Spec.hashed_strings. rewrite Hv. cbn [is_count].
  by rewrite map_map.
Qed.

Lemma bit_row_spec (self : MAPFingerprint) (mol : Mol) :
  1 ≤ fp_size self → variant self = bit →
  Spec.row self mol = More.bit_row self mol.
Proof.
  intros Hsize Hv. unfold Spec.row, More.bit_row.
  rewrite folded_occurrences, map_map, Hv by done.
  apply map_ext. intros k. cbn [cast]. unfold Np.gt0_uint8.
  by rewrite count_of_positive, existsb_bucket.
Qed.

Lemma mols_of_Forall2 (X : list PyObj) (ms : list Mol) :
  Spec.mols_of X = Some ms → Forall2 (fun o m => Spec.mol_of o = Some m) X ms.
Proof.
  induction X as [|o X IH] in ms |- *; cbn [Spec.mols_of].
  - intros [= <-]. constructor.
  - destruct (Spec.mol_of o) as [m|] eqn:Hm; [|done].
    destruct (Spec.mols_of X) as [ms'|]; [|done].
    intros [= <-]. constructor; [done|by apply IH].
Qed.

(** X8. In the bit variant every row of the matrix returned by
    [_calculate_fingerprint] is the presence vector of its molecule: entry
    [k] is 1 when some shingle occurrence falls in bucket [k] and 0
    otherwise; so every entry is 0 or 1. *)
Theorem bit_rows_are_presence_vectors (self : MAPFingerprint) (X : list PyObj)
    (A : Np.arraylike) :
  variant self = bit → 1 ≤ fp_size self →
  _calculate_fingerprint self X = Ok A →
  Forall2 (fun o r => ∃ m, Spec.mol_of o = Some m ∧ r = More.bit_row self m)
          X (Np.contents A)
  ∧ Forall (Forall (fun v => v = 0 ∨ v = 1)) (Np.contents A).
Proof.
  intros Hv Hsize. rewrite calculate_fingerprint_spec by done.
  destruct (Spec.mols_of X) as [[|m ms]|] eqn:Ems; try discriminate.
  intros [= <-]. rewrite contents_returned.
  change (Spec.row self m :: map (Spec.row self) ms)
    with (map (Spec.row self) (m :: ms)).
  apply mols_of_Forall2 in Ems. split.
  - induction Ems as [|o m' X' ms' Hm' _ IH]; [constructor|].
    cbn [map]. constructor; [|exact IH].
    exists m'. split; [done|]. by apply bit_row_spec.
  - apply Forall_forall. intros r Hr.
    apply list_elem_of_In in Hr. apply in_map_iff in Hr as (m' & <- & _).
    rewrite bit_row_spec by done. unfold More.bit_row.
    apply Forall_forall. intros v Hv'.
    apply list_elem_of_In in Hv'. apply in_map_iff in Hv' as (k & <- & _).
    destruct (existsb _ _); auto.
Qed.

(** X9. In the bit variant the number of set bits of a molecule's row is the
    number of distinct buckets its shingles fall in, which is at most the
    number of its distinct shingle strings. *)
Theorem set_bits_are_distinct_buckets (self : MAPFingerprint) (mol : Mol) :
  variant self = bit → 1 ≤ fp_size self →
  _calculate_fingerprint self [PyMol mol]
  = Ok (Spec.returned self [More.bit_row self mol])
  ∧ Spec.sum_Z (More.bit_row self mol)
    = Z.of_nat (length (More.distinct_buckets self mol))
  ∧ (length (More.distinct_buckets self mol)
     ≤ length (Spec.distinct_shingles self mol))%nat.
Proof.
  intros Hv Hsize. split; [|split].
  - rewrite calculate_fingerprint_spec by done. cbn [Spec.mols_of Spec.mol_of map].
    by rewrite bit_row_spec.
  - unfold More.bit_row, More.distinct_buckets.
    assert (Forall (fun v => 0 ≤ v < Z.of_nat (Z.to_nat (fp_size self)))
              (map (More.bucket_of self) (Spec.occurrences self mol))) as Hrange.
    { rewrite Z2Nat.id by lia. apply Forall_forall. intros v Hv'.
      apply list_elem_of_In in Hv'. apply in_map_iff in Hv' as (s & <- & _).
      by apply bucket_range. }
    rewrite <- (map_ext (fun k => if existsb (fun v => v =? Z.of_nat k)
                                      (map (More.bucket_of self)
                                           (Spec.occurrences self mol))
                                 then 1 else 0)).
    2:{ intros k. by rewrite existsb_bucket. }
    revert Hrange. generalize (map (More.bucket_of self) (Spec.occurrences self mol)).
    generalize (Z.to_nat (fp_size self)). intros n x Hx.
    induction Hx as [|a x Ha _ IH].
    + cbn [existsb remove_dups length]. generalize (seq 0 n). intros ks.
      induction ks as [|k ks IHks]; [reflexivity|].
      unfold Spec.sum_Z in *. cbn [map foldr]. rewrite IHks. reflexivity.
    + cbn [remove_dups]. destruct (decide_rel elem_of a x) as [Hin|Hnin].
      * rewrite <- IH. f_equal. apply map_ext. intros k. cbn [existsb].
        destruct (Z.eqb_spec a (Z.of_nat k)) as [<-|_]; [|reflexivity].
        cbn [orb]. symmetry.
        assert (existsb (fun v => v =? a) x = true) as ->; [|reflexivity].
        apply existsb_exists. exists a.
        split; [by apply list_elem_of_In|apply Z.eqb_refl].
      * cbn [length]. rewrite Nat2Z.inj_succ, <- IH.
        rewrite (map_ext _ (fun k => (if a =? Z.of_nat k then 1 else 0)
                                     + (if existsb (fun v => v =? Z.of_nat k) x
                                        then 1 else 0))).
        2:{ intros k. cbn [existsb].
            destruct (Z.eqb_spec a (Z.of_nat k)) as [<-|_]; [|reflexivity].
            cbn [orb].
            assert (existsb (fun v => v =? a) x = false) as ->; [|reflexivity].
            apply not_true_is_false. intros Hex.
            apply existsb_exists in Hex as (v & Hv' & Heq).
            apply Z.eqb_eq in Heq as ->. by apply list_elem_of_In in Hv'. }
        rewrite sum_Z_pointwise, sum_indicator by lia.
        destruct (Z.ltb_spec a (Z.of_nat n)); lia.
  - unfold More.distinct_buckets, Spec.distinct_shingles.
    rewrite <- (length_map (More.bucket_of self)
                  (remove_dups (Spec.occurrences self mol))).
    apply submseteq_length, NoDup_submseteq; [apply NoDup_remove_dups|].
    intros v Hv'. rewrite elem_of_remove_dups in Hv'.
    apply list_elem_of_In in Hv'. apply in_map_iff in Hv' as (s & <- & Hs).
    apply list_elem_of_In, in_map. apply list_elem_of_In.
    rewrite elem_of_remove_dups. by apply list_elem_of_In.
Qed.

(** X10. Outside count mode (bit variant) the histogram that
    [_calculate_single_mol_fingerprint] returns sums to the number of
    (atom pair, radius) combinations for which both neighborhoods exist:
    every shingle occurrence is counted. *)
Theorem bit_histogram_counts_occurrences (self : MAPFingerprint) (mol : Mol) :
  variant self = bit → 1 ≤ fp_size self →
  ∃ fp, _calculate_single_mol_fingerprint self mol = Ok fp
        ∧ Spec.sum_Z fp = Z.of_nat (Spec.valid_combinations self mol).
Proof.
  intros Hv Hsize. exists (Spec.fingerprint self mol).
  split; [by apply fingerprint_ok|].
  rewrite folded_occurrences by done. rewrite histogram_sum.
  - by rewrite length_map, occurrences_length.
  - rewrite Z2Nat.id by lia. apply Forall_forall. intros v Hv'.
    apply list_elem_of_In in Hv'. apply in_map_iff in Hv' as (s & <- & _).
    by apply bucket_range.
Qed.

(** X11. In the count variant every entry of a molecule's vector lies
    between 0 and the number of its distinct shingle strings; when that
    number is below 2^32 the cast to unsigned 32-bit changes nothing. *)
Theorem count_entries_bounded (self : MAPFingerprint) (mol : Mol) :
  variant self = count → 1 ≤ fp_size self →
  ∃ fp, _calculate_single_mol_fingerprint self mol = Ok fp
        ∧ Forall (fun v => 0 ≤ v ≤ Z.of_nat (length (Spec.distinct_shingles self mol)))
                 fp
        ∧ (Z.of_nat (length (Spec.distinct_shingles self mol)) < 2 ^ 32 →
           map (cast (variant self)) fp = fp).
Proof.
  intros Hv Hsize. eexists. split; [apply folded_spec; [done|congruence]|].
  assert (Forall (fun v => 0 ≤ v ≤ Z.of_nat (length (Spec.distinct_shingles self mol)))
            (map (fun k => Np.count_of (Z.of_nat k)
                     (map (Spec.bucket (fp_size self))
                          (map Py.encode (Spec.hashed_strings self mol))))
                 (seq 0 (Z.to_nat (fp_size self))))) as Hbound.
  { apply Forall_forall. intros v Hv'.
    apply list_elem_of_In in Hv'. apply in_map_iff in Hv' as (k & <- & _).
    pose proof (count_of_range (Z.of_nat k)
                  (map (Spec.bucket (fp_size self))
                       (map Py.encode (Spec.hashed_strings self mol)))) as Hr.
    rewrite !length_map in Hr. unfold Spec.hashed_strings in Hr.
    rewrite Hv in Hr. cbn [is_count] in Hr.
    rewrite length_map, counted_length in Hr.
    unfold Spec.hashed_strings. rewrite Hv. cbn [is_count]. exact Hr. }
  split; [exact Hbound|]. intros Hsmall. rewrite Hv. cbn [cast].
  rewrite <- (map_id (map _ (seq 0 _))) at 2.
  apply Forall_fmap_ext_1. eapply Forall_impl; [exact Hbound|].
  intros v Hrange. cbn beta in Hrange. cbn [cast]. unfold Np.as_uint32.
  apply Z.mod_small. split; [apply Hrange|].
  eapply Z.le_lt_trans; [apply Hrange|exact Hsmall].
Qed.

End FoldedMore.

(** ** The shingle generator: counts, bounds, small molecules, radius *)

Section CountingMore.
Import RDKit MAP.
Local Open Scope Z_scope.

Lemma occurrences_of_app (s : string) (u v : list string) :
  More.occurrences_of s (u ++ v) = More.occurrences_of s u + More.occurrences_of s v.
Proof.
  unfold More.occurrences_of. rewrite List.filter_app, length_app. lia.
Qed.

Lemma occurrences_of_absent (s : string) (l : list string) :
  s ∉ l → More.occurrences_of s l = 0.
Proof.
  intros Hs. unfold More.occurrences_of.
  induction l as [|x l IH]; [reflexivity|].
  apply not_elem_of_cons in Hs as [Hne Hs]. cbn [List.filter].
  destruct (String.eqb_spec s x); [done|by apply IH].
Qed.

Lemma dict_incr_elem (d : list (string * Z)) (x s : string) (c : Z) :
  NoDup d.*1 →
  (s, c) ∈ dict_incr d x
  ↔ (s ≠ x ∧ (s, c) ∈ d)
    ∨ (s = x ∧ (((x ∉ d.*1) ∧ c = 1) ∨ ∃ c0, (x, c0) ∈ d ∧ c = c0 + 1)).
Proof.
  induction d as [|[k' c'] d IH]; intros Hnd.
  - cbn [dict_incr]. rewrite list_elem_of_singleton, pair_equal_spec.
    pose proof (not_elem_of_nil x) as Hx.
    pose proof (not_elem_of_nil (s, c)) as Hsc.
    pose proof (fun c0 : Z => not_elem_of_nil (x, c0)) as Hxc.
    split.
    + intros [-> ->]. right. split; [done|]. by left.
    + intros [[_ Hin]|[-> [[_ ->]|(c0 & Hin & _)]]]; [done|done|].
      by apply Hxc in Hin.
  - rewrite fmap_cons in Hnd. cbn [fst] in Hnd.
    apply NoDup_cons in Hnd as [Hk' Hnd]. specialize (IH Hnd).
    assert (∀ c0, (k', c0) ∉ d) as Hfresh.
    { intros c0 Hin. apply Hk'. apply list_elem_of_fmap. by exists (k', c0). }
    cbn [dict_incr]. destruct (String.eqb_spec k' x) as [->|Hne].
    + rewrite fmap_cons. cbn [fst].
      repeat setoid_rewrite elem_of_cons. repeat setoid_rewrite pair_equal_spec.
      split.
      * intros [[-> ->]|Hin].
        -- right. split; [done|]. right. exists c'. auto.
        -- left. split; [|by right]. intros ->. by apply Hfresh in Hin.
      * intros [[Hsx [[-> _]|Hin]]|[-> [[Hnot _]|(c0 & [[_ ->]|Hin] & ->)]]].
        -- done.
        -- by right.
        -- exfalso. apply Hnot. by left.
        -- by left.
        -- by apply Hfresh in Hin.
    + rewrite elem_of_cons, IH, fmap_cons. cbn [fst].
      repeat setoid_rewrite elem_of_cons. repeat setoid_rewrite pair_equal_spec.
      split.
      * intros [[-> ->]|[[Hsx Hin]|[-> [[Hnot ->]|(c0 & Hin & ->)]]]].
        -- left. split; [done|]. by left.
        -- left. split; [done|]. by right.
        -- right. split; [done|]. left. split; [|done].
           intros [->|Hin]; done.
        -- right. split; [done|]. right. exists c0. split; [by right|done].
      * intros [[Hsx [[-> ->]|Hin]]|[-> [[Hnot ->]|(c0 & [[-> _]|Hin] & ->)]]].
        -- by left.
        -- right. left. done.
        -- right. right. split; [done|]. left. split; [|done].
           intros Hin. apply Hnot. by right.
        -- done.
        -- right. right. split; [done|]. right. by exists c0.
Qed.

Lemma counted_contents (l : list string) :
  NoDup (fold_left dict_incr l []).*1
  ∧ ∀ s c, (s, c) ∈ fold_left dict_incr l []
           ↔ s ∈ l ∧ c = More.occurrences_of s l.
Proof.
  induction l as [|x l [IHnd IH]] using rev_ind.
  - split; [constructor|]. intros s c. cbn. rewrite !elem_of_nil. tauto.
  - destruct (counted_keys (l ++ [x]) []) as [Hnd _]; [constructor|].
    split; [exact Hnd|]. intros s c.
    rewrite fold_left_app. cbn [fold_left].
    rewrite dict_incr_elem by exact IHnd.
    destruct (counted_keys l []) as [_ Hkeys]; [constructor|].
    assert (x ∉ (fold_left dict_incr l []).*1 ↔ x ∉ l) as Hfresh.
    { rewrite Hkeys, elem_of_nil. tauto. }
    rewrite Hfresh, elem_of_app, list_elem_of_singleton, occurrences_of_app.
    assert (More.occurrences_of s [x] = if String.eqb s x then 1 else 0) as ->.
    { unfold More.occurrences_of. cbn. by destruct (String.eqb s x). }
    split.
    + intros [[Hsx Hin]|[-> [[Hnot ->]|(c0 & Hin & ->)]]].
      * apply IH in Hin as [Hin ->]. split; [by left|].
        destruct (String.eqb_spec s x); [done|lia].
      * split; [by right|]. rewrite String.eqb_refl.
        rewrite (occurrences_of_absent x l Hnot). lia.
      * apply IH in Hin as [Hin ->]. split; [by left|].
        by rewrite String.eqb_refl.
    + intros [Hin ->]. destruct (String.eqb_spec s x) as [->|Hne].
      * right. split; [done|]. destruct (decide (x ∈ l)) as [Hx|Hx].
        -- right. exists (More.occurrences_of x l). split; [by apply IH|done].
        -- left. split; [done|]. rewrite (occurrences_of_absent x l Hx). lia.
      * left. split; [done|]. apply IH. destruct Hin as [Hin|Hin]; [|done].
        split; [done|lia].
Qed.

End CountingMore.

Section ShinglesMore.
Import RDKit MAP.
Context `{Datasketch.Permutations} `{Parser}.
Local Open Scope Z_scope.

(** X12. In count mode [_get_atom_pair_shingles] returns one byte string per
    distinct shingle, built from the shingle and a count that is the number
    of (atom pair, radius) combinations producing it: the dictionary holds
    each distinct shingle once, with its number of occurrences. *)
Theorem count_mode_counts_occurrences (self : MAPFingerprint) (mol : Mol) :
  variant self = count →
  _get_atom_pair_shingles self mol (_get_atom_envs self mol)
  = Ok (map (fun kv => Py.encode (fst kv +:+ "|" +:+ Py.str (snd kv)))
            (Spec.counted self mol))
  ∧ NoDup (Spec.counted self mol).*1
  ∧ ∀ s c, (s, c) ∈ Spec.counted self mol
           ↔ s ∈ Spec.occurrences self mol
             ∧ c = More.occurrences_of s (Spec.occurrences self mol).
Proof.
  intros Hv. split.
  - rewrite atom_pair_shingles_spec. unfold Spec.hashed_strings.
    rewrite Hv. cbn [is_count]. by rewrite map_map.
  - apply counted_contents.
Qed.

Lemma combinations2_length {A : Type} (xs : list A) :
  (2 * length (Py.combinations2 xs) = length xs * (length xs - 1))%nat.
Proof.
  induction xs as [|x xs IH]; [reflexivity|].
  cbn [Py.combinations2 length]. rewrite length_app, length_map. nia.
Qed.

Lemma flat_map_length_le {A B : Type} (f : A → list B) (c : nat) (l : list A) :
  (∀ x, length (f x) ≤ c)%nat → (length (flat_map f l) ≤ c * length l)%nat.
Proof.
  intros Hf. induction l as [|x l IH]; cbn [flat_map length]; [lia|].
  rewrite length_app. specialize (Hf x). nia.
Qed.

(** X13. A molecule of [n] atoms has at most [n (n - 1) / 2 * radius]
    shingle occurrences, and [_get_atom_pair_shingles] never returns more
    byte strings than that, in any variant. *)
Theorem shingle_count_bound (self : MAPFingerprint) (mol : Mol) :
  ∃ shingles,
    _get_atom_pair_shingles self mol (_get_atom_envs self mol) = Ok shingles
    ∧ (length shingles ≤ length (Spec.occurrences self mol))%nat
    ∧ (2 * length (Spec.occurrences self mol)
       ≤ GetNumAtoms mol * (GetNumAtoms mol - 1) * radius self)%nat.
Proof.
  eexists. split; [apply atom_pair_shingles_spec|]. split.
  - rewrite length_map. unfold Spec.hashed_strings.
    destruct (is_count _); [|done].
    rewrite length_map, counted_length. apply distinct_le_occurrences.
  - unfold Spec.occurrences.
    pose proof (flat_map_length_le (Spec.pair_occurrences self mol) (radius self)
                  (Py.combinations2 (seq 0 (GetNumAtoms mol)))) as Hle.
    pose proof (combinations2_length (seq 0 (GetNumAtoms mol))) as Hpairs.
    rewrite length_seq in Hpairs.
    assert (∀ p, length (Spec.pair_occurrences self mol p) ≤ radius self)%nat as Hp.
    { intros p. unfold Spec.pair_occurrences.
      pose proof (flat_map_length_le
                    (fun r => Spec.emitted (_find_neighborhood mol p.1 r)
                                           (_find_neighborhood mol p.2 r)
                                           (Spec.distance mol p.1 p.2))
                    1 (seq 1 (radius self))) as Hr.
      rewrite length_seq in Hr. rewrite Nat.mul_1_l in Hr. apply Hr.
      intros r. rewrite emitted_length. destruct (_ && _); lia. }
    specialize (Hle Hp). nia.
Qed.

Lemma no_shingles_zero_vector (self : MAPFingerprint) (mol : Mol) :
  Spec.occurrences self mol = [] → variant self ≠ raw_hashes → 1 ≤ fp_size self →
  _get_atom_pair_shingles self mol (_get_atom_envs self mol) = Ok []
  ∧ _calculate_single_mol_fingerprint self mol = Ok (Spec.zeros (fp_size self)).
Proof.
  intros Hocc Hv Hsize.
  assert (Spec.hashed_strings self mol = []) as Hnone.
  { unfold Spec.hashed_strings, Spec.counted. rewrite Hocc. by destruct (is_count _). }
  split; [by rewrite atom_pair_shingles_spec, Hnone|].
  unfold _calculate_single_mol_fingerprint.
  rewrite atom_pair_shingles_spec, Hnone. cbn.
  destruct (variant self); [done| |]; apply bincount_empty; lia.
Qed.

(** X14. A molecule with fewer than two atoms has no atom pair: no shingle
    is generated, and in the bit and count variants its fingerprint is the
    all-zero vector of [fp_size] entries. *)
Theorem fewer_than_two_atoms (self : MAPFingerprint) (mol : Mol) :
  (GetNumAtoms mol < 2)%nat → variant self ≠ raw_hashes → 1 ≤ fp_size self →
  _get_atom_pair_shingles self mol (_get_atom_envs self mol) = Ok []
  ∧ _calculate_single_mol_fingerprint self mol = Ok (Spec.zeros (fp_size self)).
Proof.
  intros Hn. apply no_shingles_zero_vector.
  unfold Spec.occurrences.
  destruct (GetNumAtoms mol) as [|[|n]]; [reflexivity|reflexivity|lia].
Qed.

(** X15. With [fp_size = 0], which the declared constraint excludes, the
    folded variants divide by zero as soon as the molecule has a shingle,
    and return the empty vector when it has none. *)
Theorem zero_size_divides_by_zero (self : MAPFingerprint) (mol : Mol) :
  fp_size self = 0 → variant self ≠ raw_hashes →
  (Spec.occurrences self mol ≠ [] →
   _calculate_single_mol_fingerprint self mol = Raise ZeroDivisionError)
  ∧ (Spec.occurrences self mol = [] →
     _calculate_single_mol_fingerprint self mol = Ok []).
Proof.
  intros Hsize Hv. unfold _calculate_single_mol_fingerprint.
  rewrite atom_pair_shingles_spec. cbn. split.
  - intros Hocc.
    assert (Spec.hashed_strings self mol ≠ []) as Hne.
    { unfold Spec.hashed_strings. destruct (is_count _); [|done].
      intros Hnil. apply map_eq_nil in Hnil.
      pose proof (counted_length self mol) as Hlen. rewrite Hnil in Hlen.
      unfold Spec.distinct_shingles in Hlen.
      destruct (Spec.occurrences self mol) as [|s l]; [done|].
      assert (s ∈ remove_dups (s :: l)) as Hs
        by (rewrite elem_of_remove_dups; by left).
      destruct (remove_dups (s :: l)); [by apply elem_of_nil in Hs|done]. }
    destruct (Spec.hashed_strings self mol) as [|s l]; [done|].
    assert (fold_bits self (map Py.encode (s :: l)) = Raise ZeroDivisionError) as Hbits.
    { unfold fold_bits.
      rewrite (forM_ok_map _ (fun s => Spec.le_value (take 4 (Hashlib.sha1 s)))).
      2:{ intros b _. apply _get_hash_spec. }
      cbn. unfold Py.mod_. by rewrite Hsize. }
    destruct (variant self); [done| |]; by rewrite Hbits.
  - intros Hocc.
    assert (Spec.hashed_strings self mol = []) as ->.
    { unfold Spec.hashed_strings, Spec.counted. rewrite Hocc. by destruct (is_count _). }
    cbn. destruct (variant self); [done| |]; by rewrite Hsize.
Qed.

End ShinglesMore.

(** ** Order of the shingles and growth of the radius *)

Section OrderAndRadius.
Import RDKit MAP.
Context `{Datasketch.Permutations} `{Parser}.
Local Open Scope Z_scope.

Lemma count_of_permutation (k : Z) (x y : list Z) :
  x ≡ₚ y → Np.count_of k x = Np.count_of k y.
Proof.
  induction 1 as [|a x y _ IH|a b x|x y z _ IHxy _ IHyz].
  - reflexivity.
  - by rewrite !count_of_cons, IH.
  - rewrite !count_of_cons. lia.
  - by rewrite IHxy.
Qed.

(** X16. The folded histogram does not depend on the order of the shingles:
    hashing and binning any rearrangement of a list of shingles gives the
    same vector. *)
Theorem histogram_order_independent (self : MAPFingerprint)
    (shingles shingles' : list (list byte)) :
  shingles ≡ₚ shingles' → 1 ≤ fp_size self →
  (bits ← fold_bits self shingles; Np.bincount bits (fp_size self))
  = (bits ← fold_bits self shingles'; Np.bincount bits (fp_size self))
  ∧ ∃ fp, (bits ← fold_bits self shingles; Np.bincount bits (fp_size self)) = Ok fp.
Proof.
  intros Hperm Hsize. rewrite !fold_bits_spec by done. cbn.
  rewrite !bincount_in_range by (lia || by apply buckets_in_range).
  split; [|eauto]. f_equal. apply map_ext. intros k.
  apply count_of_permutation. by apply Permutation_map.
Qed.

Lemma occurrences_grow (self : MAPFingerprint) (mol : Mol) (r r' : nat) (s : string) :
  (r ≤ r')%nat →
  In s (Spec.occurrences (Spec.with_radius self r) mol) →
  In s (Spec.occurrences (Spec.with_radius self r') mol).
Proof.
  intros Hr. unfold Spec.occurrences, Spec.pair_occurrences.
  cbn [Spec.with_radius radius].
  rewrite !in_flat_map. intros (p & Hp & Hs). exists p. split; [exact Hp|].
  rewrite in_flat_map in Hs |- *. destruct Hs as (k & Hk & Hs).
  exists k. split; [|exact Hs]. apply in_seq in Hk. apply in_seq. lia.
Qed.

(** X17. In the bit variant a larger maximal radius never clears a bit:
    every bit set in the row of a molecule for radius [r] is set in its row
    for any radius [r' >= r]. *)
Theorem larger_radius_keeps_bits (self : MAPFingerprint) (mol : Mol) (r r' : nat) :
  variant self = bit → 1 ≤ fp_size self → (r ≤ r')%nat →
  _calculate_fingerprint (Spec.with_radius self r) [PyMol mol]
  = Ok (Spec.returned self [More.bit_row (Spec.with_radius self r) mol])
  ∧ _calculate_fingerprint (Spec.with_radius self r') [PyMol mol]
    = Ok (Spec.returned self [More.bit_row (Spec.with_radius self r') mol])
  ∧ Forall2 Z.le (More.bit_row (Spec.with_radius self r) mol)
                 (More.bit_row (Spec.with_radius self r') mol).
Proof.
  intros Hv Hsize Hr.
  assert (∀ q, _calculate_fingerprint (Spec.with_radius self q) [PyMol mol]
               = Ok (Spec.returned self
                       [More.bit_row (Spec.with_radius self q) mol])) as Hrow.
  { intros q. rewrite calculate_fingerprint_spec by done.
    cbn [Spec.mols_of Spec.mol_of map]. by rewrite bit_row_spec. }
  split; [apply Hrow|]. split; [apply Hrow|].
  unfold More.bit_row, More.bucket_of. cbn [Spec.with_radius fp_size].
  induction (seq 0 (Z.to_nat (fp_size self))) as [|k ks IH]; [constructor|].
  cbn [map]. constructor; [|exact IH].
  destruct (existsb _ (Spec.occurrences (Spec.with_radius self r) mol)) eqn:Hex.
  - apply existsb_exists in Hex as (s & Hs & Hk).
    assert (existsb (fun s0 => Spec.bucket (fp_size self) (Py.encode s0) =? Z.of_nat k)
                    (Spec.occurrences (Spec.with_radius self r') mol) = true) as ->;
      [|lia].
    apply existsb_exists. exists s. split; [|exact Hk].
    by apply (occurrences_grow self mol r r').
  - destruct (existsb _ (Spec.occurrences (Spec.with_radius self r') mol)); lia.
Qed.

End OrderAndRadius.

(** ** How many sub-batches [transform] dispatches *)

Section SubBatchCount.
Import RDKit.
Context `{Parser}.

Lemma sub_batches_count (b : nat) (X : list PyObj) :
  1 ≤ b →
  length X ≤ length (Spec.sub_batches b X) * b
  ∧ length (Spec.sub_batches b X) * b < length X + b.
Proof.
  intros Hb. split.
  - pose proof (sub_batches_lookup b X (length (Spec.sub_batches b X)) Hb) as Hend.
    rewrite lookup_ge_None_2 in Hend by lia.
    case_decide; [done|lia].
  - destruct (length (Spec.sub_batches b X)) as [|n] eqn:Hn; [lia|].
    pose proof (sub_batches_lookup b X n Hb) as Hlast.
    destruct (lookup_lt_is_Some_2 (Spec.sub_batches b X) n) as [c Hc]; [lia|].
    rewrite Hc in Hlast. case_decide; [|done]. lia.
Qed.

(** X18. With [n_jobs > 1] and an input that passes validation,
    [transform] cuts the validated list into sub-batches of
    [max(len(X) // n_jobs, 1)] elements. With at least [n_jobs] elements
    there are between [n_jobs] and [2 * n_jobs - 1] sub-batches (more
    sub-batches than workers when the division leaves a remainder); with
    fewer elements every element is a sub-batch of its own. *)
Theorem transform_sub_batch_count (calc : list PyObj → result Np.arraylike)
    (n_jobs : nat) (X : list PyObj) :
  1 < n_jobs → Forall (fun o => Spec.wrong_type o = false) X →
  Base.transform calc n_jobs X
  = (map Spec.converted X,
     results ← forM calc (Spec.sub_batches (Nat.max (length X / n_jobs) 1)
                                            (map Spec.converted X));
     Np.concatenate results)
  ∧ (n_jobs ≤ length X →
     n_jobs ≤ length (Spec.sub_batches (Nat.max (length X / n_jobs) 1)
                                       (map Spec.converted X))
     ≤ 2 * n_jobs - 1)
  ∧ (length X < n_jobs →
     length (Spec.sub_batches (Nat.max (length X / n_jobs) 1)
                              (map Spec.converted X))
     = length X).
Proof.
  intros Hjobs Hok.
  set (b := Nat.max (length X / n_jobs) 1).
  assert (1 ≤ b) as Hb by lia.
  destruct (sub_batches_count b (map Spec.converted X) Hb) as [Hlow Hhigh].
  rewrite length_map in Hlow, Hhigh.
  pose proof (Nat.div_mod_eq (length X) n_jobs) as Hdiv.
  pose proof (Nat.mod_upper_bound (length X) n_jobs) as Hmod.
  split; [|split].
  - unfold Base.transform. rewrite validate_input_spec, (validated_accepts X Hok).
    f_equal. cbn.
    destruct (Nat.eqb_spec n_jobs 1) as [->|_]; [lia|].
    unfold Py.floordiv. destruct (Nat.eqb_spec n_jobs 0) as [->|_]; [lia|]. cbn.
    rewrite length_map. fold b. unfold Base.dispatch, Py.range3.
    destruct (Nat.eqb_spec b 0) as [Hz|_]; [lia|]. cbn.
    by rewrite (forM_compose calc
                  (fun i => Py.slice (map Spec.converted X) i (i + b))).
  - intros Hlen.
    assert (1 ≤ length X / n_jobs) as Hq.
    { apply Nat.div_le_lower_bound; lia. }
    assert (b = length X / n_jobs) as Hbq by lia.
    split; nia.
  - intros Hlen.
    assert (length X / n_jobs = 0) as Hq by (apply Nat.div_small; lia).
    assert (b = 1) as Hb1 by lia. lia.
Qed.

End SubBatchCount.

(** * The further properties on concrete inputs *)

Section MoreInstances.
Import RDKit MAP Examples.
Local Open Scope Z_scope.

Lemma validation_raises_iff_wrong_type_witness :
  (∃ o, o ∈ [PyMol LiF; PyInt 7] ∧ Spec.wrong_type o = true)
  ∧ snd (Base._validate_input [PyMol LiF; PyInt 7]) = Raise ValueError.
Proof.
  assert (∃ o, o ∈ [PyMol LiF; PyInt 7] ∧ Spec.wrong_type o = true) as Hbad.
  { exists (PyInt 7). split; [|reflexivity].
    apply list_elem_of_further, list_elem_of_here. }
  split; [exact Hbad|].
  exact (proj2 (proj1 (validation_raises_iff_wrong_type [PyMol LiF; PyInt 7])) Hbad).
Defined.

Lemma failed_validation_overwrites_prefix_witness :
  [PyStr "[Li]F"; PyInt 7; PyStr "C(C)(C)CCC"] !! 1%nat = Some (PyInt 7)
  ∧ Spec.wrong_type (PyInt 7) = true
  ∧ Forall (fun o' => Spec.wrong_type o' = false)
           (take 1 [PyStr "[Li]F"; PyInt 7; PyStr "C(C)(C)CCC"])
  ∧ Base.transform (_calculate_fingerprint default_map) 2
      [PyStr "[Li]F"; PyInt 7; PyStr "C(C)(C)CCC"]
    = (map Spec.converted (take 1 [PyStr "[Li]F"; PyInt 7; PyStr "C(C)(C)CCC"])
       ++ drop 1 [PyStr "[Li]F"; PyInt 7; PyStr "C(C)(C)CCC"],
       Raise ValueError).
Proof.
  assert ([PyStr "[Li]F"; PyInt 7; PyStr "C(C)(C)CCC"] !! 1%nat = Some (PyInt 7))
    as Hk by reflexivity.
  assert (Spec.wrong_type (PyInt 7) = true) as Ho by reflexivity.
  assert (Forall (fun o' => Spec.wrong_type o' = false)
            (take 1 [PyStr "[Li]F"; PyInt 7; PyStr "C(C)(C)CCC"])) as Hpre.
  { repeat constructor. }
  split; [exact Hk|]. split; [exact Ho|]. split; [exact Hpre|].
  exact (failed_validation_overwrites_prefix (_calculate_fingerprint default_map) 2
           [PyStr "[Li]F"; PyInt 7; PyStr "C(C)(C)CCC"] 1 (PyInt 7) Hk Ho Hpre).
Defined.

Lemma validation_idempotent_on_parsed_witness :
  Forall (fun o => Spec.unrecognised o = false) [PyStr "[Li]F"; PyMol methylpentane]
  ∧ Base._validate_input (map Spec.converted [PyStr "[Li]F"; PyMol methylpentane])
    = (map Spec.converted [PyStr "[Li]F"; PyMol methylpentane], Ok ()).
Proof.
  assert (Forall (fun o => Spec.unrecognised o = false)
            [PyStr "[Li]F"; PyMol methylpentane]) as Hrec.
  { repeat constructor. }
  split; [exact Hrec|].
  exact (proj2 (proj2 (validation_idempotent_on_parsed
                         [PyStr "[Li]F"; PyMol methylpentane] Hrec))).
Defined.

Lemma revalidation_fails_after_unparseable_witness :
  Forall (fun o => Spec.wrong_type o = false) [PyStr "not a molecule"]
  ∧ PyStr "not a molecule" ∈ [PyStr "not a molecule"]
  ∧ MolFromSmiles "not a molecule" = None
  ∧ snd (Base._validate_input (fst (Base._validate_input [PyStr "not a molecule"])))
    = Raise ValueError.
Proof.
  assert (Forall (fun o => Spec.wrong_type o = false) [PyStr "not a molecule"])
    as Hok by (repeat constructor).
  assert (PyStr "not a molecule" ∈ [PyStr "not a molecule"]) as Hin
    by apply list_elem_of_here.
  assert (MolFromSmiles "not a molecule" = None) as Hparse by reflexivity.
  split; [exact Hok|]. split; [exact Hin|]. split; [exact Hparse|].
  exact (proj2 (proj2 (revalidation_fails_after_unparseable
                         [PyStr "not a molecule"] "not a molecule" Hok Hin Hparse))).
Defined.

Lemma sub_batches_partition_witness :
  (1 ≤ 2)%nat
  ∧ concat (Spec.sub_batches 2 [PyMol LiF; PyMol methylpentane; PyMol LiF])
    = [PyMol LiF; PyMol methylpentane; PyMol LiF].
Proof.
  assert (1 ≤ 2)%nat as Hb by lia.
  split; [exact Hb|].
  exact (proj1 (proj2 (sub_batches_partition (_calculate_fingerprint default_map) 2
                         [PyMol LiF; PyMol methylpentane; PyMol LiF] Hb))).
Defined.

Lemma row_wise_parallel_equals_sequential_witness :
  More.row_wise (fun X => Ok (Np.ndarray (map (fun _ => [0]) X))) (fun _ => [0]) 1
  ∧ (1 < 3)%nat
  ∧ [PyMol LiF; PyStr "[Li]F"] ≠ []
  ∧ Base.transform (fun X => Ok (Np.ndarray (map (fun _ => [0]) X))) 3 [PyMol LiF; PyStr "[Li]F"]
    = Base.transform (fun X => Ok (Np.ndarray (map (fun _ => [0]) X))) 1 [PyMol LiF; PyStr "[Li]F"].
Proof.
  assert (More.row_wise (fun X => Ok (Np.ndarray (map (fun _ => [0]) X))) (fun _ => [0]) 1)
    as Hrow.
  { split; [reflexivity|]. intros X _. reflexivity. }
  assert (1 < 3)%nat as Hjobs by lia.
  assert ([PyMol LiF; PyStr "[Li]F"] ≠ []) as HX by discriminate.
  split; [exact Hrow|]. split; [exact Hjobs|]. split; [exact HX|].
  exact (row_wise_parallel_equals_sequential _ _ 1%nat 3
           [PyMol LiF; PyStr "[Li]F"] Hrow Hjobs HX).
Defined.

Lemma transform_empty_input_witness :
  (1 < 2)%nat
  ∧ Base.transform (_calculate_fingerprint default_map) 2 [] = ([], Raise ValueError).
Proof.
  assert (1 < 2)%nat as Hjobs by lia.
  split; [exact Hjobs|].
  exact (proj1 (transform_empty_input (_calculate_fingerprint default_map) 2) Hjobs).
Defined.

Lemma bit_rows_are_presence_vectors_witness :
  variant (with_variant bit 8 2) = bit
  ∧ 1 ≤ fp_size (with_variant bit 8 2)
  ∧ _calculate_fingerprint (with_variant bit 8 2) [PyMol methylpentane]
    = Ok (Np.ndarray [[1; 0; 0; 1; 0; 1; 1; 0]])
  ∧ Forall (Forall (fun v => v = 0 ∨ v = 1)) [[1; 0; 0; 1; 0; 1; 1; 0]].
Proof.
  assert (variant (with_variant bit 8 2) = bit) as Hv by reflexivity.
  assert (1 ≤ fp_size (with_variant bit 8 2)) as Hsize by (cbn; lia).
  assert (_calculate_fingerprint (with_variant bit 8 2) [PyMol methylpentane]
          = Ok (Np.ndarray [[1; 0; 0; 1; 0; 1; 1; 0]])) as Hrun
    by (vm_compute; reflexivity).
  split; [exact Hv|]. split; [exact Hsize|]. split; [exact Hrun|].
  exact (proj2 (bit_rows_are_presence_vectors (with_variant bit 8 2)
                  [PyMol methylpentane] _ Hv Hsize Hrun)).
Defined.

Lemma set_bits_are_distinct_buckets_witness :
  variant (with_variant bit 8 2) = bit
  ∧ 1 ≤ fp_size (with_variant bit 8 2)
  ∧ Spec.sum_Z (More.bit_row (with_variant bit 8 2) methylpentane)
    = Z.of_nat (length (More.distinct_buckets (with_variant bit 8 2) methylpentane)).
Proof.
  assert (variant (with_variant bit 8 2) = bit) as Hv by reflexivity.
  assert (1 ≤ fp_size (with_variant bit 8 2)) as Hsize by (cbn; lia).
  split; [exact Hv|]. split; [exact Hsize|].
  exact (proj1 (proj2 (set_bits_are_distinct_buckets (with_variant bit 8 2)
                         methylpentane Hv Hsize))).
Defined.

Lemma bit_histogram_counts_occurrences_witness :
  variant (with_variant bit 16 2) = bit
  ∧ 1 ≤ fp_size (with_variant bit 16 2)
  ∧ ∃ fp, _calculate_single_mol_fingerprint (with_variant bit 16 2) methylpentane
          = Ok fp
          ∧ Spec.sum_Z fp
            = Z.of_nat (Spec.valid_combinations (with_variant bit 16 2) methylpentane).
Proof.
  assert (variant (with_variant bit 16 2) = bit) as Hv by reflexivity.
  assert (1 ≤ fp_size (with_variant bit 16 2)) as Hsize by (cbn; lia).
  split; [exact Hv|]. split; [exact Hsize|].
  exact (bit_histogram_counts_occurrences (with_variant bit 16 2) methylpentane
           Hv Hsize).
Defined.

Lemma count_entries_bounded_witness :
  variant (with_variant count 16 2) = count
  ∧ 1 ≤ fp_size (with_variant count 16 2)
  ∧ ∃ fp, _calculate_single_mol_fingerprint (with_variant count 16 2) methylpentane
          = Ok fp
          ∧ Forall (fun v => 0 ≤ v ≤ Z.of_nat (length (Spec.distinct_shingles
                                                         (with_variant count 16 2)
                                                         methylpentane))) fp
          ∧ (Z.of_nat (length (Spec.distinct_shingles (with_variant count 16 2)
                                                      methylpentane)) < 2 ^ 32 →
             map (cast (variant (with_variant count 16 2))) fp = fp).
Proof.
  assert (variant (with_variant count 16 2) = count) as Hv by reflexivity.
  assert (1 ≤ fp_size (with_variant count 16 2)) as Hsize by (cbn; lia).
  split; [exact Hv|]. split; [exact Hsize|].
  exact (count_entries_bounded (with_variant count 16 2) methylpentane Hv Hsize).
Defined.

Lemma count_mode_counts_occurrences_witness :
  variant (with_variant count 16 2) = count
  ∧ NoDup (Spec.counted (with_variant count 16 2) methylpentane).*1.
Proof.
  assert (variant (with_variant count 16 2) = count) as Hv by reflexivity.
  split; [exact Hv|].
  exact (proj1 (proj2 (count_mode_counts_occurrences (with_variant count 16 2)
                         methylpentane Hv))).
Defined.

Lemma transform_sub_batch_count_witness :
  (1 < 2)%nat
  ∧ Forall (fun o => Spec.wrong_type o = false)
           [PyMol LiF; PyMol methylpentane; PyMol LiF; PyMol LiF; PyMol LiF]
  ∧ (2 ≤ length (Spec.sub_batches
                   (Nat.max (length [PyMol LiF; PyMol methylpentane; PyMol LiF;
                                     PyMol LiF; PyMol LiF] / 2) 1)
                   (map Spec.converted [PyMol LiF; PyMol methylpentane; PyMol LiF;
                                        PyMol LiF; PyMol LiF]))
     ≤ 2 * 2 - 1)%nat.
Proof.
  assert (1 < 2)%nat as Hjobs by lia.
  assert (Forall (fun o => Spec.wrong_type o = false)
            [PyMol LiF; PyMol methylpentane; PyMol LiF; PyMol LiF; PyMol LiF])
    as Hok by (repeat constructor).
  assert (2 ≤ length [PyMol LiF; PyMol methylpentane; PyMol LiF; PyMol LiF;
                      PyMol LiF])%nat as Hlen by (cbn; lia).
  split; [exact Hjobs|]. split; [exact Hok|].
  exact (proj1 (proj2 (transform_sub_batch_count (_calculate_fingerprint default_map)
                         2 _ Hjobs Hok)) Hlen).
Defined.

Lemma fewer_than_two_atoms_witness :
  (GetNumAtoms More.water < 2)%nat
  ∧ variant default_map ≠ raw_hashes
  ∧ 1 ≤ fp_size default_map
  ∧ _calculate_single_mol_fingerprint default_map More.water
    = Ok (Spec.zeros (fp_size default_map)).
Proof.
  assert (GetNumAtoms More.water < 2)%nat as Hn by (cbn; lia).
  assert (variant default_map ≠ raw_hashes) as Hv by discriminate.
  assert (1 ≤ fp_size default_map) as Hsize by (cbn; lia).
  split; [exact Hn|]. split; [exact Hv|]. split; [exact Hsize|].
  exact (proj2 (fewer_than_two_atoms default_map More.water Hn Hv Hsize)).
Defined.

Lemma zero_size_divides_by_zero_witness :
  fp_size (with_variant bit 0 2) = 0
  ∧ variant (with_variant bit 0 2) ≠ raw_hashes
  ∧ Spec.occurrences (with_variant bit 0 2) methylpentane ≠ []
  ∧ _calculate_single_mol_fingerprint (with_variant bit 0 2) methylpentane
    = Raise ZeroDivisionError.
Proof.
  assert (fp_size (with_variant bit 0 2) = 0) as Hsize by reflexivity.
  assert (variant (with_variant bit 0 2) ≠ raw_hashes) as Hv by discriminate.
  assert (Spec.occurrences (with_variant bit 0 2) methylpentane ≠ []) as Hocc
    by (vm_compute; discriminate).
  split; [exact Hsize|]. split; [exact Hv|]. split; [exact Hocc|].
  exact (proj1 (zero_size_divides_by_zero (with_variant bit 0 2) methylpentane
                  Hsize Hv) Hocc).
Defined.

Lemma histogram_order_independent_witness :
  [Py.encode "CC|2|CC(C)C"; Py.encode "C(C)C(C)C|2|CC"]
    ≡ₚ [Py.encode "C(C)C(C)C|2|CC"; Py.encode "CC|2|CC(C)C"]
  ∧ 1 ≤ fp_size default_map
  ∧ (bits ← fold_bits default_map
              [Py.encode "CC|2|CC(C)C"; Py.encode "C(C)C(C)C|2|CC"];
     Np.bincount bits (fp_size default_map))
    = (bits ← fold_bits default_map
                [Py.encode "C(C)C(C)C|2|CC"; Py.encode "CC|2|CC(C)C"];
       Np.bincount bits (fp_size default_map)).
Proof.
  assert ([Py.encode "CC|2|CC(C)C"; Py.encode "C(C)C(C)C|2|CC"]
            ≡ₚ [Py.encode "C(C)C(C)C|2|CC"; Py.encode "CC|2|CC(C)C"]) as Hperm
    by apply perm_swap.
  assert (1 ≤ fp_size default_map) as Hsize by (cbn; lia).
  split; [exact Hperm|]. split; [exact Hsize|].
  exact (proj1 (histogram_order_independent default_map _ _ Hperm Hsize)).
Defined.

Lemma larger_radius_keeps_bits_witness :
  variant default_map = bit ∧ 1 ≤ fp_size default_map ∧ (1 ≤ 2)%nat
  ∧ Forall2 Z.le (More.bit_row (Spec.with_radius default_map 1) methylpentane)
                 (More.bit_row (Spec.with_radius default_map 2) methylpentane).
Proof.
  assert (variant default_map = bit) as Hv by reflexivity.
  assert (1 ≤ fp_size default_map) as Hsize by (cbn; lia).
  assert (1 ≤ 2)%nat as Hr by lia.
  split; [exact Hv|]. split; [exact Hsize|]. split; [exact Hr|].
  exact (proj2 (proj2 (larger_radius_keeps_bits default_map methylpentane 1 2
                         Hv Hsize Hr))).
Defined.

End MoreInstances.
